(** * InsightForge web dashboard: a shallow embedding of the client code

    The repository's JavaScript sources are embedded as Rocq functions:

    - [Js]      the string and number primitives the sources call
                ([trim], [toLowerCase], [includes], [replace], [split],
                [Math.round], truthiness of strings and numbers);
    - [Regex]   a backtracking matcher for the fragment of JavaScript regular
                expressions that occurs in the sources, with [String.match];
    - [Config]  webapp/config.js (the [CONFIG] object);
    - [Ui]      webapp/ui.js ([extractMeta], [scoreToBadge], [updateBadges],
                [extractSection], [updateRiskList], [updateRecommendations]);
    - [Data], [Net]  the rows, briefs' source handles, report objects and
                network answers the dashboards exchange;
    - [Api]     the API client that the dashboards import as ./api.js
                ([runAnalysis], [fetchHealth], [fetchAuthStatus]);
    - [App]     webapp/app.js ([handleFiles], [handleRunAnalysis], [callAPI],
                [displayResults], [resetToDashboard], [checkAPIHealth]);
    - [Wizard]  the step-by-step dashboard that follows [CONFIG] in
                webapp/config.js ([handleStep1Next], [handleStep4Run],
                [runAnalysis], [showResults], [checkApiHealth] and the
                listeners of the form).

    Modelling conventions.

    - Strings are Stdlib strings, one [ascii] per character.  The sources'
      texts (file names, form values, reports) are taken to be ASCII: the case
      mappings and white-space classes of JavaScript outside ASCII are not
      modelled.
    - JavaScript numbers are modelled by exact rationals [Q].  The comparisons
      of the sources are against 0.5, 0.8, 50 and 75, on a score or on 100
      times a score; on every IEEE double they give the answer they give on
      the rational it denotes, so the classifiers below are exact.
      [Math.round(x * 100)] is [floor (100 x + 1/2)] on the rational;
      JavaScript rounds the product to a double first, which agrees at the
      values the statements use (0.75, 0.8, 0.9, 1).
    - A JavaScript object used as a dictionary is a [gmap string _]; an
      assignment to the key [__proto__] creates no own property and is
      dropped.
    - Asynchronous functions are run to completion against an oracle that
      says how the network answers; state is passed explicitly. *)

From Stdlib Require Import Ascii String List ZArith QArith Qround Lia Lqa Bool DecimalString.
From stdpp Require Import gmap strings.

Open Scope string_scope.

(** ** JavaScript primitives *)

Module Js.

Definition is_upper (c : ascii) : bool :=
  let n := nat_of_ascii c in (65 <=? n)%nat && (n <=? 90)%nat.

Definition is_lower (c : ascii) : bool :=
  let n := nat_of_ascii c in (97 <=? n)%nat && (n <=? 122)%nat.

Definition is_digit (c : ascii) : bool :=
  let n := nat_of_ascii c in (48 <=? n)%nat && (n <=? 57)%nat.

Definition is_alpha (c : ascii) : bool := is_upper c || is_lower c.

(** White space and line terminators, as [trim] and [\s] see them. *)
Definition is_space (c : ascii) : bool :=
  let n := nat_of_ascii c in ((9 <=? n)%nat && (n <=? 13)%nat) || (n =? 32)%nat.

Definition lower_char (c : ascii) : ascii :=
  if is_upper c then ascii_of_nat (nat_of_ascii c + 32) else c.

Definition upper_char (c : ascii) : ascii :=
  if is_lower c then ascii_of_nat (nat_of_ascii c - 32) else c.

Fixpoint toLowerCase (s : string) : string :=
  match s with
  | EmptyString => EmptyString
  | String c s' => String (lower_char c) (toLowerCase s')
  end.

Fixpoint toUpperCase (s : string) : string :=
  match s with
  | EmptyString => EmptyString
  | String c s' => String (upper_char c) (toUpperCase s')
  end.

Fixpoint trimStart (s : string) : string :=
  match s with
  | String c s' => if is_space c then trimStart s' else s
  | EmptyString => EmptyString
  end.

(** [trimEnd] keeps a character when it is not white space or when something
    is left after it. *)
Fixpoint trimEnd (s : string) : string :=
  match s with
  | EmptyString => EmptyString
  | String c s' =>
      match trimEnd s' with
      | EmptyString => if is_space c then EmptyString else String c EmptyString
      | t => String c t
      end
  end.

Definition trim (s : string) : string := trimEnd (trimStart s).

(** Truthiness of a string: the empty string is falsy. *)
Definition truthy_str (s : string) : bool :=
  match s with EmptyString => false | _ => true end.

(** [x?.value || d] for a string-valued [x?.value]. *)
Definition or_str (o : option string) (d : string) : string :=
  match o with
  | Some s => if truthy_str s then s else d
  | None => d
  end.

(** [hay.includes(needle)] *)
Fixpoint includes (hay needle : string) : bool :=
  String.prefix needle hay
  || match hay with
     | EmptyString => false
     | String _ hay' => includes hay' needle
     end.

Fixpoint drop (n : nat) (s : string) : string :=
  match n, s with
  | O, _ => s
  | S n', String _ s' => drop n' s'
  | S _, EmptyString => EmptyString
  end.

(** [s.replace(pat, rep)] with a string pattern: the first occurrence only. *)
Fixpoint replace (s pat rep : string) : string :=
  if String.prefix pat s then rep ++ drop (String.length pat) s
  else match s with
       | EmptyString => EmptyString
       | String c s' => String c (replace s' pat rep)
       end.

(** [s.split(sep)] for a one-character separator; never the empty list. *)
Fixpoint split (sep : ascii) (s : string) : list string :=
  match s with
  | EmptyString => [EmptyString]
  | String c s' =>
      if Ascii.eqb c sep then EmptyString :: split sep s'
      else match split sep s' with
           | w :: ws => String c w :: ws
           | [] => [String c EmptyString]
           end
  end.

(** [xs.join(sep)] *)
Fixpoint join (sep : string) (xs : list string) : string :=
  match xs with
  | [] => EmptyString
  | [x] => x
  | x :: xs' => x ++ sep ++ join sep xs'
  end.

(** [xs.slice(0, n)] *)
Definition slice0 {A} (n : nat) (xs : list A) : list A := firstn n xs.

(** Truthiness of a number: zero is falsy (there is no NaN in [Q]). *)
Definition truthy_num (q : Q) : bool := negb (Qeq_bool q 0).

(** [x || d] for a number-valued field that may be absent. *)
Definition or_num (o : option Q) (d : Q) : Q :=
  match o with
  | Some q => if truthy_num q then q else d
  | None => d
  end.

(** [Math.round] *)
Definition round (q : Q) : Z := Qfloor (q + (1 # 2)).

(** An integer printed in decimal, as string concatenation does. *)
Definition show_Z (z : Z) : string := NilZero.string_of_int (Z.to_int z).

(** The value of a run of decimal digits, for [Number] and [parseInt] on what
    [\d+] captured.  JavaScript returns the nearest double, which is the value
    itself below 2^53; the model keeps the value. *)
Definition digit_val (c : ascii) : Z := Z.of_nat (nat_of_ascii c - 48).

Definition digits_val (ds : list ascii) : Z :=
  fold_left (fun acc c => (10 * acc + digit_val c)%Z) ds 0%Z.

Definition Number_of_digits (ds : list ascii) : Q := inject_Z (digits_val ds).

End Js.

(** ** Regular expressions

    The fragment of JavaScript regular expressions used by the sources, with
    the matching order of the language: alternatives left to right, greedy
    quantifiers longest first, lazy quantifiers shortest first, and
    [String.prototype.match] trying the start positions from the left.
    The matcher is written in continuation-passing style; a capture group
    records the text it matched. *)

Module Regex.

Inductive re : Type :=
| Eps                              (* the empty pattern *)
| Chr (p : ascii -> bool)          (* one character satisfying [p] *)
| Seq (r1 r2 : re)                 (* r1 r2 *)
| Alt (r1 r2 : re)                 (* r1|r2 *)
| Star (greedy : bool) (r : re)    (* r* and r*? *)
| Group (i : nat) (r : re)         (* the i-th capturing group *)
| EndIn.                           (* $ without the m flag *)

(** The captures of a match: group number to captured text; a group that
    did not take part is absent ([undefined] in JavaScript). *)
Abbreviation caps := (gmap nat (list ascii)).

Definition orelse {A} (x : option A) (y : option A) : option A :=
  match x with Some _ => x | None => y end.

(** [m r s c k]: match [r] at the front of [s], then continue with [k] on
    the rest.  An iteration of a star that consumes nothing is rejected, as
    the language prescribes; the fuel of the loop is the length of the
    input, which each accepted iteration shortens. *)
Fixpoint m (r : re) (s : list ascii) (c : caps)
           (k : list ascii -> caps -> option caps) {struct r} : option caps :=
  match r with
  | Eps => k s c
  | Chr p =>
      match s with
      | a :: s' => if p a then k s' c else None
      | [] => None
      end
  | Seq r1 r2 => m r1 s c (fun s' c' => m r2 s' c' k)
  | Alt r1 r2 => orelse (m r1 s c k) (m r2 s c k)
  | Star g r' =>
      (fix loop (n : nat) (s : list ascii) (c : caps) {struct n} : option caps :=
         match n with
         | O => k s c
         | S n' =>
             if g then
               orelse
                 (m r' s c (fun s' c' =>
                    if (length s' <? length s)%nat then loop n' s' c' else None))
                 (k s c)
             else
               orelse
                 (k s c)
                 (m r' s c (fun s' c' =>
                    if (length s' <? length s)%nat then loop n' s' c' else None))
         end) (length s) s c
  | Group i r' =>
      m r' s c (fun s' c' => k s' (<[i := firstn (length s - length s') s]> c'))
  | EndIn => match s with [] => k s c | _ => None end
  end.

(** One attempt at the start of [s]. *)
Definition match_here (r : re) (s : list ascii) : option caps :=
  m r s ∅ (fun _ c => Some c).

(** [s.match(r)] for a regular expression without the g flag: the first
    start position, from the left, at which the pattern matches. *)
Fixpoint search (r : re) (s : list ascii) : option caps :=
  match match_here r s with
  | Some c => Some c
  | None =>
      match s with
      | [] => None
      | _ :: s' => search r s'
      end
  end.

Definition match_ (s : string) (r : re) : option caps :=
  search r (list_ascii_of_string s).

(** *** Pattern syntax *)

Definition Opt (r : re) : re := Alt r Eps.            (* r? *)
Definition Plus (r : re) : re := Seq r (Star true r). (* r+ *)

(** A literal character under the i flag: both sides are compared after
    upper-casing. *)
Definition chr_i (c : ascii) : re :=
  Chr (fun a => Ascii.eqb (Js.upper_char a) (Js.upper_char c)).

Fixpoint lit_i (s : string) : re :=
  match s with
  | EmptyString => Eps
  | String c EmptyString => chr_i c
  | String c s' => Seq (chr_i c) (lit_i s')
  end.

Definition digit : re := Chr Js.is_digit.             (* \d *)
Definition space : re := Chr Js.is_space.             (* \s *)
Definition alpha : re := Chr Js.is_alpha.             (* [A-Za-z] *)
Definition any : re := Chr (fun _ => true).           (* [\s\S] *)
(** [.] : any character but a line terminator *)
Definition dot : re :=
  Chr (fun a => negb (Ascii.eqb a "010"%char || Ascii.eqb a "013"%char)).

Fixpoint seq (rs : list re) : re :=
  match rs with
  | [] => Eps
  | [r] => r
  | r :: rs' => Seq r (seq rs')
  end.

End Regex.

(** ** webapp/config.js *)

Module Config.

Record Sources : Type := {
  catalog : string;
  reviews : string;
  pricing : string;
  competitors : string;
  performance_signals : string;
}.

Record t : Type := {
  API_BASE_URL : string;
  API_TIMEOUT : N;            (* milliseconds *)
  MAX_RETRIES : nat;
  USE_MOCK_DATA_FALLBACK : bool;
  ENABLE_LOGGING : bool;
  DEFAULT_SOURCES : Sources;
}.

Definition CONFIG : t := {|
  API_BASE_URL := "https://insightforge-production-57a5.up.railway.app";
  API_TIMEOUT := 30000%N;
  MAX_RETRIES := 2;
  USE_MOCK_DATA_FALLBACK := true;
  ENABLE_LOGGING := true;
  DEFAULT_SOURCES := {|
    catalog := "catalog.json";
    reviews := "reviews.json";
    pricing := "pricing.json";
    competitors := "competitors.json";
    performance_signals := "performance_signals.json";
  |};
|}.

End Config.

(** ** webapp/ui.js *)

Module Ui.
Import Regex.

(** [/Confidence Score:\s*(\d+)%/i] *)
Definition confidence_re : re :=
  seq [lit_i "Confidence Score:"; Star true space; Group 1 (Plus digit); lit_i "%"].

(** [/Data Completeness(?: Assessment)?:\s*([A-Za-z]+)(?:\s*\((\d+)%\))?/i] *)
Definition completeness_re : re :=
  seq [lit_i "Data Completeness"; Opt (lit_i " Assessment"); lit_i ":";
       Star true space; Group 1 (Plus alpha);
       Opt (seq [Star true space; lit_i "("; Group 2 (Plus digit); lit_i "%"; lit_i ")"])].

Record Meta : Type := {
  confidence : option Q;
  completenessLabel : option string;
  completenessScore : option Q;
}.

Definition extractMeta (report : string) : Meta :=
  let confidenceMatch := match_ report confidence_re in
  let completenessMatch := match_ report completeness_re in
  {| confidence :=
       match confidenceMatch with
       | Some c => Js.Number_of_digits <$> c !! 1%nat
       | None => None
       end;
     completenessLabel :=
       match completenessMatch with
       | Some c => string_of_list_ascii <$> c !! 1%nat
       | None => None
       end;
     completenessScore :=
       match completenessMatch with
       | Some c => Js.Number_of_digits <$> c !! 2%nat
       | None => None
       end |}.

Record Badge : Type := {
  label : string;
  className : string;
  colorClass : string;
}.

Definition scoreToBadge (score : Q) : Badge :=
  if Qle_bool 75 score then
    {| label := "High"; className := "badge-confidence-high"; colorClass := "value-high" |}
  else if Qle_bool 50 score then
    {| label := "Medium"; className := "badge-confidence-mid"; colorClass := "value-mid" |}
  else
    {| label := "Low"; className := "badge-confidence-low"; colorClass := "value-low" |}.

(** *** Sections of the report, lists and metric cards *)

(** [/^[-*]\s+/]: a bullet at the start of the line and the white space after
    it.  Group 0 stands for the whole match. *)
Definition bullet_re : re :=
  Group 0 (Seq (Chr (fun a => Ascii.eqb a "-"%char || Ascii.eqb a "*"%char)) (Plus space)).

(** [line.replace(/^[-*]\s+/, "")] *)
Definition stripBullet (line : string) : string :=
  match match_here bullet_re (list_ascii_of_string line) with
  | Some c =>
      match c !! 0%nat with
      | Some matched => Js.drop (length matched) line
      | None => line
      end
  | None => line
  end.

(** [new RegExp(`${sectionTitle}\\n([\\s\\S]*?)(?:\\n##|$)`, "i")], for a
    title without pattern characters, as the two titles in use. *)
Definition section_re (sectionTitle : string) : re :=
  seq [lit_i sectionTitle; chr_i "010"%char; Group 1 (Star false any);
       Alt (Seq (chr_i "010"%char) (lit_i "##")) EndIn].

Definition extractSection (report sectionTitle : string) : list string :=
  match match_ report (section_re sectionTitle) with
  | None => []
  | Some c =>
      match c !! 1%nat with
      | Some body =>
          List.filter
            (fun line => Js.truthy_str line && negb (String.prefix "#" line))
            (map (fun line => Js.trim (stripBullet line))
               (Js.split "010"%char (string_of_list_ascii body)))
      | None => []
      end
  end.

(** [renderList]: the texts of the list items that replace the content. *)
Definition renderList (items : list string) : list string := items.

Definition updateRiskList (report : string) : list string :=
  let risks := extractSection report "Risk Flags" in
  renderList (match risks with [] => ["No explicit risk flags found."] | _ => risks end).

Definition updateRecommendations (report : string) : list string :=
  let recs := extractSection report "Strategic Recommendations" in
  renderList (match recs with [] => ["No recommendations extracted."] | _ => recs end).

Definition getCompletenessColor (score : Q) : string :=
  if Qle_bool 75 score then "rgba(78, 209, 139, 0.5)"
  else if Qle_bool 50 score then "rgba(242, 201, 76, 0.5)"
  else "rgba(255, 107, 107, 0.5)".

Definition getLinearGradient (score : Q) : string :=
  if Qle_bool 75 score then "linear-gradient(90deg, #4ed18b, #41b883)"
  else if Qle_bool 50 score then "linear-gradient(90deg, #f2c94c, #e6b800)"
  else "linear-gradient(90deg, #ff6b6b, #ff5252)".

(** The metric cards that [updateBadges] writes.  The progress bar inside the
    meter is looked up with [querySelector] and may be missing. *)
Module Cards.
Record t : Type := {
  confidenceScore : string;          (* textContent *)
  confidenceScoreClass : string;     (* className *)
  confidenceBadge : string;          (* textContent *)
  confidenceBadgeClass : string;     (* className *)
  completenessScore : string;        (* textContent *)
  meterProgress : option (string * string);   (* style.width, style.background *)
}.
End Cards.



End Ui.

(** ** Data shared by the dashboards *)

Module Data.

(** A cell of a parsed CSV row. *)
Inductive cell : Type :=
| CString (s : string)
| CNumber (q : Q)
| CBool (b : bool)
| CNull
| CUndefined.

(** A parsed row: an object from column name to cell. *)
Abbreviation Row := (gmap string cell).

(** [obj[k] = v] on a plain object. *)
Definition set_prop {V} (k : string) (v : V) (obj : gmap string V) : gmap string V :=
  if String.eqb k "__proto__" then obj else <[k := v]> obj.

(** A source handle of a brief: a file path, or rows given inline. *)
Inductive Handle : Type :=
| Path (path : string)
| Inline (rows : list Row).

Record DataSources : Type := {
  catalog : Handle;
  reviews : Handle;
  pricing : Handle;
  competitors : Handle;
  performance_signals : Handle;
}.

(** The five source kinds, and the handle a brief carries for each. *)
Inductive Kind : Type := Catalog | Reviews | Pricing | Competitors | Performance.

Definition handle_of (k : Kind) (d : DataSources) : Handle :=
  match k with
  | Catalog => catalog d
  | Reviews => reviews d
  | Pricing => pricing d
  | Competitors => competitors d
  | Performance => performance_signals d
  end.

(** The key of a kind in [data_sources]. *)
Definition key_of (k : Kind) : string :=
  match k with
  | Catalog => "catalog"
  | Reviews => "reviews"
  | Pricing => "pricing"
  | Competitors => "competitors"
  | Performance => "performance_signals"
  end.

Record File : Type := {
  name : string;
  size : N;
  text : string;
}.

(** The report object returned by /analyze, as the dashboards read it: the
    fields have the types of the API contract; a field that is absent or
    [null] is [None]. *)
Inductive ReportField : Type := ReportText (s : string) | ReportLines (ls : list string).

Module Result.
Record t : Type := {
  report : option ReportField;
  confidence_score : option Q;
  data_completeness : option Q;
  risks : option (list string);
  recommendations : option (list string);
  mode : option string;
}.
End Result.

End Data.

(** ** Network *)

Module Net.

(** A thrown value: [name] and [message] of the exception object. *)
Record Exn : Type := { name : string; message : string }.

Definition Error (msg : string) : Exn := {| name := "Error"; message := msg |}.

(** How an asynchronous call ends. *)
Inductive Completion (A : Type) : Type :=
| Return (a : A)
| Throw (e : Exn)
| Pending.               (* the promise never settles *)
Arguments Return {A} a.
Arguments Throw {A} e.
Arguments Pending {A}.

(** A response body as the dashboards read it: not JSON ([json()] rejects
    with a SyntaxError carrying the parser's message), an object with an
    optional [detail] string and the fields of a report, or a body that
    never arrives in full ([json()] stays pending). *)
Inductive Body : Type :=
| NotJson (syntaxError : string)
| Json (detail : option string) (result : Data.Result.t)
| Stalls.

Record Response : Type := {
  ok : bool;
  status : N;
  body : Body;
}.

(** How the network answers a request: a response or a failure [t]
    milliseconds after the request, or nothing at all. *)
Inductive FetchOutcome : Type :=
| Responds (t : N) (r : Response)
| Fails (t : N) (e : Exn)
| Hangs.

Definition SyntaxError (msg : string) : Exn := {| name := "SyntaxError"; message := msg |}.
Definition TypeError (msg : string) : Exn := {| name := "TypeError"; message := msg |}.

End Net.

(** ** The API client (imported as ./api.js) *)

Module Api.
Import Net.

(** Response bodies are arbitrary JSON values. *)
#[local] Unset Elimination Schemes.
Inductive json : Type :=
| JNull
| JBool (b : bool)
| JNum (q : Q)
| JStr (s : string)
| JArr (xs : list json)
| JObj (fields : list (string * json)).
#[local] Set Elimination Schemes.

Definition truthy (v : json) : bool :=
  match v with
  | JNull => false
  | JBool b => b
  | JNum q => Js.truthy_num q
  | JStr s => Js.truthy_str s
  | JArr _ | JObj _ => true
  end.

(** The last binding of a key, as [JSON.parse] keeps it. *)
Fixpoint field (k : string) (fs : list (string * json)) : option json :=
  match fs with
  | [] => None
  | (k', v) :: fs' =>
      match field k fs' with
      | Some v' => Some v'
      | None => if String.eqb k k' then Some v else None
      end
  end.

(** [v.detail]: a TypeError on [null], [undefined] on the other values that
    are not objects. *)
Inductive Member : Type := OfNull | Undefined | Value (v : json).

Definition detail (v : json) : Member :=
  match v with
  | JNull => OfNull
  | JObj fs => match field "detail" fs with Some x => Value x | None => Undefined end
  | _ => Undefined
  end.

Record Response : Type := {
  ok : bool;
  status : N;
  body : option json;      (* [None]: the body is not JSON, [json()] rejects *)
}.

Inductive FetchOutcome : Type :=
| Resolves (r : Response)
| Rejects (e : Exn).

(** What [runAnalysis] throws: [new Error(arg)], whose message is [arg]
    converted to a string ([arg] itself when it is a string), the TypeError
    of a property read on [null], or the rejection of [fetch]. *)
Inductive Thrown : Type :=
| ErrorOf (arg : json)
| TypeErrorOfNull
| FetchFailed (e : Exn).

Inductive Outcome : Type :=
| Returns (data : json)
| Throws (t : Thrown).

Record Request (P : Type) : Type := {
  url : string;
  method : string;
  headers : list (string * string);
  payload : P;               (* the value given to [JSON.stringify] *)
}.
Arguments url {P}.
Arguments method {P}.
Arguments headers {P}.
Arguments payload {P}.

Definition analyzeRequest {P} (cfg : Config.t) (payload : P)
    (apiKey : option string) (baseUrlOverride : option string) : Request P :=
  let baseUrl := Js.or_str baseUrlOverride (Config.API_BASE_URL cfg) in
  {| url := baseUrl ++ "/analyze";
     method := "POST";
     headers :=
       ("Content-Type", "application/json")
       :: match apiKey with
          | Some key => if Js.truthy_str key then [("x-api-key", key)] else []
          | None => []
          end;
     payload := payload |}.

Definition runAnalysis {P} (cfg : Config.t) (fetch : Request P -> FetchOutcome)
    (payload : P) (apiKey : option string) (baseUrlOverride : option string) : Outcome :=
  match fetch (analyzeRequest cfg payload apiKey baseUrlOverride) with
  | Rejects e => Throws (FetchFailed e)
  | Resolves response =>
      let data := match body response with Some v => v | None => JObj [] end in
      if negb (ok response) then
        match detail data with
        | OfNull => Throws TypeErrorOfNull
        | Value d => Throws (ErrorOf (if truthy d then d else JStr "Analysis failed"))
        | Undefined => Throws (ErrorOf (JStr "Analysis failed"))
        end
      else Returns data
  end.

(** *** Health and authentication status *)

(** [v.k] for a key that no prototype defines. *)
Definition member (k : string) (v : json) : Member :=
  match v with
  | JNull => OfNull
  | JObj fs => match field k fs with Some x => Value x | None => Undefined end
  | _ => Undefined
  end.

(** How [fetchHealth] and [fetchAuthStatus] fail: the error they throw
    themselves, a body that is not JSON, or the rejection of [fetch]. *)
Inductive Failure : Type :=
| Failed (msg : string)
| BodyNotJson
| Rejected (e : Exn).

Definition fetchHealth (fetch : string -> FetchOutcome) (baseUrl : string) : json + Failure :=
  match fetch (baseUrl ++ "/health") with
  | Rejects e => inr (Rejected e)
  | Resolves response =>
      if negb (ok response) then inr (Failed "Health check failed")
      else match body response with
           | Some v => inl v
           | None => inr BodyNotJson
           end
  end.

Definition fetchAuthStatus (fetch : string -> FetchOutcome) (baseUrl : string) : json + Failure :=
  match fetch (baseUrl ++ "/auth-status") with
  | Rejects e => inr (Rejected e)
  | Resolves response =>
      if negb (ok response) then inr (Failed "Auth status check failed")
      else match body response with
           | Some v => inl v
           | None => inr BodyNotJson
           end
  end.

End Api.

(** ** webapp/app.js *)

Module App.
Import Net Data.

(** *** State *)

Record appState : Type := {
  isDashboardVisible : bool;
  analysisRunning : bool;
  uploadedFiles : list File;
  parsedData : gmap string (list Row);
}.

(** The form controls the handlers read.  [None] is a missing element, or
    no checked radio button. *)
Module Form.
Record t : Type := {
  productInput : option string;      (* productInput?.value *)
  goal : option string;              (* input[name="goal"]:checked *)
  mode : option string;              (* input[name="mode"]:checked *)
  marketplace : option string;
  region : option string;
  dataMode : option string;          (* input[name="dataMode"]:checked *)
}.
End Form.

(** The content of the report panel: [innerHTML] or [textContent]. *)
Inductive ReportEl : Type := Html (s : string) | Text (s : string).

(** The elements the handlers write.  An element that is missing from the
    page is [None]; every write to it is guarded in the source.  Style
    classes, scrolling and console output are left out. *)
Module View.
Record t : Type := {
  confidenceScore : option string;    (* textContent *)
  completenessScore : option string;  (* textContent *)
  completenessMeter : option Q;       (* style.width, in per cent *)
  confidenceBadge : option string;    (* textContent *)
  riskList : option string;           (* innerHTML *)
  recommendations : option string;    (* innerHTML *)
  report : option ReportEl;
  downloadPdfBtn : option string;     (* style.display *)
  newAnalysisBtn : option string;     (* style.display *)
  configStatus : option string;       (* textContent *)
  runBtnDisabled : option bool;       (* runBtn.disabled *)
  toasts : list (string * string);    (* messages shown, latest first *)
}.
End View.

Module Brief.
Record t : Type := {
  product_name : string;
  scope_type : string;
  business_goal : string;
  scope_value : string;
  mode : string;
  marketplace : string;
  region : string;
  data_sources : DataSources;
}.
End Brief.

Module Payload.
Record t : Type := {
  brief : Brief.t;
  update_memory : bool;
  memory_path : string;
  source_base_dir : string;
  output_path : string;
}.
End Payload.

Record World : Type := {
  state : appState;
  view : View.t;
  sent : list Payload.t;      (* bodies of the /analyze requests issued, latest first *)
}.

(** *** File handling *)

(** The [complete] callback of [Papa.parse] for one file. *)
Definition complete (file : File) (data : list Row) (st : appState) : appState :=
  let lname := Js.toLowerCase (Data.name file) in
  let put k :=
    {| isDashboardVisible := isDashboardVisible st;
       analysisRunning := analysisRunning st;
       uploadedFiles := uploadedFiles st;
       parsedData := <[k := data]> (parsedData st) |} in
  if Js.includes lname "review" then put "reviews"
  else if Js.includes lname "price" || Js.includes lname "pricing" then put "pricing"
  else put "catalog".

(** [handleFiles], up to the point where the parses are started:
    [papaLoaded] is [typeof Papa !== 'undefined']. *)
Definition handleFiles (papaLoaded : bool) (files : list File) (st : appState) : appState :=
  {| isDashboardVisible := isDashboardVisible st;
     analysisRunning := analysisRunning st;
     uploadedFiles := files;
     parsedData := if papaLoaded then ∅ else parsedData st |}.

(** The callbacks of the parses, run in the order [done] in which the parses
    complete; [papa f] is what the parser makes of [f]. *)
Definition parsesCompleted (papa : File -> list Row) (done : list File)
    (st : appState) : appState :=
  fold_left (fun st f => complete f (papa f) st) done st.

(** An upload with Papa loaded, all parses completed in the order [done]. *)
Definition upload (papa : File -> list Row) (files done : list File)
    (st : appState) : appState :=
  parsesCompleted papa done (handleFiles true files st).

(** *** Utilities *)

Definition setStatus (msg : string) (v : View.t) : View.t :=
  {| View.confidenceScore := View.confidenceScore v;
     View.completenessScore := View.completenessScore v;
     View.completenessMeter := View.completenessMeter v;
     View.confidenceBadge := View.confidenceBadge v;
     View.riskList := View.riskList v;
     View.recommendations := View.recommendations v;
     View.report := View.report v;
     View.downloadPdfBtn := View.downloadPdfBtn v;
     View.newAnalysisBtn := View.newAnalysisBtn v;
     View.configStatus := (fun _ => msg) <$> View.configStatus v;
     View.runBtnDisabled := View.runBtnDisabled v;
     View.toasts := View.toasts v |}.

Definition setLoading (isLoading : bool) (v : View.t) : View.t :=
  {| View.confidenceScore := View.confidenceScore v;
     View.completenessScore := View.completenessScore v;
     View.completenessMeter := View.completenessMeter v;
     View.confidenceBadge := View.confidenceBadge v;
     View.riskList := View.riskList v;
     View.recommendations := View.recommendations v;
     View.report := View.report v;
     View.downloadPdfBtn := View.downloadPdfBtn v;
     View.newAnalysisBtn := View.newAnalysisBtn v;
     View.configStatus := View.configStatus v;
     View.runBtnDisabled := (fun _ => isLoading) <$> View.runBtnDisabled v;
     View.toasts := View.toasts v |}.

Definition showToast (msg type : string) (v : View.t) : View.t :=
  {| View.confidenceScore := View.confidenceScore v;
     View.completenessScore := View.completenessScore v;
     View.completenessMeter := View.completenessMeter v;
     View.confidenceBadge := View.confidenceBadge v;
     View.riskList := View.riskList v;
     View.recommendations := View.recommendations v;
     View.report := View.report v;
     View.downloadPdfBtn := View.downloadPdfBtn v;
     View.newAnalysisBtn := View.newAnalysisBtn v;
     View.configStatus := View.configStatus v;
     View.runBtnDisabled := View.runBtnDisabled v;
     View.toasts := (msg, type) :: View.toasts v |}.

Definition showNewAnalysisBtn (v : View.t) : View.t :=
  {| View.confidenceScore := View.confidenceScore v;
     View.completenessScore := View.completenessScore v;
     View.completenessMeter := View.completenessMeter v;
     View.confidenceBadge := View.confidenceBadge v;
     View.riskList := View.riskList v;
     View.recommendations := View.recommendations v;
     View.report := View.report v;
     View.downloadPdfBtn := View.downloadPdfBtn v;
     View.newAnalysisBtn := (fun _ => "block") <$> View.newAnalysisBtn v;
     View.configStatus := View.configStatus v;
     View.runBtnDisabled := View.runBtnDisabled v;
     View.toasts := View.toasts v |}.

Definition setRunning (b : bool) (st : appState) : appState :=
  {| isDashboardVisible := isDashboardVisible st;
     analysisRunning := b;
     uploadedFiles := uploadedFiles st;
     parsedData := parsedData st |}.

(** *** Results display *)

(** The badge text of [displayResults]. *)
Definition confidenceLabel (conf : Q) : string :=
  if Qle_bool 0.8 conf then "High"
  else if Qle_bool 0.5 conf then "Medium"
  else "Low".

(** [Math.round(x * 100) + "%"] *)
Definition percent (x : Q) : string := Js.show_Z (Js.round (x * 100)) ++ "%".

(** [xs.slice(0, 5).map(r => `<li>${r}</li>`).join("")] *)
Definition listItems (xs : list string) : string :=
  Js.join "" (map (fun r => "<li>" ++ r ++ "</li>") (Js.slice0 5 xs)).

Definition newline : string := String "010"%char EmptyString.

(** The text to render when [result.report] is truthy: a non-empty string,
    or an array joined by line feeds. *)
Definition reportContent (result : Result.t) : option string :=
  match Result.report result with
  | Some (ReportLines ls) => Some (Js.join newline ls)
  | Some (ReportText s) => if Js.truthy_str s then Some s else None
  | None => None
  end.

(** [marked] is [marked.parse]; [inr] when it throws. *)
Definition displayResults (marked : string -> string + Exn)
    (result : Result.t) (v : View.t) : View.t :=
  let conf := Js.or_num (Result.confidence_score result) 0.75 in
  let compl := Js.or_num (Result.data_completeness result) 0.8 in
  {| View.confidenceScore := (fun _ => percent conf) <$> View.confidenceScore v;
     View.completenessScore := (fun _ => percent compl) <$> View.completenessScore v;
     View.completenessMeter := (fun _ => (compl * 100)%Q) <$> View.completenessMeter v;
     View.confidenceBadge := (fun _ => confidenceLabel conf) <$> View.confidenceBadge v;
     View.riskList :=
       match Result.risks result with
       | Some ((_ :: _) as rs) => (fun _ => listItems rs) <$> View.riskList v
       | _ => View.riskList v
       end;
     View.recommendations :=
       match Result.recommendations result with
       | Some ((_ :: _) as rs) => (fun _ => listItems rs) <$> View.recommendations v
       | _ => View.recommendations v
       end;
     View.report :=
       match View.report v, reportContent result with
       | Some _, Some content =>
           Some (match marked content with
                 | inl html => Html html
                 | inr _ => Text content
                 end)
       | _, _ => View.report v
       end;
     View.downloadPdfBtn :=
       match View.report v, reportContent result with
       | Some _, Some _ => (fun _ => "block") <$> View.downloadPdfBtn v
       | _, _ => View.downloadPdfBtn v
       end;
     View.newAnalysisBtn := View.newAnalysisBtn v;
     View.configStatus := View.configStatus v;
     View.runBtnDisabled := View.runBtnDisabled v;
     View.toasts := View.toasts v |}.

(** *** API call *)

(** [CONFIG.API_TIMEOUT || 30000] *)
Definition timeoutOf (cfg : Config.t) : N :=
  if (Config.API_TIMEOUT cfg =? 0)%N then 30000%N else Config.API_TIMEOUT cfg.

Definition timedOut : Exn :=
  Error "API request timed out (30s). The server might be busy or offline.".

(** What [callAPI] makes of a response that arrived before the timer; the
    timer is cleared by then, so the body is awaited without a bound. *)
Definition received (r : Response) : Completion Result.t :=
  if negb (ok r) then
    match body r with
    | Json detail _ =>
        Throw (Error (Js.or_str detail ("API Error: " ++ Js.show_Z (Z.of_N (status r)))))
    | NotJson _ =>
        Throw (Error (Js.or_str None ("API Error: " ++ Js.show_Z (Z.of_N (status r)))))
    | Stalls => Pending
    end
  else
    match body r with
    | Json _ result => Return result
    | NotJson msg => Throw (SyntaxError msg)
    | Stalls => Pending
    end.

(** The [catch] of [callAPI]. *)
Definition rethrow (err : Exn) : Exn :=
  if String.eqb (Net.name err) "AbortError" then timedOut else err.

(** [callAPI]: the time, in milliseconds after the request, at which the
    wait for the response ends ([fetch] settles or the timer fires), and how
    the call completes.  The timer aborts the request when [fetch] has not
    settled before it fires. *)
Definition callAPI (cfg : Config.t) (net : Payload.t -> FetchOutcome)
    (payload : Payload.t) : N * Completion Result.t :=
  let limit := timeoutOf cfg in
  match net payload with
  | Responds t r =>
      if (t <? limit)%N then
        (t, match received r with
            | Throw err => Throw (rethrow err)
            | c => c
            end)
      else (limit, Throw timedOut)
  | Fails t e =>
      if (t <? limit)%N then (t, Throw (rethrow e)) else (limit, Throw timedOut)
  | Hangs => (limit, Throw timedOut)
  end.

(** *** Analysis *)

(** [productInput?.value?.trim()] *)
Definition productOf (form : Form.t) : string :=
  match Form.productInput form with
  | Some v => Js.trim v
  | None => EmptyString
  end.

Definition defaultSources : DataSources :=
  {| catalog := Path "catalog.json";
     reviews := Path "reviews.json";
     pricing := Path "pricing.json";
     competitors := Path "competitors.json";
     performance_signals := Path "performance_signals.json" |}.

(** The injection of parsed uploads into [brief.data_sources]. *)
Definition dataSourcesOf (form : Form.t) (st : appState) : DataSources :=
  let isCustomMode :=
    match Form.dataMode form with
    | Some v => String.eqb v "custom"
    | None => false
    end in
  if isCustomMode && (0 <? base.size (parsedData st))%nat then
    {| catalog :=
         match parsedData st !! "catalog" with
         | Some rows => Inline rows
         | None => catalog defaultSources
         end;
       reviews :=
         match parsedData st !! "reviews" with
         | Some rows => Inline rows
         | None => reviews defaultSources
         end;
       pricing :=
         match parsedData st !! "pricing" with
         | Some rows => Inline rows
         | None => pricing defaultSources
         end;
       competitors := competitors defaultSources;
       performance_signals := performance_signals defaultSources |}
  else defaultSources.

Definition briefOf (form : Form.t) (st : appState) : Brief.t :=
  {| Brief.product_name := productOf form;
     Brief.scope_type := "SKU";
     Brief.business_goal := Js.or_str (Form.goal form) "growth";
     Brief.scope_value := Js.toUpperCase (productOf form);
     Brief.mode := Js.or_str (Form.mode form) "quick";
     Brief.marketplace := Js.or_str (Form.marketplace form) "Amazon";
     Brief.region := Js.or_str (Form.region form) "Global";
     Brief.data_sources := dataSourcesOf form st |}.

Definition apiPayloadOf (form : Form.t) (st : appState) : Payload.t :=
  {| Payload.brief := briefOf form st;
     Payload.update_memory := false;
     Payload.memory_path := "data/domain_memory.json";
     Payload.source_base_dir := "datasets/processed";
     Payload.output_path := "out/api_report.md" |}.

Definition handleRunAnalysis (cfg : Config.t) (marked : string -> string + Exn)
    (net : Payload.t -> FetchOutcome) (form : Form.t) (w : World) : World :=
  if negb (Js.truthy_str (productOf form)) then
    {| state := state w;
       view := showToast "Please enter a product name" "error" (view w);
       sent := sent w |}
  else
    let v1 := setLoading true (setStatus "Running analysis..." (view w)) in
    let apiPayload := apiPayloadOf form (state w) in
    match snd (callAPI cfg net apiPayload) with
    | Return result =>
        let v2 := setLoading false (displayResults marked result v1) in
        let v3 := showToast "✅ Analysis complete!" "success"
                    (setStatus "✅ Analysis complete!" v2) in
        {| state := setRunning false (state w);
           view := setLoading false (showNewAnalysisBtn v3);
           sent := apiPayload :: sent w |}
    | Throw error =>
        let v2 := showToast (message error) "error"
                    (setStatus ("❌ " ++ message error) v1) in
        {| state := setRunning false (state w);
           view := setLoading false v2;
           sent := apiPayload :: sent w |}
    | Pending =>
        {| state := setRunning true (state w);
           view := v1;
           sent := apiPayload :: sent w |}
    end.

(** *** Reset and health check *)





(** The health badge: text and class name; [None] when the element is missing. *)
Definition checkAPIHealth (cfg : Config.t) (fetch : string -> Api.FetchOutcome)
    (healthBadge : option (string * string)) : option (string * string) :=
  let online := (fun _ => ("🟢 API Online", "badge active")) <$> healthBadge in
  let offline := (fun _ => ("🟡 API Offline", "badge warning")) <$> healthBadge in
  match fetch (Config.API_BASE_URL cfg ++ "/health") with
  | Api.Rejects _ => offline
  | Api.Resolves response =>
      match Api.body response with
      | Some _ => online
      | None => offline
      end
  end.

(** The keydown listener of the product field. *)
Definition onProductKeydown (cfg : Config.t) (marked : string -> string + Exn)
    (net : Payload.t -> FetchOutcome) (key : string) (form : Form.t) (w : World) : World :=
  if String.eqb key "Enter" then
    if negb (analysisRunning (state w)) then handleRunAnalysis cfg marked net form w
    else w
  else w.

End App.

(** ** The step-by-step dashboard (webapp/config.js, after [CONFIG])

    The file declares [runAnalysis] twice: the handler without arguments that
    builds the brief, and the "API FUNCTION" [runAnalysis(brief, apiKey)] it
    calls.  Here the second one is [runAnalysis_api]. *)

Module Wizard.
Import Net Data Regex.

(** *** State *)

Module FormData.
Record t : Type := {
  product : string;
  marketplace : string;
  mode : string;
  goal : string;
  dataMode : string;
  files : list File;
}.
End FormData.

Record State : Type := {
  currentStep : nat;
  formData : FormData.t;
  apiReady : bool;
  authRequired : bool;
}.

Module Scope.
Record t : Type := { type : string; value : string }.
End Scope.

Module Brief.
Record t : Type := {
  mode : string;
  business_goal : string;
  scope : Scope.t;
  marketplaces : list string;
  region : string;
  timeframe : string;
  data_sources : DataSources;
}.
End Brief.

(** The results panel. *)
Module Results.
Record t : Type := {
  resultsTitle : string;
  resultsSubtitle : string;
  confidenceScore : string;
  confidenceBadge : string;
  completenessScore : string;
  completenessMeter : string;      (* style.width *)
  riskList : string;               (* innerHTML *)
  recommendations : string;        (* innerHTML *)
  report : string;                 (* innerHTML *)
}.
End Results.

(** The elements of [ui] the handlers read and write. *)
Module Dom.
Record t : Type := {
  productInput : string;           (* value *)
  marketplaceInput : string;       (* value *)
  activeStep : option nat;         (* index of the step panel with class "active" *)
  stepAlert : option string;       (* [None]: hidden; [Some msg]: shown *)
  stepStatus : string;
  step4BtnDisabled : bool;
  results : Results.t;
  toasts : list string;            (* messages shown, latest first *)
}.
End Dom.

Record World : Type := {
  state : State;
  dom : Dom.t;
  sent : list Brief.t;               (* briefs posted to /analyze, latest first *)
}.

Definition withDom (f : Dom.t -> Dom.t) (w : World) : World :=
  {| state := state w; dom := f (dom w); sent := sent w |}.

Definition setAlert (a : option string) (d : Dom.t) : Dom.t :=
  {| Dom.productInput := Dom.productInput d;
     Dom.marketplaceInput := Dom.marketplaceInput d;
     Dom.activeStep := Dom.activeStep d;
     Dom.stepAlert := a;
     Dom.stepStatus := Dom.stepStatus d;
     Dom.step4BtnDisabled := Dom.step4BtnDisabled d;
     Dom.results := Dom.results d;
     Dom.toasts := Dom.toasts d |}.

Definition showAlert (msg : string) (d : Dom.t) : Dom.t := setAlert (Some msg) d.
Definition clearAlert (d : Dom.t) : Dom.t := setAlert None d.

Definition showStatus (msg : string) (d : Dom.t) : Dom.t :=
  {| Dom.productInput := Dom.productInput d;
     Dom.marketplaceInput := Dom.marketplaceInput d;
     Dom.activeStep := Dom.activeStep d;
     Dom.stepAlert := Dom.stepAlert d;
     Dom.stepStatus := msg;
     Dom.step4BtnDisabled := Dom.step4BtnDisabled d;
     Dom.results := Dom.results d;
     Dom.toasts := Dom.toasts d |}.

Definition clearStatus (d : Dom.t) : Dom.t := showStatus "" d.

Definition setStep4Disabled (b : bool) (d : Dom.t) : Dom.t :=
  {| Dom.productInput := Dom.productInput d;
     Dom.marketplaceInput := Dom.marketplaceInput d;
     Dom.activeStep := Dom.activeStep d;
     Dom.stepAlert := Dom.stepAlert d;
     Dom.stepStatus := Dom.stepStatus d;
     Dom.step4BtnDisabled := b;
     Dom.results := Dom.results d;
     Dom.toasts := Dom.toasts d |}.

Definition setResults (r : Results.t) (d : Dom.t) : Dom.t :=
  {| Dom.productInput := Dom.productInput d;
     Dom.marketplaceInput := Dom.marketplaceInput d;
     Dom.activeStep := Dom.activeStep d;
     Dom.stepAlert := Dom.stepAlert d;
     Dom.stepStatus := Dom.stepStatus d;
     Dom.step4BtnDisabled := Dom.step4BtnDisabled d;
     Dom.results := r;
     Dom.toasts := Dom.toasts d |}.

Definition showToast (msg : string) (d : Dom.t) : Dom.t :=
  {| Dom.productInput := Dom.productInput d;
     Dom.marketplaceInput := Dom.marketplaceInput d;
     Dom.activeStep := Dom.activeStep d;
     Dom.stepAlert := Dom.stepAlert d;
     Dom.stepStatus := Dom.stepStatus d;
     Dom.step4BtnDisabled := Dom.step4BtnDisabled d;
     Dom.results := Dom.results d;
     Dom.toasts := msg :: Dom.toasts d |}.

(** *** Step navigation *)

Definition goToStep (stepNum : nat) (w : World) : World :=
  {| state :=
       {| currentStep := stepNum;
          formData := formData (state w);
          apiReady := apiReady (state w);
          authRequired := authRequired (state w) |};
     dom :=
       clearAlert
         {| Dom.productInput := Dom.productInput (dom w);
            Dom.marketplaceInput := Dom.marketplaceInput (dom w);
            Dom.activeStep :=
              if ((1 <=? stepNum) && (stepNum <=? 5))%nat then Some (stepNum - 1)%nat
              else None;
            Dom.stepAlert := Dom.stepAlert (dom w);
            Dom.stepStatus := Dom.stepStatus (dom w);
            Dom.step4BtnDisabled := Dom.step4BtnDisabled (dom w);
            Dom.results := Dom.results (dom w);
            Dom.toasts := Dom.toasts (dom w) |};
     sent := sent w |}.

Definition handleStep1Next (w : World) : World :=
  let product := Js.trim (Dom.productInput (dom w)) in
  if negb (Js.truthy_str product) then
    withDom (showAlert "Please enter a product name or SKU") w
  else
    let fd := formData (state w) in
    let marketplace :=
      let m := Js.trim (Dom.marketplaceInput (dom w)) in
      if Js.truthy_str m then m else "Unknown" in
    goToStep 2
      {| state :=
           {| currentStep := currentStep (state w);
              formData :=
                {| FormData.product := product;
                   FormData.marketplace := marketplace;
                   FormData.mode := FormData.mode fd;
                   FormData.goal := FormData.goal fd;
                   FormData.dataMode := FormData.dataMode fd;
                   FormData.files := FormData.files fd |};
              apiReady := apiReady (state w);
              authRequired := authRequired (state w) |};
         dom := dom w;
         sent := sent w |}.

Definition handleStep2Next (w : World) : World := goToStep 3 w.
Definition handleStep3Next (w : World) : World := goToStep 4 w.

(** *** File parsing in [runAnalysis] *)

(** [headers.forEach((h, i) => { obj[h.trim()] = row[i]; })] *)
Fixpoint rowObject (headers row : list string) (obj : Row) : Row :=
  match headers with
  | [] => obj
  | h :: hs =>
      match row with
      | x :: xs => rowObject hs xs (set_prop (Js.trim h) (CString x) obj)
      | [] => rowObject hs [] (set_prop (Js.trim h) CUndefined obj)
      end
  end.

(** The rows made from the text of one file. *)
Definition parseRows (content : string) : list Row :=
  let rows := map (Js.split ","%char) (Js.split "010"%char content) in
  match rows with
  | headers :: rest => map (fun row => rowObject headers row ∅) rest
  | [] => []
  end.

(** The loop over the uploaded files, filling [fileData]. *)
Definition readFiles (files : list File) : gmap string (list Row) :=
  fold_left
    (fun fileData file =>
       set_prop (Js.replace (Data.name file) ".csv" "") (parseRows (text file)) fileData)
    files ∅.

Definition defaultSources (cfg : Config.t) : DataSources :=
  {| catalog := Path (Config.catalog (Config.DEFAULT_SOURCES cfg));
     reviews := Path (Config.reviews (Config.DEFAULT_SOURCES cfg));
     pricing := Path (Config.pricing (Config.DEFAULT_SOURCES cfg));
     competitors := Path (Config.competitors (Config.DEFAULT_SOURCES cfg));
     performance_signals := Path (Config.performance_signals (Config.DEFAULT_SOURCES cfg)) |}.

(** [fileData.key || fallback]: an array is truthy, also when empty. *)
Definition pick (fileData : gmap string (list Row)) (key : string) (fallback : Handle) : Handle :=
  match fileData !! key with
  | Some rows => Inline rows
  | None => fallback
  end.

Definition dataSourcesOf (cfg : Config.t) (fd : FormData.t) : DataSources :=
  let dataSources := defaultSources cfg in
  if String.eqb (FormData.dataMode fd) "upload"
     && (0 <? length (FormData.files fd))%nat then
    let fileData := readFiles (FormData.files fd) in
    {| catalog := pick fileData "catalog" (catalog dataSources);
       reviews := pick fileData "reviews" (reviews dataSources);
       pricing := pick fileData "pricing" (pricing dataSources);
       competitors := pick fileData "competitors" (competitors dataSources);
       performance_signals := pick fileData "performance" (performance_signals dataSources) |}
  else dataSources.

Definition briefOf (cfg : Config.t) (fd : FormData.t) : Brief.t :=
  {| Brief.mode := FormData.mode fd;
     Brief.business_goal := FormData.goal fd;
     Brief.scope := {| Scope.type := "Product"; Scope.value := FormData.product fd |};
     Brief.marketplaces := [FormData.marketplace fd];
     Brief.region := "Unknown";
     Brief.timeframe := "Latest";
     Brief.data_sources := dataSourcesOf cfg fd |}.

(** *** Results display *)

(** [/Confidence Score:\s*(\d+)%/i] *)
Definition confidence_re : re :=
  seq [lit_i "Confidence Score:"; Star true space; Group 1 (Plus digit); lit_i "%"].

(** [/Data Completeness.*?:\s*(\d+)%/i] *)
Definition completeness_re : re :=
  seq [lit_i "Data Completeness"; Star false dot; lit_i ":"; Star true space;
       Group 1 (Plus digit); lit_i "%"].

(** [[:\-]] *)
Definition colon_or_dash : re :=
  Chr (fun a => Ascii.eqb a ":"%char || Ascii.eqb a "-"%char).

(** [/Risk Flags?\s*[:\-]?\s*([\s\S]*?)(?:Strategic|Recommendations|$)/i] *)
Definition risk_re : re :=
  seq [lit_i "Risk Flag"; Opt (chr_i "s"); Star true space; Opt colon_or_dash;
       Star true space; Group 1 (Star false any);
       Alt (lit_i "Strategic") (Alt (lit_i "Recommendations") EndIn)].

(** [/(?:Strategic )?Recommendations?\s*[:\-]?\s*([\s\S]*?)(?:Full Report|$)/i] *)
Definition rec_re : re :=
  seq [Opt (lit_i "Strategic "); lit_i "Recommendation"; Opt (chr_i "s");
       Star true space; Opt colon_or_dash; Star true space;
       Group 1 (Star false any); Alt (lit_i "Full Report") EndIn].

(** The label shown beside the product in the subtitle. *)
Definition modeLabel (mode : string) : string :=
  if String.eqb mode "quick" then "Quick" else "Deep".

(** The badge text of [showResults]. *)
Definition badgeText (confidence : Q) : string :=
  if Qle_bool 75 confidence then "High"
  else if Qle_bool 50 confidence then "Medium"
  else "Low".

(** [text.split("\n").filter((r) => r.trim()).map((r) => `<li>${r.trim()}</li>`).join("")] *)
Definition listItems (captured : list ascii) : string :=
  let lines :=
    List.filter (fun r => Js.truthy_str (Js.trim r))
      (Js.split "010"%char (string_of_list_ascii captured)) in
  Js.join "" (map (fun r => "<li>" ++ Js.trim r ++ "</li>") lines).

(** The first capture of a match, when there is a match. *)
Definition capture1 (report : string) (r : re) : option (list ascii) :=
  match match_ report r with
  | Some c => c !! 1%nat
  | None => None
  end.

(** The panel after the header lines of [showResults]. *)
Definition headed (product mode : string) (r : Results.t) : Results.t :=
  {| Results.resultsTitle := "✨ Analysis Complete";
     Results.resultsSubtitle := product ++ " • " ++ modeLabel mode ++ " Analysis";
     Results.confidenceScore := Results.confidenceScore r;
     Results.confidenceBadge := Results.confidenceBadge r;
     Results.completenessScore := Results.completenessScore r;
     Results.completenessMeter := Results.completenessMeter r;
     Results.riskList := Results.riskList r;
     Results.recommendations := Results.recommendations r;
     Results.report := Results.report r |}.

(** The panel after the metrics and the two lists were extracted from the
    report text. *)
Definition extracted (report : string) (r : Results.t) : Results.t :=
  let confidenceMatch := capture1 report confidence_re in
  let completenessMatch := capture1 report completeness_re in
  let riskMatch := capture1 report risk_re in
  let recMatch := capture1 report rec_re in
  {| Results.resultsTitle := Results.resultsTitle r;
     Results.resultsSubtitle := Results.resultsSubtitle r;
     Results.confidenceScore :=
       match confidenceMatch with
       | Some ds => Js.show_Z (Js.digits_val ds) ++ "%"
       | None => Results.confidenceScore r
       end;
     Results.confidenceBadge :=
       match confidenceMatch with
       | Some ds => badgeText (Js.Number_of_digits ds)
       | None => Results.confidenceBadge r
       end;
     Results.completenessScore :=
       match completenessMatch with
       | Some ds => Js.show_Z (Js.digits_val ds) ++ "%"
       | None => Results.completenessScore r
       end;
     Results.completenessMeter :=
       match completenessMatch with
       | Some ds => Js.show_Z (Js.digits_val ds) ++ "%"
       | None => Results.completenessMeter r
       end;
     Results.riskList :=
       match riskMatch with
       | Some txt => listItems txt
       | None => Results.riskList r
       end;
     Results.recommendations :=
       match recMatch with
       | Some txt => listItems txt
       | None => Results.recommendations r
       end;
     Results.report := Results.report r |}.

Definition rendered (html : string) (r : Results.t) : Results.t :=
  {| Results.resultsTitle := Results.resultsTitle r;
     Results.resultsSubtitle := Results.resultsSubtitle r;
     Results.confidenceScore := Results.confidenceScore r;
     Results.confidenceBadge := Results.confidenceBadge r;
     Results.completenessScore := Results.completenessScore r;
     Results.completenessMeter := Results.completenessMeter r;
     Results.riskList := Results.riskList r;
     Results.recommendations := Results.recommendations r;
     Results.report := html |}.

(** [showResults]: the world it leaves, and the exception when it throws.
    [result.report.match] needs a string; [marked] is [window.marked.parse]
    ([inr] when it throws).  The messages of the two TypeErrors are the
    engine's. *)
Definition showResults (marked : string -> string + Exn)
    (result : Result.t) (product mode : string) (w : World) : World * option Exn :=
  let r0 := headed product mode (Dom.results (dom w)) in
  match Result.report result with
  | Some (ReportText report) =>
      let r1 := extracted report r0 in
      match marked report with
      | inl html =>
          (withDom (showToast "✅ Analysis complete!")
             (goToStep 5 (withDom (setResults (rendered html r1)) w)),
           None)
      | inr err => (withDom (setResults r1) w, Some err)
      end
  | Some (ReportLines _) =>
      (withDom (setResults r0) w, Some (TypeError "result.report.match is not a function"))
  | None =>
      (withDom (setResults r0) w,
       Some (TypeError "Cannot read properties of undefined (reading 'match')"))
  end.

(** *** API analysis *)

(** The "API FUNCTION": no timer guards the request. *)
Definition runAnalysis_api (net : Brief.t -> FetchOutcome)
    (brief : Brief.t) (apiKey : option string) : Completion Result.t :=
  match net brief with
  | Responds _ response =>
      match body response with
      | NotJson msg => Throw (SyntaxError msg)
      | Json detail result =>
          if negb (ok response) then Throw (Error (Js.or_str detail "Analysis failed"))
          else Return result
      | Stalls => Pending
      end
  | Fails _ e => Throw e
  | Hangs => Pending
  end.

(** The [finally] of [runAnalysis]. *)
Definition finished (w : World) : World :=
  withDom (fun d => clearStatus (setStep4Disabled false d)) w.

Definition posted (brief : Brief.t) (w : World) : World :=
  {| state := state w; dom := dom w; sent := brief :: sent w |}.

Definition runAnalysis (cfg : Config.t) (marked : string -> string + Exn)
    (net : Brief.t -> FetchOutcome) (w : World) : World :=
  let fd := formData (state w) in
  let w1 := withDom (fun d => setStep4Disabled true (showStatus "⏳ Preparing analysis..." d)) w in
  let brief := briefOf cfg fd in
  let w2 := posted brief (withDom (showStatus "🔄 Running analysis...") w1) in
  match runAnalysis_api net brief None with
  | Return result =>
      match showResults marked result (FormData.product fd) (FormData.mode fd) w2 with
      | (w3, None) => finished w3
      | (w3, Some err) => finished (withDom (showAlert ("❌ " ++ message err)) w3)
      end
  | Throw err => finished (withDom (showAlert ("❌ " ++ message err)) w2)
  | Pending => w2
  end.

Definition handleStep4Run (cfg : Config.t) (marked : string -> string + Exn)
    (net : Brief.t -> FetchOutcome) (w : World) : World :=
  if negb (apiReady (state w)) then
    withDom (showAlert "❌ API is not available. Please try again.") w
  else if String.eqb (FormData.dataMode (formData (state w))) "upload"
          && (length (FormData.files (formData (state w))) =? 0)%nat then
    withDom (showAlert "Please upload at least one CSV file") w
  else runAnalysis cfg marked net w.

(** *** The remaining listeners and the health check *)

(** The elements outside [Dom.t] that these handlers write: the two badges
    (text and class name), the upload section and the list of selected
    files (the file names shown). *)
Module Chrome.
Record t : Type := {
  healthBadge : string * string;
  authBadge : string * string;
  uploadSectionHidden : bool;
  fileList : list string;
}.
End Chrome.

Definition withFormData (fd : FormData.t) (w : World) : World :=
  {| state :=
       {| currentStep := currentStep (state w);
          formData := fd;
          apiReady := apiReady (state w);
          authRequired := authRequired (state w) |};
     dom := dom w;
     sent := sent w |}.

Definition withFiles (files : list File) (fd : FormData.t) : FormData.t :=
  {| FormData.product := FormData.product fd;
     FormData.marketplace := FormData.marketplace fd;
     FormData.mode := FormData.mode fd;
     FormData.goal := FormData.goal fd;
     FormData.dataMode := FormData.dataMode fd;
     FormData.files := files |}.

Definition withDataMode (value : string) (fd : FormData.t) : FormData.t :=
  {| FormData.product := FormData.product fd;
     FormData.marketplace := FormData.marketplace fd;
     FormData.mode := FormData.mode fd;
     FormData.goal := FormData.goal fd;
     FormData.dataMode := value;
     FormData.files := FormData.files fd |}.

Definition toggleUploadSection (wc : World * Chrome.t) : World * Chrome.t :=
  let (w, ch) := wc in
  if String.eqb (FormData.dataMode (formData (state w))) "upload" then
    (w, {| Chrome.healthBadge := Chrome.healthBadge ch;
           Chrome.authBadge := Chrome.authBadge ch;
           Chrome.uploadSectionHidden := false;
           Chrome.fileList := Chrome.fileList ch |})
  else
    (withFormData (withFiles [] (formData (state w))) w,
     {| Chrome.healthBadge := Chrome.healthBadge ch;
        Chrome.authBadge := Chrome.authBadge ch;
        Chrome.uploadSectionHidden := true;
        Chrome.fileList := [] |}).

(** The change listener of the data-mode radio buttons. *)
Definition onDataModeChange (value : string) (wc : World * Chrome.t) : World * Chrome.t :=
  let (w, ch) := wc in
  toggleUploadSection (withFormData (withDataMode value (formData (state w))) w, ch).

Definition handleFileSelect (files : list File) (wc : World * Chrome.t) : World * Chrome.t :=
  let (w, ch) := wc in
  (withFormData (withFiles files (formData (state w))) w,
   {| Chrome.healthBadge := Chrome.healthBadge ch;
      Chrome.authBadge := Chrome.authBadge ch;
      Chrome.uploadSectionHidden := Chrome.uploadSectionHidden ch;
      Chrome.fileList := map Data.name files |}).



Definition updateHealthBadge (w : World) (ch : Chrome.t) : Chrome.t :=
  {| Chrome.healthBadge :=
       if apiReady (state w) then ("API: online", "badge badge-good")
       else ("API: offline", "badge badge-bad");
     Chrome.authBadge := Chrome.authBadge ch;
     Chrome.uploadSectionHidden := Chrome.uploadSectionHidden ch;
     Chrome.fileList := Chrome.fileList ch |}.

Definition updateAuthBadge (w : World) (ch : Chrome.t) : Chrome.t :=
  {| Chrome.healthBadge := Chrome.healthBadge ch;
     Chrome.authBadge :=
       if authRequired (state w) then ("Auth: required", "badge badge-warn")
       else ("Auth: open", "badge badge-good");
     Chrome.uploadSectionHidden := Chrome.uploadSectionHidden ch;
     Chrome.fileList := Chrome.fileList ch |}.

Definition withApiReady (b : bool) (w : World) : World :=
  {| state :=
       {| currentStep := currentStep (state w);
          formData := formData (state w);
          apiReady := b;
          authRequired := authRequired (state w) |};
     dom := dom w;
     sent := sent w |}.

(** [state.authRequired] is read for its truthiness only, which is what is
    kept. *)
Definition withAuthRequired (b : bool) (w : World) : World :=
  {| state :=
       {| currentStep := currentStep (state w);
          formData := formData (state w);
          apiReady := apiReady (state w);
          authRequired := b |};
     dom := dom w;
     sent := sent w |}.

(** The [catch] of [checkApiHealth]. *)
Definition healthCheckFailed (wc : World * Chrome.t) : World * Chrome.t :=
  let (w, ch) := wc in
  let w' := withApiReady false w in
  (withDom (showToast "⚠️ API connection failed. Try refreshing.") w',
   updateHealthBadge w' ch).

Definition checkApiHealth (cfg : Config.t) (fetch : string -> Api.FetchOutcome)
    (wc : World * Chrome.t) : World * Chrome.t :=
  let (w, ch) := wc in
  match Api.fetchHealth fetch (Config.API_BASE_URL cfg) with
  | inr _ => healthCheckFailed (w, ch)
  | inl health =>
      match Api.member "status" health with
      | Api.OfNull => healthCheckFailed (w, ch)
      | statusField =>
          let ready :=
            match statusField with
            | Api.Value (Api.JStr v) => String.eqb v "ok"
            | _ => false
            end in
          let w1 := withApiReady ready w in
          let ch1 := updateHealthBadge w1 ch in
          match Api.fetchAuthStatus fetch (Config.API_BASE_URL cfg) with
          | inr _ => healthCheckFailed (w1, ch1)
          | inl authStatus =>
              match Api.member "api_key_required" authStatus with
              | Api.OfNull => healthCheckFailed (w1, ch1)
              | Api.Undefined => let w2 := withAuthRequired false w1 in (w2, updateAuthBadge w2 ch1)
              | Api.Value v =>
                  let w2 := withAuthRequired (Api.truthy v) w1 in (w2, updateAuthBadge w2 ch1)
              end
          end
      end
  end.

(** [init]: the listeners are installed, then the API is checked. *)
Definition init (cfg : Config.t) (fetch : string -> Api.FetchOutcome)
    (wc : World * Chrome.t) : World * Chrome.t :=
  checkApiHealth cfg fetch wc.

End Wizard.

(** ** Vocabulary of the statements *)

(** A value is blank when it is empty or made of white space only. *)
Definition blank (s : string) : bool := forallb Js.is_space (list_ascii_of_string s).

(** Every character of [s] satisfies [p]. *)
Definition all (p : ascii -> bool) (s : string) : bool := forallb p (list_ascii_of_string s).

(** [s] starts with [L], compared as the i flag compares. *)
Fixpoint ci_prefix (L : string) (s : list ascii) : bool :=
  match L with
  | EmptyString => true
  | String c L' =>
      match s with
      | a :: s' => Ascii.eqb (Js.upper_char a) (Js.upper_char c) && ci_prefix L' s'
      | [] => false
      end
  end.

(** No occurrence of [L] in [pre ++ rest] starts inside [pre]. *)
Fixpoint absentBefore (L : string) (pre rest : list ascii) : bool :=
  match pre with
  | [] => true
  | _ :: pre' => negb (ci_prefix L (pre ++ rest)) && absentBefore L pre' rest
  end.

(** In the text [pre ++ rest], the first occurrence of [L] is not before [rest]. *)
Definition firstOccurrence (L pre rest : string) : bool :=
  absentBefore L (list_ascii_of_string pre) (list_ascii_of_string rest).

(** A run of [p] characters cannot go on into [rest]. *)
Definition stops (p : ascii -> bool) (rest : list ascii) : Prop :=
  match rest with [] => True | a :: _ => p a = false end.

(** A score is falsy when it is absent or zero. *)
Definition absent_or_zero (o : option Q) : Prop :=
  o = None \/ exists q, o = Some q /\ (q == 0)%Q.

(** The last element of a list that satisfies [p]. *)
Definition lastWith {A} (p : A -> bool) (xs : list A) : option A := find p (rev xs).

#[global] Instance Kind_eq_dec : EqDecision Data.Kind.
Proof. solve_decision. Defined.

(** The source kind that app.js gives to a file name. *)
Definition kindOfName (fileName : string) : Data.Kind :=
  let lname := Js.toLowerCase fileName in
  if Js.includes lname "review" then Data.Reviews
  else if Js.includes lname "price" || Js.includes lname "pricing" then Data.Pricing
  else Data.Catalog.

(** The key under which the step-by-step dashboard files the rows of a file. *)
Definition fileKey (file : Data.File) : string := Js.replace (Data.name file) ".csv" "".

(** A CSV file with the given name and text. *)
Definition csv (fileName content : string) : Data.File :=
  {| Data.name := fileName; Data.size := N.of_nat (String.length content); Data.text := content |}.

(** One parsed row, [{ sku: "A1" }], and a CSV text that parses into it. *)
Definition oneRow : list Data.Row := [ {[ "sku" := Data.CString "A1" ]} ].
Definition skuCsv : string := "sku" ++ App.newline ++ "A1".

(** *** Sample inputs *)

(** The page as [resetToDashboard] leaves it, every element present. *)
Definition freshView : App.View.t :=
  {| App.View.confidenceScore := Some "--";
     App.View.completenessScore := Some "--";
     App.View.completenessMeter := Some 0%Q;
     App.View.confidenceBadge := Some "--";
     App.View.riskList := Some "<li>Awaiting analysis...</li>";
     App.View.recommendations := Some "<li>Awaiting analysis...</li>";
     App.View.report := Some (App.Html "<p>Analysis report will appear here...</p>");
     App.View.downloadPdfBtn := Some "none";
     App.View.newAnalysisBtn := Some "none";
     App.View.configStatus := Some "";
     App.View.runBtnDisabled := Some false;
     App.View.toasts := [] |}.

Definition freshState : App.appState :=
  {| App.isDashboardVisible := true;
     App.analysisRunning := false;
     App.uploadedFiles := [];
     App.parsedData := ∅ |}.

Definition freshWorld : App.World :=
  {| App.state := freshState; App.view := freshView; App.sent := [] |}.

(** A renderer that returns its input. *)
Definition plainMarked (md : string) : string + Net.Exn := inl md.

(** A report object with the given scores and nothing else. *)
Definition scoresOnly (confidence completeness : option Q) : Data.Result.t :=
  {| Data.Result.report := None;
     Data.Result.confidence_score := confidence;
     Data.Result.data_completeness := completeness;
     Data.Result.risks := None;
     Data.Result.recommendations := None;
     Data.Result.mode := None |}.

(** A form with the product field filled in and everything else left to its
    default; [dataMode] as given. *)
Definition formWith (product : string) (dataMode : option string) : App.Form.t :=
  {| App.Form.productInput := Some product;
     App.Form.goal := None;
     App.Form.mode := Some "deep";
     App.Form.marketplace := Some "";
     App.Form.region := None;
     App.Form.dataMode := dataMode |}.

(** [CONFIG] with the timeout left unset. *)
Definition noTimeoutSet : Config.t :=
  {| Config.API_BASE_URL := Config.API_BASE_URL Config.CONFIG;
     Config.API_TIMEOUT := 0;
     Config.MAX_RETRIES := Config.MAX_RETRIES Config.CONFIG;
     Config.USE_MOCK_DATA_FALLBACK := Config.USE_MOCK_DATA_FALLBACK Config.CONFIG;
     Config.ENABLE_LOGGING := Config.ENABLE_LOGGING Config.CONFIG;
     Config.DEFAULT_SOURCES := Config.DEFAULT_SOURCES Config.CONFIG |}.

(** A network that never answers. *)
Definition silent : App.Payload.t -> Net.FetchOutcome := fun _ => Net.Hangs.

(** A network that answers every request at once with the given report. *)
Definition answering (result : Data.Result.t) : App.Payload.t -> Net.FetchOutcome :=
  fun _ => Net.Responds 120 {| Net.ok := true; Net.status := 200; Net.body := Net.Json None result |}.

(** A network that sends the headers of an ok response at once and never
    completes the body. *)
Definition stalling : App.Payload.t -> Net.FetchOutcome :=
  fun _ => Net.Responds 120 {| Net.ok := true; Net.status := 200; Net.body := Net.Stalls |}.

(** A sequence of clicks on the run button, each with the form as it stands
    and the network as it then behaves. *)
Definition session (cfg : Config.t) (marked : string -> string + Net.Exn)
    (clicks : list ((App.Payload.t -> Net.FetchOutcome) * App.Form.t))
    (w : App.World) : App.World :=
  fold_left (fun w click => App.handleRunAnalysis cfg marked (fst click) (snd click) w) clicks w.

(** [fetch] has not settled when the timer of [callAPI] fires. *)
Definition unanswered (cfg : Config.t) (net : App.Payload.t -> Net.FetchOutcome)
    (payload : App.Payload.t) : Prop :=
  match net payload with
  | Net.Responds t _ | Net.Fails t _ => (App.timeoutOf cfg <= t)%N
  | Net.Hangs => True
  end.


(** *** Sample inputs for the step-by-step dashboard *)

Definition freshResults : Wizard.Results.t :=
  {| Wizard.Results.resultsTitle := "";
     Wizard.Results.resultsSubtitle := "";
     Wizard.Results.confidenceScore := "--";
     Wizard.Results.confidenceBadge := "--";
     Wizard.Results.completenessScore := "--";
     Wizard.Results.completenessMeter := "0%";
     Wizard.Results.riskList := "";
     Wizard.Results.recommendations := "";
     Wizard.Results.report := "" |}.

(** The wizard at step 1 with the given text typed into the product field;
    the form data are the initial ones but for mode and upload settings. *)
Definition wizardAt1 (typed mode dataMode : string) (files : list Data.File) : Wizard.World :=
  {| Wizard.state :=
       {| Wizard.currentStep := 1;
          Wizard.formData :=
            {| Wizard.FormData.product := "";
               Wizard.FormData.marketplace := "";
               Wizard.FormData.mode := mode;
               Wizard.FormData.goal := "growth";
               Wizard.FormData.dataMode := dataMode;
               Wizard.FormData.files := files |};
          Wizard.apiReady := true;
          Wizard.authRequired := false |};
     Wizard.dom :=
       {| Wizard.Dom.productInput := typed;
          Wizard.Dom.marketplaceInput := "";
          Wizard.Dom.activeStep := Some 0%nat;
          Wizard.Dom.stepAlert := None;
          Wizard.Dom.stepStatus := "";
          Wizard.Dom.step4BtnDisabled := false;
          Wizard.Dom.results := freshResults;
          Wizard.Dom.toasts := [] |};
     Wizard.sent := [] |}.

(** The data sources of the brief that app.js builds in custom mode after
    the upload of one file, parsed into [oneRow]. *)
Definition sourcesAfterUpload (fileName : string) : Data.DataSources :=
  App.dataSourcesOf (formWith "SKU-472" (Some "custom"))
    (App.upload (fun _ => oneRow) [csv fileName skuCsv] [csv fileName skuCsv] freshState).

(** The fresh page after the upload of one file, parsed into [oneRow]. *)
Definition worldAfterUpload (fileName : string) : App.World :=
  {| App.state :=
       App.upload (fun _ => oneRow) [csv fileName skuCsv] [csv fileName skuCsv] freshState;
     App.view := freshView;
     App.sent := [] |}.

(** The form data of the step-by-step dashboard in upload mode. *)
Definition uploadForm (files : list Data.File) : Wizard.FormData.t :=
  {| Wizard.FormData.product := "SKU-472";
     Wizard.FormData.marketplace := "Unknown";
     Wizard.FormData.mode := "deep";
     Wizard.FormData.goal := "growth";
     Wizard.FormData.dataMode := "upload";
     Wizard.FormData.files := files |}.

(** A report object whose [mode] field says quick, as a degraded deep run
    returns it. *)
Definition degradedReport : Data.Result.t :=
  {| Data.Result.report := Some (Data.ReportText "Deep analysis degraded: 2 of 5 sources present.");
     Data.Result.confidence_score := Some 0.4%Q;
     Data.Result.data_completeness := Some 0.4%Q;
     Data.Result.risks := Some ["Only 2 of 5 sources present"];
     Data.Result.recommendations := None;
     Data.Result.mode := Some "quick" |}.

(** A network that answers every brief of the step-by-step dashboard with the
    given report. *)
Definition replying (result : Data.Result.t) : Wizard.Brief.t -> Net.FetchOutcome :=
  fun _ => Net.Responds 120 {| Net.ok := true; Net.status := 200; Net.body := Net.Json None result |}.

(** The subtitle of the results panel. *)
Definition subtitleOf (w : Wizard.World) : string :=
  Wizard.Results.resultsSubtitle (Wizard.Dom.results (Wizard.dom w)).

(** An error response of the API with the given body. *)
Definition failing (body : option Api.json) : Api.Request Api.json -> Api.FetchOutcome :=
  fun _ => Api.Resolves {| Api.ok := false; Api.status := 422; Api.body := body |}.

(** The Confidence & Reliability section of a deep report, with the
    completeness written as a bare percentage and with a label. *)
Definition bareSection : string :=
  "## Confidence & Reliability" ++ App.newline
  ++ "- Confidence Score: 82%" ++ App.newline
  ++ "- Data Completeness: 80%" ++ App.newline.

Definition labelledSection : string :=
  "## Confidence & Reliability" ++ App.newline
  ++ "- Confidence Score: 82%" ++ App.newline
  ++ "- Data Completeness: High (80%)" ++ App.newline.

(** *** CSV texts *)

(** The number of occurrences of the character [c] in [s]. *)
Fixpoint countChar (c : ascii) (s : string) : nat :=
  match s with
  | EmptyString => 0
  | String a s' => (if Ascii.eqb a c then 1 else 0) + countChar c s'
  end.

(** The character [c] does not occur in [s]. *)
Definition lacks (c : ascii) (s : string) : bool := Nat.eqb (countChar c s) 0.

(** A CSV text: the header line and one line per row, the cells of a line
    separated by commas and the lines by line feeds. *)
Definition renderCsv (headers : list string) (rows : list (list string)) : string :=
  Js.join App.newline (map (Js.join ",") (headers :: rows)).

(** The value that [row[i]] gives for a row of cells. *)
Definition cellAt (cells : list string) (i : nat) : Data.cell :=
  match nth_error cells i with
  | Some x => Data.CString x
  | None => Data.CUndefined
  end.

(** No cell holds a comma or a line feed. *)
Definition cleanCells (cells : list string) : bool :=
  forallb (fun x => lacks ","%char x && lacks "010"%char x) cells.

(** *** Report texts *)

Definition nl : ascii := "010"%char.

(** A section ends where the text ends or a new heading starts. *)
Definition endsHere (s : list ascii) : bool :=
  match s with
  | [] => true
  | _ => ci_prefix (String nl "##") s
  end.

(** No section end inside [body], in the text [body ++ rest]. *)
Fixpoint openUntil (body rest : list ascii) : bool :=
  match body with
  | [] => true
  | _ :: body' => negb (endsHere (body ++ rest)) && openUntil body' rest
  end.

(** The lines of a section body, cleaned as [extractSection] cleans them. *)
Definition cleanLines (body : string) : list string :=
  List.filter
    (fun line => Js.truthy_str line && negb (String.prefix "#" line))
    (map (fun line => Js.trim (Ui.stripBullet line)) (Js.split nl body)).

(** A bullet list: one line "- item" per item. *)
Definition bullets (items : list string) : string :=
  Js.join (String nl EmptyString) (map (fun item => "- " ++ item) items).

(** An item that a bullet list can carry: without outer white space, not
    empty, on one line, and not starting with "#". *)
Definition cleanItem (item : string) : bool :=
  String.eqb (Js.trim item) item && Js.truthy_str item
  && lacks nl item && negb (String.prefix "#" item).

(** An item as the lists show it: trimmed, not empty, not a heading. *)
Definition shownItem (item : string) : Prop :=
  Js.trim item = item /\ item <> EmptyString /\ String.prefix "#" item = false.

(** [a] and [b] are the same text up to letter case. *)
Fixpoint ciEqual (a b : string) : bool :=
  match a, b with
  | EmptyString, EmptyString => true
  | String x a', String y b' => Ascii.eqb (Js.upper_char x) (Js.upper_char y) && ciEqual a' b'
  | _, _ => false
  end.

(** The completeness pattern of [extractMeta] from the colon on. *)
Definition completeness_tail : Regex.re :=
  Regex.seq
    [Regex.lit_i ":"; Regex.Star true Regex.space; Regex.Group 1 (Regex.Plus Regex.alpha);
     Regex.Opt
       (Regex.seq [Regex.Star true Regex.space; Regex.lit_i "(";
                   Regex.Group 2 (Regex.Plus Regex.digit); Regex.lit_i "%"; Regex.lit_i ")"])].

(** After its leading white space, [rest] does not open a parenthesis. *)
Fixpoint noParenthesis (rest : list ascii) : bool :=
  match rest with
  | [] => true
  | a :: rest' =>
      if Js.is_space a then noParenthesis rest' else negb (Ascii.eqb a "("%char)
  end.


(** The gradients of the highest and of the lowest band. *)
Definition greenGradient : string := "linear-gradient(90deg, #4ed18b, #41b883)".
Definition redGradient : string := "linear-gradient(90deg, #ff6b6b, #ff5252)".

(** *** Runs *)

(** The request has settled. *)
Definition settled {A} (c : Net.Completion A) : bool :=
  match c with Net.Pending => false | _ => true end.

(** The form with [p] typed into the product field. *)
Definition typed (p : string) (form : App.Form.t) : App.Form.t :=
  {| App.Form.productInput := Some p;
     App.Form.goal := App.Form.goal form;
     App.Form.mode := App.Form.mode form;
     App.Form.marketplace := App.Form.marketplace form;
     App.Form.region := App.Form.region form;
     App.Form.dataMode := App.Form.dataMode form |}.


(** The result brings no entries for a list. *)
Definition noEntries (o : option (list string)) : Prop := o = None \/ o = Some [].

(** The report of a result is something else than a text. *)
Definition reportNotText (result : Data.Result.t) : Prop :=
  match Data.Result.report result with
  | Some (Data.ReportText _) => False
  | _ => True
  end.

(** The alert of the step-by-step dashboard. *)
Definition stepAlertOf (w : Wizard.World) : option string := Wizard.Dom.stepAlert (Wizard.dom w).

(** The two states of the health badge of the step-by-step dashboard. *)
Definition onlineBadge : string * string := ("API: online", "badge badge-good").
Definition offlineBadge : string * string := ("API: offline", "badge badge-bad").

(** *** Further sample inputs *)

(** The chrome of the step-by-step dashboard before the health check. *)
Definition freshChrome : Wizard.Chrome.t :=
  {| Wizard.Chrome.healthBadge := ("API: checking", "badge");
     Wizard.Chrome.authBadge := ("Auth: checking", "badge");
     Wizard.Chrome.uploadSectionHidden := true;
     Wizard.Chrome.fileList := [] |}.

(** An API whose /health and /auth-status answer as a healthy, open service. *)
Definition healthyApi (url : string) : Api.FetchOutcome :=
  Api.Resolves
    {| Api.ok := true;
       Api.status := 200;
       Api.body :=
         Some (if Js.includes url "/health"
               then Api.JObj [("status", Api.JStr "ok")]
               else Api.JObj [("api_key_required", Api.JBool false)]) |}.

(** An API that answers every request with status 500 and a JSON body. *)
Definition brokenApi (url : string) : Api.FetchOutcome :=
  Api.Resolves
    {| Api.ok := false;
       Api.status := 500;
       Api.body := Some (Api.JObj [("detail", Api.JStr "Internal Server Error")]) |}.

(** A network that rejects every brief of the step-by-step dashboard after
    [t] milliseconds. *)
Definition refusing (t : N) (msg : string) : Wizard.Brief.t -> Net.FetchOutcome :=
  fun _ => Net.Fails t (Net.TypeError msg).

(** A network that answers every request of app.js with the given status
    and error detail. *)
Definition rejecting (status : N) (detail : option string)
    : App.Payload.t -> Net.FetchOutcome :=
  fun _ =>
    Net.Responds 120
      {| Net.ok := false; Net.status := status;
         Net.body := Net.Json detail (scoresOnly None None) |}.

(** A report object with a text report and nothing else. *)
Definition textReport (report : string) : Data.Result.t :=
  {| Data.Result.report := Some (Data.ReportText report);
     Data.Result.confidence_score := None;
     Data.Result.data_completeness := None;
     Data.Result.risks := None;
     Data.Result.recommendations := None;
     Data.Result.mode := None |}.

(** A report object whose report is a list of lines. *)
Definition linesReport (ls : list string) : Data.Result.t :=
  {| Data.Result.report := Some (Data.ReportLines ls);
     Data.Result.confidence_score := None;
     Data.Result.data_completeness := None;
     Data.Result.risks := None;
     Data.Result.recommendations := None;
     Data.Result.mode := None |}.

(** A report with a Risk Flags section of two bullets, followed by another
    section. *)
Definition riskReport : string :=
  "## Risk Flags" ++ App.newline
  ++ bullets ["Thin review base"; "Price gap to the category"]
  ++ App.newline ++ "## Strategic Recommendations" ++ App.newline.


(** * Properties *)

(** ** The primitives on examples *)

Example trim_example : Js.trim "  sku 472  " = "sku 472".
Proof. reflexivity. Qed.

Example toUpperCase_example : Js.toUpperCase "sku-472 b" = "SKU-472 B".
Proof. reflexivity. Qed.

Example includes_example :
  Js.includes (Js.toLowerCase "My_Reviews.CSV") "review" = true
  /\ Js.includes "catalog.csv" "review" = false.
Proof. split; reflexivity. Qed.

Example replace_example :
  Js.replace "catalog.csv" ".csv" "" = "catalog"
  /\ Js.replace "catalog.csv.csv" ".csv" "" = "catalog.csv"
  /\ Js.replace "catalog.json" ".csv" "" = "catalog.json".
Proof. repeat split. Qed.

Example split_example :
  Js.split ","%char "a,,b" = ["a"; ""; "b"] /\ Js.split ","%char "" = [""].
Proof. split; reflexivity. Qed.

Example parseRows_example : Wizard.parseRows skuCsv = oneRow.
Proof. reflexivity. Qed.

Example extractMeta_example :
  Ui.extractMeta labelledSection
    = {| Ui.confidence := Some 82%Q;
         Ui.completenessLabel := Some "High";
         Ui.completenessScore := Some 80%Q |}.
Proof. reflexivity. Qed.

(** A lazy star stops at the first place where the rest matches; a greedy
    one at the last. *)
Example lazy_and_greedy :
  Regex.match_ "a:b:c"
    (Regex.seq [Regex.Group 1 (Regex.Star false Regex.any); Regex.lit_i ":"])
    = Some {[ 1%nat := list_ascii_of_string "a" ]}
  /\ Regex.match_ "a:b:c"
       (Regex.seq [Regex.Group 1 (Regex.Star true Regex.any); Regex.lit_i ":"])
     = Some {[ 1%nat := list_ascii_of_string "a:b" ]}.
Proof. split; reflexivity. Qed.

(** ** Strings *)

Section StringFacts.

Lemma trimEnd_keeps (c : ascii) (s : string) :
  Js.is_space c = false -> Js.truthy_str (Js.trimEnd (String c s)) = true.
Proof.
  intros Hc. simpl. destruct (Js.trimEnd s); [rewrite Hc|]; reflexivity.
Qed.

Lemma trim_truthy (s : string) : Js.truthy_str (Js.trim s) = negb (blank s).
Proof.
  unfold Js.trim, blank.
  induction s as [|c s IH]; [reflexivity|].
  cbn [Js.trimStart list_ascii_of_string forallb].
  destruct (Js.is_space c) eqn:Hc; [exact IH|].
  rewrite trimEnd_keeps by exact Hc. reflexivity.
Qed.



Lemma truthy_str_neq (s : string) : Js.truthy_str s = true <-> s <> EmptyString.
Proof. destruct s; simpl; split; congruence. Qed.

Lemma list_ascii_app (a b : string) :
  list_ascii_of_string (a ++ b) = (list_ascii_of_string a ++ list_ascii_of_string b)%list.
Proof. induction a as [|c a IH]; simpl; [reflexivity|]. now rewrite IH. Qed.

End StringFacts.

(** ** Confidence badges *)

Section Badges.
Open Scope Q_scope.

Lemma Qle_bool_false (x y : Q) : Qle_bool x y = false <-> y < x.
Proof.
  split.
  - intros H. apply Qnot_le_lt. intros L. apply Qle_bool_iff in L. congruence.
  - intros H. destruct (Qle_bool x y) eqn:E; [|reflexivity].
    apply Qle_bool_iff in E. lra.
Qed.

(** The three classifiers, as the claim words them. *)
Lemma confidenceLabel_spec (c : Q) :
  App.confidenceLabel c =
    if Qle_bool (4 # 5) c then "High" else if Qle_bool (1 # 2) c then "Medium" else "Low".
Proof.
  unfold App.confidenceLabel.
  assert (E1 : Qle_bool 0.8 c = Qle_bool (4 # 5) c).
  { destruct (Qle_bool (4 # 5) c) eqn:E.
    - apply Qle_bool_iff in E. apply Qle_bool_iff. lra.
    - apply Qle_bool_false in E. apply Qle_bool_false. lra. }
  assert (E2 : Qle_bool 0.5 c = Qle_bool (1 # 2) c).
  { destruct (Qle_bool (1 # 2) c) eqn:E.
    - apply Qle_bool_iff in E. apply Qle_bool_iff. lra.
    - apply Qle_bool_false in E. apply Qle_bool_false. lra. }
  now rewrite E1, E2.
Qed.

Lemma scoreToBadge_label (s : Q) :
  Ui.label (Ui.scoreToBadge s) =
    if Qle_bool 75 s then "High" else if Qle_bool 50 s then "Medium" else "Low".
Proof.
  unfold Ui.scoreToBadge.
  destruct (Qle_bool 75 s); [reflexivity|].
  destruct (Qle_bool 50 s); reflexivity.
Qed.

Lemma or_num_nonzero (c d : Q) : ~ c == 0 -> Js.or_num (Some c) d = c.
Proof.
  intros H. unfold Js.or_num, Js.truthy_num.
  destruct (Qeq_bool c 0) eqn:E; [|reflexivity].
  apply Qeq_bool_iff in E. contradiction.
Qed.

Lemma or_num_zero (c d : Q) : c == 0 -> Js.or_num (Some c) d = d.
Proof.
  intros H. unfold Js.or_num, Js.truthy_num.
  apply Qeq_bool_iff in H. now rewrite H.
Qed.

Lemma confidenceLabel_vs_scoreToBadge (c : Q) :
  App.confidenceLabel c = Ui.label (Ui.scoreToBadge (100 * c)) <->
  ~ (3 # 4 <= c /\ c < 4 # 5).
Proof.
  rewrite confidenceLabel_spec, scoreToBadge_label.
  destruct (Qle_bool (4 # 5) c) eqn:A; destruct (Qle_bool 75 (100 * c)) eqn:B;
    destruct (Qle_bool (1 # 2) c) eqn:C; destruct (Qle_bool 50 (100 * c)) eqn:D;
    repeat match goal with
           | H : Qle_bool _ _ = true |- _ => apply Qle_bool_iff in H
           | H : Qle_bool _ _ = false |- _ => apply Qle_bool_false in H
           end;
    split; intros H; try discriminate; try reflexivity; try lra;
    try (exfalso; lra); try (exfalso; apply H; lra).
Qed.

End Badges.

(** ** Results display of app.js *)

Section DisplayResults.
Import Data App.
Open Scope Q_scope.

Variable marked : string -> string + Net.Exn.

Lemma or_num_falsy (o : option Q) (d : Q) : absent_or_zero o -> Js.or_num o d = d.
Proof.
  intros [-> | (q & -> & Hq)]; [reflexivity|]. now apply or_num_zero.
Qed.

(** C10. [displayResults] substitutes fixed defaults for falsy scores: a
    confidence score that is zero or absent is displayed as 75% with the
    badge derived from 0.75 (Medium); a completeness that is zero or absent
    is displayed as 80% with the meter at 80 per cent; so a reported score
    of zero is never displayed as 0%.  An element that is missing from the
    page stays missing. *)
Theorem displayResults_defaults_for_falsy_scores (result : Result.t) (v : View.t) :
  (absent_or_zero (Result.confidence_score result) ->
     View.confidenceScore (displayResults marked result v)
       = (fun _ => "75%") <$> View.confidenceScore v
     /\ View.confidenceBadge (displayResults marked result v)
       = (fun _ => confidenceLabel 0.75) <$> View.confidenceBadge v
     /\ confidenceLabel 0.75 = "Medium"
     /\ View.confidenceScore (displayResults marked result v) <> Some "0%")
  /\
  (absent_or_zero (Result.data_completeness result) ->
     View.completenessScore (displayResults marked result v)
       = (fun _ => "80%") <$> View.completenessScore v
     /\ View.completenessMeter (displayResults marked result v)
       = (fun _ => 0.8 * 100) <$> View.completenessMeter v
     /\ 0.8 * 100 == 80
     /\ View.completenessScore (displayResults marked result v) <> Some "0%").
Proof.
  split; intros H; cbn [displayResults View.confidenceScore View.confidenceBadge
                        View.completenessScore View.completenessMeter];
    rewrite (or_num_falsy _ _ H).
  - split; [reflexivity|]. split; [reflexivity|]. split; [reflexivity|].
    destruct (View.confidenceScore v); [vm_compute|]; discriminate.
  - split; [reflexivity|]. split; [reflexivity|]. split; [reflexivity|].
    destruct (View.completenessScore v); [vm_compute|]; discriminate.
Qed.

(** C8, as amended.  The classifiers of [scoreToBadge] and of [showResults]
    are the same function of the score.  For a confidence [c] in [0,1] the
    badge that [displayResults] shows equals their label at [100 * c]
    exactly when [c] is neither 0 nor in [0.75, 0.8): it classifies
    [c || 0.75] with the thresholds 0.8 and 0.5. *)
Theorem badge_classifiers_compared :
  (forall score : Q, Ui.label (Ui.scoreToBadge score) = Wizard.badgeText score)
  /\
  (forall (result : Result.t) (v : View.t) (c : Q) (old : string),
     Result.confidence_score result = Some c ->
     0 <= c <= 1 ->
     View.confidenceBadge v = Some old ->
     exists shown,
       View.confidenceBadge (displayResults marked result v) = Some shown
       /\ (shown = Ui.label (Ui.scoreToBadge (100 * c))
            <-> ~ (c == 0 \/ (3 # 4 <= c /\ c < 4 # 5)))).
Proof.
  split.
  - intros score. unfold Ui.scoreToBadge, Wizard.badgeText.
    destruct (Qle_bool 75 score); [reflexivity|].
    destruct (Qle_bool 50 score); reflexivity.
  - intros result v c old Hc Hrange Hv.
    cbn [displayResults View.confidenceBadge]. rewrite Hc, Hv.
    eexists; split; [reflexivity|].
    destruct (Qeq_dec c 0) as [Z | NZ].
    + rewrite (or_num_zero c _ Z).
      split; [|intros H; exfalso; apply H; now left].
      intros H. exfalso. revert H.
      rewrite scoreToBadge_label.
      assert (B1 : Qle_bool 75 (100 * c) = false) by (apply Qle_bool_false; lra).
      assert (B2 : Qle_bool 50 (100 * c) = false) by (apply Qle_bool_false; lra).
      rewrite B1, B2. vm_compute. discriminate.
    + rewrite (or_num_nonzero c _ NZ).
      rewrite confidenceLabel_vs_scoreToBadge. tauto.
Qed.

End DisplayResults.

(** C8, counterexample: at [c = 0.76] the badge of [displayResults] is Medium
    while [scoreToBadge] and [showResults] say High at [100 * c]. *)
Lemma badge_classifiers_differ :
  (0 <= 0.76 <= 1)%Q
  /\ App.View.confidenceBadge
       (App.displayResults plainMarked (scoresOnly (Some 0.76%Q) None) freshView)
     = Some "Medium"
  /\ Ui.label (Ui.scoreToBadge (100 * 0.76)) = "High"
  /\ Wizard.badgeText (100 * 0.76) = "High".
Proof. split; [split; discriminate|]. repeat split. Qed.

(** The comparison at [c = 0.9], where the three labels agree. *)
Lemma badge_classifiers_compared_witness :
  exists shown,
    App.View.confidenceBadge
      (App.displayResults plainMarked (scoresOnly (Some 0.9%Q) None) freshView) = Some shown
    /\ (shown = Ui.label (Ui.scoreToBadge (100 * 0.9))
         <-> ~ (0.9 == 0 \/ (3 # 4 <= 0.9 /\ 0.9 < 4 # 5))%Q).
Proof.
  apply (proj2 (badge_classifiers_compared plainMarked)
           (scoresOnly (Some 0.9%Q) None) freshView 0.9%Q "--").
  - reflexivity.
  - split; discriminate.
  - reflexivity.
Defined.

(** The defaults on the fresh page, for a report whose confidence is 0 and
    whose completeness is absent. *)
Lemma displayResults_defaults_for_falsy_scores_witness :
  App.View.confidenceScore
    (App.displayResults plainMarked (scoresOnly (Some 0%Q) None) freshView) = Some "75%"
  /\ App.View.completenessScore
    (App.displayResults plainMarked (scoresOnly (Some 0%Q) None) freshView) = Some "80%".
Proof.
  destruct (displayResults_defaults_for_falsy_scores plainMarked
              (scoresOnly (Some 0%Q) None) freshView) as [Hc Hd].
  split.
  - apply Hc. right. exists 0%Q. split; reflexivity.
  - apply Hd. left. reflexivity.
Defined.

(** ** The run handler of app.js *)

Section RunHandler.
Import Net Data App.

Variable cfg : Config.t.
Variable marked : string -> string + Exn.
Variable net : Payload.t -> FetchOutcome.


Lemma productOf_filled (form : Form.t) (v : string) :
  Form.productInput form = Some v -> blank v = false ->
  productOf form = Js.trim v /\ Js.truthy_str (productOf form) = true.
Proof.
  intros Hv Hb. unfold productOf. rewrite Hv. split; [reflexivity|].
  rewrite trim_truthy, Hb. reflexivity.
Qed.

(** Without a product nothing is sent and an error toast is shown. *)
Lemma handleRunAnalysis_rejects (form : Form.t) (w : World) :
  productOf form = EmptyString ->
  handleRunAnalysis cfg marked net form w =
    {| state := state w;
       view := showToast "Please enter a product name" "error" (view w);
       sent := sent w |}.
Proof. intros H. unfold handleRunAnalysis. rewrite H. reflexivity. Qed.

(** With a product exactly one request is sent, whatever the network does. *)
Lemma handleRunAnalysis_sends (form : Form.t) (w : World) :
  Js.truthy_str (productOf form) = true ->
  sent (handleRunAnalysis cfg marked net form w) = apiPayloadOf form (state w) :: sent w.
Proof.
  intros H. unfold handleRunAnalysis. rewrite H. cbn [negb].
  destruct (snd (callAPI cfg net (apiPayloadOf form (state w)))); reflexivity.
Qed.

Lemma handleRunAnalysis_sent_cases (form : Form.t) (w : World) :
  sent (handleRunAnalysis cfg marked net form w) = sent w
  \/ sent (handleRunAnalysis cfg marked net form w) = apiPayloadOf form (state w) :: sent w.
Proof.
  destruct (Js.truthy_str (productOf form)) eqn:E.
  - right. now apply handleRunAnalysis_sends.
  - left. rewrite handleRunAnalysis_rejects; [reflexivity|].
    destruct (productOf form); [reflexivity|discriminate].
Qed.

End RunHandler.

(** C7. Every payload built by the run handler of app.js carries
    [update_memory = false]: a click sends nothing or one payload with the
    flag off, and so does every payload sent in a session of clicks. *)
Theorem update_memory_is_always_false
    (cfg : Config.t) (marked : string -> string + Net.Exn) :
  (forall net form w,
     App.sent (App.handleRunAnalysis cfg marked net form w) = App.sent w
     \/ exists p,
          App.sent (App.handleRunAnalysis cfg marked net form w) = p :: App.sent w
          /\ App.Payload.update_memory p = false)
  /\
  (forall clicks st v,
     Forall (fun p => App.Payload.update_memory p = false)
       (App.sent (session cfg marked clicks
                    {| App.state := st; App.view := v; App.sent := [] |}))).
Proof.
  assert (Step : forall net form w,
             App.sent (App.handleRunAnalysis cfg marked net form w) = App.sent w
             \/ exists p,
                  App.sent (App.handleRunAnalysis cfg marked net form w) = p :: App.sent w
                  /\ App.Payload.update_memory p = false).
  { intros net form w.
    destruct (handleRunAnalysis_sent_cases cfg marked net form w) as [H | H]; [now left|].
    right. eexists. split; [exact H|reflexivity]. }
  split; [exact Step|].
  intros clicks st v.
  assert (Inv : forall w,
             Forall (fun p => App.Payload.update_memory p = false) (App.sent w) ->
             Forall (fun p => App.Payload.update_memory p = false)
               (App.sent (session cfg marked clicks w))).
  { unfold session. induction clicks as [|[net form] clicks IH]; intros w Hw; [exact Hw|].
    cbn [fold_left fst snd]. apply IH.
    destruct (Step net form w) as [E | (p & E & Hp)]; rewrite E; [exact Hw|].
    constructor; assumption. }
  apply Inv. constructor.
Qed.

(** ** The step-by-step dashboard *)

Lemma showResults_keeps_sent (marked : string -> string + Net.Exn)
    (result : Data.Result.t) (product mode : string) (w : Wizard.World) :
  Wizard.sent (fst (Wizard.showResults marked result product mode w)) = Wizard.sent w.
Proof.
  unfold Wizard.showResults.
  destruct (Data.Result.report result) as [[report | ls] |]; [|reflexivity|reflexivity].
  destruct (marked report); reflexivity.
Qed.

(** [runAnalysis] posts the brief made from the form data, once. *)
Lemma runAnalysis_posts (cfg : Config.t) (marked : string -> string + Net.Exn)
    (net : Wizard.Brief.t -> Net.FetchOutcome) (w : Wizard.World) :
  Wizard.sent (Wizard.runAnalysis cfg marked net w)
    = Wizard.briefOf cfg (Wizard.formData (Wizard.state w)) :: Wizard.sent w.
Proof.
  unfold Wizard.runAnalysis.
  destruct (Wizard.runAnalysis_api _ _ _) as [result | err |]; [|reflexivity|reflexivity].
  match goal with
  | |- context [Wizard.showResults ?m ?r ?p ?md ?x] =>
      pose proof (showResults_keeps_sent m r p md x) as K;
      destruct (Wizard.showResults m r p md x) as [w3 [err|]]
  end; cbn in K |- *; rewrite K; reflexivity.
Qed.



(** ** The timeout of [callAPI] *)

Section Timeout.
Import Net Data App.
Open Scope N_scope.

Variable cfg : Config.t.
Variable marked : string -> string + Exn.
Variable net : Payload.t -> FetchOutcome.

Lemma callAPI_bounded (payload : Payload.t) :
  fst (callAPI cfg net payload) <= timeoutOf cfg.
Proof.
  unfold callAPI. destruct (net payload) as [t r | t e |]; cbn [fst].
  - destruct (t <? timeoutOf cfg) eqn:E; cbn [fst]; [apply N.ltb_lt in E|]; lia.
  - destruct (t <? timeoutOf cfg) eqn:E; cbn [fst]; [apply N.ltb_lt in E|]; lia.
  - lia.
Qed.

Lemma callAPI_unanswered (payload : Payload.t) :
  unanswered cfg net payload -> callAPI cfg net payload = (timeoutOf cfg, Throw timedOut).
Proof.
  unfold unanswered, callAPI. destruct (net payload) as [t r | t e |]; intros H.
  - apply N.ltb_ge in H. now rewrite H.
  - apply N.ltb_ge in H. now rewrite H.
  - reflexivity.
Qed.

(** A run whose call throws: the error is shown, nothing is rendered. *)
Lemma handleRunAnalysis_throw (form : Form.t) (w : World) (err : Exn) :
  Js.truthy_str (productOf form) = true ->
  snd (callAPI cfg net (apiPayloadOf form (state w))) = Throw err ->
  handleRunAnalysis cfg marked net form w =
    {| state := setRunning false (state w);
       view := setLoading false
                 (showToast (message err) "error"
                    (setStatus ("❌ " ++ message err)
                       (setLoading true (setStatus "Running analysis..." (view w)))));
       sent := apiPayloadOf form (state w) :: sent w |}.
Proof.
  intros Hp Hc. unfold handleRunAnalysis. rewrite Hp, Hc. reflexivity.
Qed.

End Timeout.

(** C5, as amended.  [callAPI] bounds the wait for the response of every
    /analyze request by a timeout, [CONFIG.API_TIMEOUT] and 30000 ms when that
    is unset: the call settles no later than the timeout, and when [fetch] has
    not settled by then the request is aborted and the call throws the
    "timed out" error.  A timed-out run does not fall back to any rendering:
    the handler shows that error as status and as an error toast, leaves the
    results panel as it was, and ends with the button enabled again. *)
Theorem callAPI_timeout_then_error
    (cfg : Config.t) (marked : string -> string + Net.Exn) :
  (App.timeoutOf Config.CONFIG = 30000%N
   /\ forall cfg', Config.API_TIMEOUT cfg' = 0%N -> App.timeoutOf cfg' = 30000%N)
  /\
  (forall net payload, (fst (App.callAPI cfg net payload) <= App.timeoutOf cfg)%N)
  /\
  (forall net payload,
     unanswered cfg net payload ->
     App.callAPI cfg net payload = (App.timeoutOf cfg, Net.Throw App.timedOut))
  /\
  (forall net form w v,
     App.Form.productInput form = Some v ->
     blank v = false ->
     unanswered cfg net (App.apiPayloadOf form (App.state w)) ->
     let v' := App.view (App.handleRunAnalysis cfg marked net form w) in
     App.View.toasts v' = (Net.message App.timedOut, "error") :: App.View.toasts (App.view w)
     /\ App.View.configStatus v'
        = (fun _ => "❌ " ++ Net.message App.timedOut) <$> App.View.configStatus (App.view w)
     /\ App.View.report v' = App.View.report (App.view w)
     /\ App.View.confidenceScore v' = App.View.confidenceScore (App.view w)
     /\ App.View.confidenceBadge v' = App.View.confidenceBadge (App.view w)
     /\ App.View.completenessScore v' = App.View.completenessScore (App.view w)
     /\ App.View.completenessMeter v' = App.View.completenessMeter (App.view w)
     /\ App.View.riskList v' = App.View.riskList (App.view w)
     /\ App.View.recommendations v' = App.View.recommendations (App.view w)
     /\ App.View.runBtnDisabled v'
        = (fun _ => false) <$> App.View.runBtnDisabled (App.view w)
     /\ App.analysisRunning (App.state (App.handleRunAnalysis cfg marked net form w)) = false).
Proof.
  split; [|split; [|split]].
  - split; [reflexivity|]. intros cfg' H. unfold App.timeoutOf. now rewrite H.
  - intros net payload. apply callAPI_bounded.
  - intros net payload. apply callAPI_unanswered.
  - intros net form w v Hv Hb Hu v'. subst v'.
    destruct (productOf_filled form v Hv Hb) as [_ Ht].
    rewrite (handleRunAnalysis_throw cfg marked net form w App.timedOut Ht)
      by (rewrite (callAPI_unanswered cfg net _ Hu); reflexivity).
    cbn [App.view App.state App.setRunning App.analysisRunning].
    repeat split.
    + cbn. destruct (App.View.configStatus (App.view w)); reflexivity.
    + cbn. destruct (App.View.runBtnDisabled (App.view w)); reflexivity.
Qed.

(** C5, counterexample: with a network that never answers, the run on the
    fresh page ends at the timeout with the error shown and nothing rendered;
    the report panel and the scores still show their placeholders. *)
Lemma timed_out_run_renders_nothing :
  let w' := App.handleRunAnalysis Config.CONFIG plainMarked silent
              (formWith "SKU-472" None) freshWorld in
  App.callAPI Config.CONFIG silent (App.apiPayloadOf (formWith "SKU-472" None) freshState)
    = (30000%N, Net.Throw App.timedOut)
  /\ App.View.report (App.view w') = App.View.report freshView
  /\ App.View.confidenceScore (App.view w') = Some "--"
  /\ App.View.completenessScore (App.view w') = Some "--"
  /\ App.View.riskList (App.view w') = App.View.riskList freshView
  /\ App.View.recommendations (App.view w') = App.View.recommendations freshView
  /\ App.View.toasts (App.view w')
     = [("API request timed out (30s). The server might be busy or offline.", "error")]
  /\ App.View.configStatus (App.view w')
     = Some "❌ API request timed out (30s). The server might be busy or offline.".
Proof. repeat split. Qed.

(** The timeout at work on the fresh page with a silent network. *)
Lemma callAPI_timeout_then_error_witness :
  App.timeoutOf noTimeoutSet = 30000%N
  /\ App.callAPI Config.CONFIG silent (App.apiPayloadOf (formWith "SKU-472" None) freshState)
     = (30000%N, Net.Throw App.timedOut)
  /\ App.View.toasts
       (App.view (App.handleRunAnalysis Config.CONFIG plainMarked silent
                    (formWith "SKU-472" None) freshWorld))
     = [(Net.message App.timedOut, "error")].
Proof.
  destruct (callAPI_timeout_then_error Config.CONFIG plainMarked) as ((_ & A) & _ & C & D).
  split; [|split].
  - apply A. reflexivity.
  - apply C. exact I.
  - destruct (D silent (formWith "SKU-472" None) freshWorld "SKU-472") as (H & _).
    + reflexivity.
    + reflexivity.
    + exact I.
    + exact H.
Defined.

(** The timer is cleared once the headers are in: a body that never
    completes leaves the call pending and the page loading. *)
Lemma stalled_body_is_not_timed_out :
  let w' := App.handleRunAnalysis Config.CONFIG plainMarked stalling
              (formWith "SKU-472" None) freshWorld in
  snd (App.callAPI Config.CONFIG stalling (App.apiPayloadOf (formWith "SKU-472" None) freshState))
    = Net.Pending
  /\ App.View.runBtnDisabled (App.view w') = Some true
  /\ App.View.configStatus (App.view w') = Some "Running analysis..."
  /\ App.View.toasts (App.view w') = []
  /\ App.analysisRunning (App.state w') = true.
Proof. repeat split. Qed.

(** A run that is answered in time displays the scores of the report. *)
Lemma answered_run_displays_scores :
  let w' := App.handleRunAnalysis Config.CONFIG plainMarked
              (answering (scoresOnly (Some 0.9%Q) (Some 1%Q)))
              (formWith "SKU-472" None) freshWorld in
  App.View.confidenceScore (App.view w') = Some "90%"
  /\ App.View.confidenceBadge (App.view w') = Some "High"
  /\ App.View.completenessScore (App.view w') = Some "100%"
  /\ App.View.toasts (App.view w') = [("✅ Analysis complete!", "success")]
  /\ App.View.runBtnDisabled (App.view w') = Some false.
Proof. repeat split. Qed.

(** ** Uploaded files and the source handles of the brief *)

Section Uploads.
Import Data.

Lemma lastWith_snoc {A} (p : A -> bool) (xs : list A) (x : A) :
  lastWith p (xs ++ [x]) = if p x then Some x else lastWith p xs.
Proof. unfold lastWith. rewrite rev_unit. reflexivity. Qed.

Lemma lastWith_none {A} (p : A -> bool) (xs : list A) :
  (forall x, p x = false) -> lastWith p xs = None.
Proof.
  intros H. unfold lastWith. induction (rev xs) as [|y ys IH]; [reflexivity|].
  cbn. now rewrite H.
Qed.

Lemma lastWith_ext {A} (p q : A -> bool) (xs : list A) :
  (forall x, p x = q x) -> lastWith p xs = lastWith q xs.
Proof.
  intros H. unfold lastWith. induction (rev xs) as [|y ys IH]; [reflexivity|].
  cbn. now rewrite H, IH.
Qed.

(** Filling a dictionary from a list: a key holds the value of the last
    element filed under it. *)
Lemma fold_put_lookup {A V} (key : A -> string) (val : A -> V)
    (put : string -> V -> gmap string V -> gmap string V) (k : string) :
  (forall k' v m, put k' v m !! k = if String.eqb k' k then Some v else m !! k) ->
  forall (xs : list A) (m0 : gmap string V),
    fold_left (fun m x => put (key x) (val x) m) xs m0 !! k
      = match lastWith (fun x => String.eqb (key x) k) xs with
        | Some x => Some (val x)
        | None => m0 !! k
        end.
Proof.
  intros Hput xs. induction xs as [|x xs IH] using rev_ind; intros m0; [reflexivity|].
  rewrite fold_left_app, lastWith_snoc. cbn [fold_left].
  rewrite Hput. destruct (String.eqb (key x) k); [reflexivity|apply IH].
Qed.

Lemma insert_lookup_eqb {V} (k k' : string) (v : V) (m : gmap string V) :
  <[k' := v]> m !! k = if String.eqb k' k then Some v else m !! k.
Proof.
  destruct (String.eqb_spec k' k) as [-> | Hne].
  - apply lookup_insert_eq.
  - now apply lookup_insert_ne.
Qed.

Lemma set_prop_lookup {V} (k k' : string) (v : V) (m : gmap string V) :
  k <> "__proto__" ->
  set_prop k' v m !! k = if String.eqb k' k then Some v else m !! k.
Proof.
  intros Hk. unfold set_prop.
  destruct (String.eqb_spec k' "__proto__") as [-> | Hne]; [|apply insert_lookup_eqb].
  destruct (String.eqb_spec "__proto__" k) as [E | _]; [congruence|reflexivity].
Qed.

Lemma key_of_eqb (k1 k2 : Kind) : String.eqb (key_of k1) (key_of k2) = bool_decide (k1 = k2).
Proof. destruct k1, k2; reflexivity. Qed.

Lemma kindOfName_cases (n : string) :
  kindOfName n = Reviews \/ kindOfName n = Pricing \/ kindOfName n = Catalog.
Proof.
  unfold kindOfName. destruct (Js.includes _ "review"); [now left|].
  destruct (_ || _); [right; now left | right; now right].
Qed.

Lemma complete_parsedData (file : File) (data : list Row) (st : App.appState) :
  App.parsedData (App.complete file data st)
    = <[key_of (kindOfName (name file)) := data]> (App.parsedData st).
Proof.
  unfold App.complete, kindOfName.
  destruct (Js.includes _ "review"); [reflexivity|].
  destruct (_ || _); reflexivity.
Qed.

Lemma parsesCompleted_parsedData (papa : File -> list Row) (done : list File)
    (st : App.appState) :
  App.parsedData (App.parsesCompleted papa done st)
    = fold_left (fun m f => <[key_of (kindOfName (name f)) := papa f]> m)
        done (App.parsedData st).
Proof.
  unfold App.parsesCompleted. revert st.
  induction done as [|f done IH]; intros st; [reflexivity|].
  cbn [fold_left]. rewrite IH, complete_parsedData. reflexivity.
Qed.

(** After an upload, the rows under the key of a kind are those of the file
    that completed last among the files whose name gives that kind. *)
Lemma upload_lookup (papa : File -> list Row) (files done : list File)
    (st : App.appState) (k : Kind) :
  App.parsedData (App.upload papa files done st) !! key_of k
    = papa <$> lastWith (fun f => bool_decide (kindOfName (name f) = k)) done.
Proof.
  unfold App.upload. rewrite parsesCompleted_parsedData.
  rewrite (fold_put_lookup (fun f => key_of (kindOfName (name f))) papa
             (fun k' v m => <[k' := v]> m) (key_of k))
    by (intros; apply insert_lookup_eqb).
  cbn [App.handleFiles App.parsedData]. rewrite lookup_empty.
  rewrite (lastWith_ext _ (fun f => bool_decide (kindOfName (name f) = k)))
    by (intros; apply key_of_eqb).
  destruct (lastWith _ done); reflexivity.
Qed.

Lemma app_handle_after_upload (form : App.Form.t) (papa : File -> list Row)
    (files done : list File) (st : App.appState) (k : Kind) :
  App.Form.dataMode form = Some "custom" ->
  handle_of k (App.dataSourcesOf form (App.upload papa files done st))
    = match lastWith (fun f => bool_decide (kindOfName (name f) = k)) done with
      | Some f => Inline (papa f)
      | None => handle_of k App.defaultSources
      end.
Proof.
  intros Hmode.
  pose proof (upload_lookup papa files done st k) as L.
  unfold App.dataSourcesOf. rewrite Hmode. cbn [String.eqb Ascii.eqb Bool.eqb andb].
  destruct (0 <? base.size _)%nat eqn:Hsize.
  - destruct k; cbn [handle_of catalog reviews pricing competitors performance_signals];
      cbn [key_of] in L; try (rewrite L; destruct (lastWith _ done); reflexivity);
      rewrite lastWith_none; try reflexivity;
      intros f; destruct (kindOfName_cases (name f)) as [E | [E | E]]; rewrite E; reflexivity.
  - apply Nat.ltb_ge in Hsize.
    assert (E : App.parsedData (App.upload papa files done st) = ∅)
      by (apply map_size_empty_inv; lia).
    rewrite E, lookup_empty in L.
    destruct (lastWith _ done); [discriminate|]. reflexivity.
Qed.

Lemma readFiles_lookup (files : list File) (k : string) :
  k <> "__proto__" ->
  Wizard.readFiles files !! k
    = (fun f => Wizard.parseRows (text f)) <$> lastWith (fun f => String.eqb (fileKey f) k) files.
Proof.
  intros Hk. unfold Wizard.readFiles.
  rewrite (fold_put_lookup fileKey (fun f => Wizard.parseRows (text f)) set_prop k)
    by (intros; now apply set_prop_lookup).
  rewrite lookup_empty. destruct (lastWith _ files); reflexivity.
Qed.

(** The four kinds that the step-by-step dashboard files under their own key. *)
Lemma wizard_handle (cfg : Config.t) (fd : Wizard.FormData.t) (k : Kind) :
  Wizard.FormData.dataMode fd = "upload" ->
  k <> Performance ->
  handle_of k (Wizard.dataSourcesOf cfg fd)
    = match Wizard.readFiles (Wizard.FormData.files fd) !! key_of k with
      | Some rows => Inline rows
      | None => handle_of k (Wizard.defaultSources cfg)
      end.
Proof.
  intros Hmode Hk. unfold Wizard.dataSourcesOf. rewrite Hmode.
  cbn [String.eqb Ascii.eqb Bool.eqb andb].
  destruct (Wizard.FormData.files fd) as [|f fs] eqn:Hf.
  - cbn. rewrite lookup_empty. reflexivity.
  - cbn [length Nat.ltb Nat.leb].
    destruct k; try congruence; reflexivity.
Qed.

End Uploads.

(** C1, as amended.  The source kind under which the rows of an uploaded file
    enter the brief is determined by the name of the file; the caller declares
    nothing.  In app.js (custom mode) the handle of each kind is the rows of
    the file parsed last among those whose lower-cased name contains "review"
    (reviews), else "price" or "pricing" (pricing), else anything (catalog),
    and the default path when there is no such file.  In the step-by-step
    dashboard the rows of a file are filed under its name without the first
    ".csv", and the catalog, reviews, pricing and competitors handles are the
    rows filed under these four keys. *)
Theorem source_kind_follows_file_name :
  (forall form papa files done st k,
     App.Form.dataMode form = Some "custom" ->
     Data.handle_of k (App.dataSourcesOf form (App.upload papa files done st))
       = match lastWith (fun f => bool_decide (kindOfName (Data.name f) = k)) done with
         | Some f => Data.Inline (papa f)
         | None => Data.handle_of k App.defaultSources
         end)
  /\
  (forall files k,
     k <> "__proto__" ->
     Wizard.readFiles files !! k
       = (fun f => Wizard.parseRows (Data.text f))
           <$> lastWith (fun f => String.eqb (fileKey f) k) files)
  /\
  (forall cfg fd k,
     Wizard.FormData.dataMode fd = "upload" ->
     k <> Data.Performance ->
     Data.handle_of k (Wizard.dataSourcesOf cfg fd)
       = match lastWith (fun f => String.eqb (fileKey f) (Data.key_of k))
                 (Wizard.FormData.files fd) with
         | Some f => Data.Inline (Wizard.parseRows (Data.text f))
         | None => Data.handle_of k (Wizard.defaultSources cfg)
         end).
Proof.
  split; [|split].
  - intros. now apply app_handle_after_upload.
  - intros. now apply readFiles_lookup.
  - intros cfg fd k Hmode Hk. rewrite wizard_handle by assumption.
    rewrite readFiles_lookup by (destruct k; discriminate).
    destruct (lastWith _ _); reflexivity.
Qed.

(** C1, counterexample: the same upload under two names.  Named reviews.csv,
    the rows enter the brief as reviews; named catalog.csv, as catalog.  The
    same holds in the step-by-step dashboard. *)
Lemma same_rows_enter_under_the_kind_of_the_name :
  (Data.handle_of Data.Reviews (sourcesAfterUpload "reviews.csv") = Data.Inline oneRow
   /\ Data.handle_of Data.Catalog (sourcesAfterUpload "reviews.csv") = Data.Path "catalog.json")
  /\
  (Data.handle_of Data.Reviews (sourcesAfterUpload "catalog.csv") = Data.Path "reviews.json"
   /\ Data.handle_of Data.Catalog (sourcesAfterUpload "catalog.csv") = Data.Inline oneRow)
  /\
  (Data.reviews (Wizard.dataSourcesOf Config.CONFIG (uploadForm [csv "reviews.csv" skuCsv]))
     = Data.Inline oneRow
   /\ Data.reviews (Wizard.dataSourcesOf Config.CONFIG (uploadForm [csv "catalog.csv" skuCsv]))
     = Data.Path "reviews.json").
Proof. vm_compute. repeat split. Qed.

(** A price list in app.js and a competitors file in the step-by-step
    dashboard. *)
Lemma source_kind_follows_file_name_witness :
  Data.handle_of Data.Pricing
    (App.dataSourcesOf (formWith "SKU-472" (Some "custom"))
       (App.upload (fun _ => oneRow) [csv "Price_list.csv" skuCsv] [csv "Price_list.csv" skuCsv]
          freshState))
    = Data.Inline oneRow
  /\ Wizard.readFiles [csv "competitors.csv" skuCsv] !! "competitors" = Some oneRow
  /\ Data.handle_of Data.Competitors
       (Wizard.dataSourcesOf Config.CONFIG (uploadForm [csv "competitors.csv" skuCsv]))
     = Data.Inline oneRow.
Proof.
  destruct source_kind_follows_file_name as (A & B & C).
  split; [|split].
  - rewrite A by reflexivity. reflexivity.
  - rewrite B by discriminate. reflexivity.
  - rewrite C; [reflexivity | reflexivity | discriminate].
Defined.

(** C2, as amended.  In app.js the catalog, reviews and pricing handles of
    the brief that is sent carry the parsed rows inline whenever custom mode
    is on and rows are held for that kind, and the competitors and
    performance_signals handles are always the default paths.  In the
    step-by-step dashboard (upload mode) the catalog, reviews, pricing and
    competitors handles of the brief that is posted carry inline the rows
    filed under the key of the kind. *)
Theorem inline_rows_where_supported
    (cfg : Config.t) (marked : string -> string + Net.Exn) :
  (forall net form w v k rows,
     App.Form.productInput form = Some v ->
     blank v = false ->
     App.Form.dataMode form = Some "custom" ->
     k = Data.Catalog \/ k = Data.Reviews \/ k = Data.Pricing ->
     App.parsedData (App.state w) !! Data.key_of k = Some rows ->
     exists p,
       App.sent (App.handleRunAnalysis cfg marked net form w) = p :: App.sent w
       /\ Data.handle_of k (App.Brief.data_sources (App.Payload.brief p)) = Data.Inline rows)
  /\
  (forall form st,
     Data.handle_of Data.Competitors (App.dataSourcesOf form st) = Data.Path "competitors.json"
     /\ Data.handle_of Data.Performance (App.dataSourcesOf form st)
        = Data.Path "performance_signals.json")
  /\
  (forall wnet w k rows,
     Wizard.FormData.dataMode (Wizard.formData (Wizard.state w)) = "upload" ->
     k <> Data.Performance ->
     Wizard.readFiles (Wizard.FormData.files (Wizard.formData (Wizard.state w)))
       !! Data.key_of k = Some rows ->
     exists b,
       Wizard.sent (Wizard.runAnalysis cfg marked wnet w) = b :: Wizard.sent w
       /\ Data.handle_of k (Wizard.Brief.data_sources b) = Data.Inline rows).
Proof.
  split; [|split].
  - intros net form w v k rows Hv Hb Hmode Hk Hrows.
    destruct (productOf_filled form v Hv Hb) as [_ Ht].
    exists (App.apiPayloadOf form (App.state w)).
    split; [now apply handleRunAnalysis_sends|].
    cbn [App.apiPayloadOf App.Payload.brief App.briefOf App.Brief.data_sources].
    unfold App.dataSourcesOf. rewrite Hmode.
    cbn [String.eqb Ascii.eqb Bool.eqb andb].
    assert (Hsize : (0 <? base.size (App.parsedData (App.state w)))%nat = true).
    { apply Nat.ltb_lt.
      destruct (base.size (App.parsedData (App.state w))) eqn:E; [|lia].
      apply map_size_empty_inv in E. rewrite E, lookup_empty in Hrows. discriminate. }
    rewrite Hsize.
    destruct Hk as [-> | [-> | ->]]; cbn [Data.handle_of Data.key_of] in *;
      cbn [Data.catalog Data.reviews Data.pricing]; now rewrite Hrows.
  - intros form st. unfold App.dataSourcesOf.
    destruct (_ && _); split; reflexivity.
  - intros wnet w k rows Hmode Hk Hrows.
    rewrite runAnalysis_posts. eexists. split; [reflexivity|].
    cbn [Wizard.briefOf Wizard.Brief.data_sources].
    rewrite wizard_handle by assumption. now rewrite Hrows.
Qed.

(** C2, counterexample: a file of competitor rows uploaded in custom mode.
    The brief that app.js sends keeps the default path for competitors (and
    for performance_signals); the rows travel as the catalog. *)
Lemma competitor_rows_are_not_carried_as_competitors :
  exists p,
    App.sent (App.handleRunAnalysis Config.CONFIG plainMarked silent
                (formWith "SKU-472" (Some "custom")) (worldAfterUpload "competitors.csv")) = [p]
    /\ Data.handle_of Data.Competitors (App.Brief.data_sources (App.Payload.brief p))
       = Data.Path "competitors.json"
    /\ Data.handle_of Data.Competitors (App.Brief.data_sources (App.Payload.brief p))
       <> Data.Inline oneRow
    /\ Data.handle_of Data.Performance (App.Brief.data_sources (App.Payload.brief p))
       = Data.Path "performance_signals.json"
    /\ Data.handle_of Data.Catalog (App.Brief.data_sources (App.Payload.brief p))
       = Data.Inline oneRow.
Proof.
  eexists. split; [vm_compute; reflexivity|].
  vm_compute. repeat split. discriminate.
Qed.

(** Reviews uploaded in app.js, competitors in the step-by-step dashboard. *)
Lemma inline_rows_where_supported_witness :
  (exists p,
     App.sent (App.handleRunAnalysis Config.CONFIG plainMarked silent
                 (formWith "SKU-472" (Some "custom")) (worldAfterUpload "reviews.csv")) = [p]
     /\ Data.handle_of Data.Reviews (App.Brief.data_sources (App.Payload.brief p))
        = Data.Inline oneRow)
  /\
  (exists b,
     Wizard.sent (Wizard.runAnalysis Config.CONFIG plainMarked (fun _ => Net.Hangs)
                    (wizardAt1 "SKU-472" "deep" "upload" [csv "competitors.csv" skuCsv])) = [b]
     /\ Data.handle_of Data.Competitors (Wizard.Brief.data_sources b) = Data.Inline oneRow).
Proof.
  destruct (inline_rows_where_supported Config.CONFIG plainMarked) as (A & _ & C).
  split.
  - destruct (A silent (formWith "SKU-472" (Some "custom")) (worldAfterUpload "reviews.csv")
                "SKU-472" Data.Reviews oneRow) as (p & H1 & H2).
    + reflexivity.
    + reflexivity.
    + reflexivity.
    + right. left. reflexivity.
    + reflexivity.
    + exists p. split; [exact H1 | exact H2].
  - destruct (C (fun _ => Net.Hangs)
                (wizardAt1 "SKU-472" "deep" "upload" [csv "competitors.csv" skuCsv])
                Data.Competitors oneRow) as (b & H1 & H2).
    + reflexivity.
    + discriminate.
    + reflexivity.
    + exists b. split; [exact H1 | exact H2].
Defined.

(** ** The mode label of the step-by-step dashboard *)

Section ModeLabel.
Import Net Data Wizard.

Variable marked : string -> string + Exn.

Lemma showResults_subtitle (result : Result.t) (product mode : string) (w : World) :
  subtitleOf (fst (showResults marked result product mode w))
    = product ++ " • " ++ modeLabel mode ++ " Analysis".
Proof.
  unfold showResults, subtitleOf.
  destruct (Result.report result) as [[report | ls] |]; [|reflexivity|reflexivity].
  destruct (marked report); reflexivity.
Qed.

Lemma runAnalysis_subtitle (cfg : Config.t) (wnet : Brief.t -> FetchOutcome) (w : World)
    (result : Result.t) :
  runAnalysis_api wnet (briefOf cfg (formData (state w))) None = Return result ->
  subtitleOf (runAnalysis cfg marked wnet w)
    = FormData.product (formData (state w)) ++ " • "
      ++ modeLabel (FormData.mode (formData (state w))) ++ " Analysis".
Proof.
  intros H. unfold runAnalysis. rewrite H.
  match goal with
  | |- context [showResults ?m ?r ?p ?md ?x] =>
      pose proof (showResults_subtitle r p md x) as K;
      destruct (showResults m r p md x) as [w3 [err|]]
  end; exact K.
Qed.

End ModeLabel.

(** C3, as amended.  The mode label shown with a displayed result is
    computed from the requested mode alone, "Quick" when the requested mode
    is quick and "Deep" otherwise; the mode field of the returned report
    object is not read.  (Whether a deep request on fewer than three sources
    is answered with a degraded report is decided by the analysis service,
    not by the dashboard.) *)
Theorem mode_label_is_the_requested_mode (marked : string -> string + Net.Exn) :
  (forall result product mode w,
     subtitleOf (fst (Wizard.showResults marked result product mode w))
       = product ++ " • " ++ (if String.eqb mode "quick" then "Quick" else "Deep")
         ++ " Analysis")
  /\
  (forall cfg wnet w t response detail result,
     wnet (Wizard.briefOf cfg (Wizard.formData (Wizard.state w))) = Net.Responds t response ->
     Net.ok response = true ->
     Net.body response = Net.Json detail result ->
     subtitleOf (Wizard.runAnalysis cfg marked wnet w)
       = Wizard.FormData.product (Wizard.formData (Wizard.state w)) ++ " • "
         ++ (if String.eqb (Wizard.FormData.mode (Wizard.formData (Wizard.state w))) "quick"
             then "Quick" else "Deep")
         ++ " Analysis").
Proof.
  split.
  - intros. apply showResults_subtitle.
  - intros cfg wnet w t response detail result Hnet Hok Hbody.
    apply (runAnalysis_subtitle marked cfg wnet w result).
    unfold Wizard.runAnalysis_api. rewrite Hnet, Hbody, Hok. reflexivity.
Qed.

(** C3, counterexample: a deep request answered by a report whose mode field
    says quick is displayed under the label "Deep". *)
Lemma degraded_report_is_labelled_deep :
  let w := Wizard.handleStep1Next (wizardAt1 "SKU-472" "deep" "sample" []) in
  Data.Result.mode degradedReport = Some "quick"
  /\ subtitleOf (Wizard.runAnalysis Config.CONFIG plainMarked (replying degradedReport) w)
     = "SKU-472 • Deep Analysis".
Proof. split; reflexivity. Qed.

(** A quick request is labelled Quick. *)
Lemma mode_label_is_the_requested_mode_witness :
  subtitleOf (Wizard.runAnalysis Config.CONFIG plainMarked (replying degradedReport)
                (Wizard.handleStep1Next (wizardAt1 "SKU-472" "quick" "sample" [])))
    = "SKU-472 • Quick Analysis".
Proof.
  apply (proj2 (mode_label_is_the_requested_mode plainMarked) Config.CONFIG
           (replying degradedReport)
           (Wizard.handleStep1Next (wizardAt1 "SKU-472" "quick" "sample" []))
           120%N
           {| Net.ok := true; Net.status := 200; Net.body := Net.Json None degradedReport |}
           None degradedReport); reflexivity.
Defined.

(** ** The API client *)

Section ApiClient.
Import Api.

Context {P : Type}.
Variable cfg : Config.t.
Variable fetch : Request P -> FetchOutcome.
Variable payload : P.
Variables apiKey baseUrlOverride : option string.

Lemma runAnalysis_resolved (response : Response) :
  fetch (analyzeRequest cfg payload apiKey baseUrlOverride) = Resolves response ->
  runAnalysis cfg fetch payload apiKey baseUrlOverride =
    let data := match body response with Some v => v | None => JObj [] end in
    if ok response then Returns data
    else match detail data with
         | OfNull => Throws TypeErrorOfNull
         | Value d => Throws (ErrorOf (if truthy d then d else JStr "Analysis failed"))
         | Undefined => Throws (ErrorOf (JStr "Analysis failed"))
         end.
Proof.
  intros H. unfold runAnalysis. rewrite H. destruct (ok response); reflexivity.
Qed.

End ApiClient.

(** C9, as amended.  Given a response, [runAnalysis] throws exactly when the
    status is not ok.  On an ok status it returns the parsed body, and the
    empty object when the body does not parse.  On a status that is not ok,
    the error is made from the body's [detail] when that field is truthy,
    and has the message "Analysis failed" when the body does not parse or is
    a value other than [null] whose [detail] is absent or falsy. *)
Theorem runAnalysis_throws_iff_not_ok {P : Type} (cfg : Config.t)
    (fetch : Api.Request P -> Api.FetchOutcome) (payload : P)
    (apiKey baseUrlOverride : option string) (response : Api.Response) :
  fetch (Api.analyzeRequest cfg payload apiKey baseUrlOverride) = Api.Resolves response ->
  let outcome := Api.runAnalysis cfg fetch payload apiKey baseUrlOverride in
  ((exists t, outcome = Api.Throws t) <-> Api.ok response = false)
  /\ (forall data, Api.ok response = true -> Api.body response = Some data ->
        outcome = Api.Returns data)
  /\ (Api.ok response = true -> Api.body response = None ->
        outcome = Api.Returns (Api.JObj []))
  /\ (forall data d, Api.ok response = false -> Api.body response = Some data ->
        Api.detail data = Api.Value d -> Api.truthy d = true ->
        outcome = Api.Throws (Api.ErrorOf d))
  /\ (forall data, Api.ok response = false -> Api.body response = Some data ->
        data <> Api.JNull ->
        Api.detail data = Api.Undefined
        \/ (exists d, Api.detail data = Api.Value d /\ Api.truthy d = false) ->
        outcome = Api.Throws (Api.ErrorOf (Api.JStr "Analysis failed")))
  /\ (Api.ok response = false -> Api.body response = None ->
        outcome = Api.Throws (Api.ErrorOf (Api.JStr "Analysis failed"))).
Proof.
  intros Hfetch outcome. subst outcome.
  rewrite (runAnalysis_resolved cfg fetch payload apiKey baseUrlOverride response Hfetch).
  cbv zeta.
  split; [|split; [|split; [|split; [|split]]]].
  - destruct (Api.ok response).
    + split; [intros [t Ht]; discriminate | discriminate].
    + split; [reflexivity|]. intros _.
      destruct (Api.detail _); eexists; reflexivity.
  - intros data Hok Hbody. now rewrite Hok, Hbody.
  - intros Hok Hbody. now rewrite Hok, Hbody.
  - intros data d Hok Hbody Hd Ht. now rewrite Hok, Hbody, Hd, Ht.
  - intros data Hok Hbody Hnull [Hd | (d & Hd & Ht)]; rewrite Hok, Hbody, Hd;
      [reflexivity | now rewrite Ht].
  - intros Hok Hbody. now rewrite Hok, Hbody.
Qed.

(** C9, counterexample: an error response whose [detail] is present and is
    the empty string.  The message thrown is "Analysis failed", not the
    detail. *)
Lemma empty_detail_is_not_the_message :
  let data := Api.JObj [("detail", Api.JStr "")] in
  Api.detail data = Api.Value (Api.JStr "")
  /\ Api.runAnalysis Config.CONFIG (failing (Some data)) (Api.JObj []) None None
     = Api.Throws (Api.ErrorOf (Api.JStr "Analysis failed"))
  /\ Api.ErrorOf (Api.JStr "Analysis failed") <> Api.ErrorOf (Api.JStr "").
Proof. repeat split. discriminate. Qed.

(** An error response whose body is [null] ends in a TypeError. *)
Lemma null_body_on_error_is_a_type_error :
  Api.runAnalysis Config.CONFIG (failing (Some Api.JNull)) (Api.JObj []) None None
    = Api.Throws Api.TypeErrorOfNull.
Proof. reflexivity. Qed.

(** An error response with a detail. *)
Lemma runAnalysis_throws_iff_not_ok_witness :
  Api.runAnalysis Config.CONFIG
    (failing (Some (Api.JObj [("detail", Api.JStr "Invalid brief")])))
    (Api.JObj []) None None
  = Api.Throws (Api.ErrorOf (Api.JStr "Invalid brief")).
Proof.
  destruct (runAnalysis_throws_iff_not_ok Config.CONFIG
              (failing (Some (Api.JObj [("detail", Api.JStr "Invalid brief")])))
              (Api.JObj []) None None
              {| Api.ok := false; Api.status := 422;
                 Api.body := Some (Api.JObj [("detail", Api.JStr "Invalid brief")]) |}
              eq_refl) as (_ & _ & _ & D & _).
  apply (D (Api.JObj [("detail", Api.JStr "Invalid brief")]) (Api.JStr "Invalid brief"));
    reflexivity.
Defined.

(** ** The matcher *)

Section Matcher.
Import Regex.

Lemma m_seq r1 r2 s c k : m (Seq r1 r2) s c k = m r1 s c (fun s' c' => m r2 s' c' k).
Proof. reflexivity. Qed.

Lemma m_alt r1 r2 s c k : m (Alt r1 r2) s c k = orelse (m r1 s c k) (m r2 s c k).
Proof. reflexivity. Qed.

Lemma m_group i r s c k :
  m (Group i r) s c k
    = m r s c (fun s' c' => k s' (<[i := firstn (length s - length s') s]> c')).
Proof. reflexivity. Qed.

Lemma m_chr_i c a s cp k :
  m (chr_i c) (a :: s) cp k
    = if Ascii.eqb (Js.upper_char a) (Js.upper_char c) then k s cp else None.
Proof. reflexivity. Qed.

Lemma m_chr_here c rest cp k : m (chr_i c) (c :: rest) cp k = k rest cp.
Proof. rewrite m_chr_i. now rewrite Ascii.eqb_refl. Qed.

(** A literal matches where the text starts with it, and consumes it. *)
Lemma m_lit_i L : forall s c k,
  m (lit_i L) s c k = if ci_prefix L s then k (skipn (String.length L) s) c else None.
Proof.
  induction L as [|c0 L IH]; intros s c k; [reflexivity|].
  destruct L as [|c1 L].
  - cbn [lit_i ci_prefix String.length]. destruct s as [|a s]; [reflexivity|].
    rewrite m_chr_i. cbn [skipn]. rewrite andb_true_r. reflexivity.
  - change (lit_i (String c0 (String c1 L))) with (Seq (chr_i c0) (lit_i (String c1 L))).
    rewrite m_seq.
    destruct s as [|a s]; [reflexivity|].
    rewrite m_chr_i. cbn [ci_prefix String.length skipn] in *.
    destruct (Ascii.eqb (Js.upper_char a) (Js.upper_char c0)); [|reflexivity].
    rewrite IH. reflexivity.
Qed.

Lemma ci_prefix_refl L rest : ci_prefix L (list_ascii_of_string L ++ rest)%list = true.
Proof.
  induction L as [|c L IH]; [reflexivity|].
  cbn. now rewrite Ascii.eqb_refl, IH.
Qed.

Lemma skipn_lit L (rest : list ascii) :
  skipn (String.length L) (list_ascii_of_string L ++ rest)%list = rest.
Proof. induction L as [|c L IH]; [reflexivity|]. cbn. exact IH. Qed.

Lemma m_lit_here L rest c k :
  m (lit_i L) (list_ascii_of_string L ++ rest)%list c k = k rest c.
Proof. now rewrite m_lit_i, ci_prefix_refl, skipn_lit. Qed.

Lemma m_opt_lit_miss L s c k :
  ci_prefix L s = false -> m (Opt (lit_i L)) s c k = k s c.
Proof. intros H. unfold Opt. now rewrite m_alt, m_lit_i, H. Qed.

(** One step of a greedy star over a character class. *)
Lemma m_star_cons p a s c k :
  m (Star true (Chr p)) (a :: s) c k
    = orelse (if p a then m (Star true (Chr p)) s c k else None) (k (a :: s) c).
Proof.
  cbn [m length]. destruct (p a); [|reflexivity].
  assert (E : (length s <? S (length s))%nat = true) by (apply Nat.ltb_lt; lia).
  rewrite E. reflexivity.
Qed.

(** A greedy star takes the whole run when the rest of the pattern matches
    after it. *)
Lemma m_star_run p ds : forall rest c k x,
  forallb p ds = true -> stops p rest -> k rest c = Some x ->
  m (Star true (Chr p)) (ds ++ rest)%list c k = Some x.
Proof.
  induction ds as [|d ds IH]; intros rest c k x Hds Hstop Hk.
  - cbn [app]. destruct rest as [|a rest]; [exact Hk|].
    rewrite m_star_cons. cbn in Hstop. rewrite Hstop. exact Hk.
  - cbn [forallb] in Hds. apply andb_true_iff in Hds as [Hd Hds].
    cbn [app]. rewrite m_star_cons, Hd, (IH rest c k x Hds Hstop Hk). reflexivity.
Qed.

Lemma firstn_consumed {A} (ds rest : list A) :
  firstn (length (ds ++ rest) - length rest) (ds ++ rest) = ds.
Proof.
  rewrite length_app.
  replace (length ds + length rest - length rest)%nat with (length ds) by lia.
  rewrite firstn_app, Nat.sub_diag, firstn_all. cbn. apply app_nil_r.
Qed.

(** A capturing group around [p+] records the whole run. *)
Lemma m_group_plus_run i p d ds rest c k x :
  p d = true -> forallb p ds = true -> stops p rest ->
  k rest (<[i := d :: ds]> c) = Some x ->
  m (Group i (Plus (Chr p))) (d :: ds ++ rest)%list c k = Some x.
Proof.
  intros Hd Hds Hstop Hk.
  rewrite m_group. unfold Plus. rewrite m_seq. cbn [m]. fold (m (Star true (Chr p))).
  rewrite Hd. apply m_star_run; [exact Hds|exact Hstop|].
  change (d :: ds ++ rest)%list with ((d :: ds) ++ rest)%list.
  rewrite firstn_consumed. exact Hk.
Qed.

Lemma match_here_lit_absent L r s :
  ci_prefix L s = false -> match_here (Seq (lit_i L) r) s = None.
Proof. intros H. unfold match_here. rewrite m_seq, m_lit_i, H. reflexivity. Qed.

(** The search passes over a prefix in which the leading literal of the
    pattern does not start. *)
Lemma search_absent L r pre rest :
  absentBefore L pre rest = true ->
  search (Seq (lit_i L) r) (pre ++ rest)%list = search (Seq (lit_i L) r) rest.
Proof.
  induction pre as [|a pre IH]; intros H; [reflexivity|].
  cbn [absentBefore] in H. apply andb_true_iff in H as [H1 H2].
  apply negb_true_iff in H1.
  cbn [app search]. cbn [app] in H1. rewrite (match_here_lit_absent L r _ H1).
  now apply IH.
Qed.

Lemma search_here r s c : match_here r s = Some c -> search r s = Some c.
Proof. intros H. destruct s; cbn [search]; now rewrite H. Qed.


Lemma alpha_not_space a : Js.is_alpha a = true -> Js.is_space a = false.
Proof. destruct a as [[] [] [] [] [] [] [] []]; vm_compute; congruence. Qed.



Lemma nonempty_cons (s : string) :
  s <> EmptyString -> exists c cs, list_ascii_of_string s = c :: cs.
Proof. destruct s as [|c s]; [congruence|]. intros _. cbn. eauto. Qed.

End Matcher.

(** ** [extractMeta] *)

Section ExtractMeta.
Import Regex.



End ExtractMeta.



(** The step-by-step dashboard does read the bare percentage. *)
Lemma showResults_reads_bare_percentage :
  Wizard.Results.completenessScore (Wizard.extracted bareSection freshResults) = "80%"
  /\ Wizard.Results.confidenceScore (Wizard.extracted bareSection freshResults) = "82%".
Proof. vm_compute. split; reflexivity. Qed.


(** * Further properties

    The functions around the ones above: the CSV reader of the step-by-step
    dashboard, the section lists and metric cards of ui.js, the health checks,
    the reset and the listeners of both dashboards. *)

(** ** CSV texts *)

Section CsvTexts.

Lemma split_nonempty c s : Js.split c s <> [].
Proof.
  destruct s as [|a s]; cbn; [discriminate|].
  destruct (Ascii.eqb a c); [discriminate|]. destruct (Js.split c s); discriminate.
Qed.

(** [split] gives one piece more than there are separators. *)
Lemma split_length c s : length (Js.split c s) = S (countChar c s).
Proof.
  induction s as [|a s IH]; [reflexivity|].
  cbn [Js.split countChar]. destruct (Ascii.eqb a c).
  - cbn. now rewrite IH.
  - destruct (Js.split c s) as [|w ws] eqn:E; [now apply split_nonempty in E|].
    cbn in *. lia.
Qed.

Lemma split_lacks c s : lacks c s = true -> Js.split c s = [s].
Proof.
  unfold lacks. induction s as [|a s IH]; [reflexivity|].
  cbn [countChar Js.split]. destruct (Ascii.eqb a c); [discriminate|].
  cbn. intros H. now rewrite IH.
Qed.

Lemma split_app_sep c x rest :
  lacks c x = true -> Js.split c (x ++ String c rest) = x :: Js.split c rest.
Proof.
  unfold lacks. induction x as [|a x IH].
  - intros _. simpl. now rewrite Ascii.eqb_refl.
  - cbn [countChar]. destruct (Ascii.eqb a c) eqn:E; [discriminate|].
    simpl. rewrite E. intros H. now rewrite IH.
Qed.

(** Splitting undoes joining when no piece holds the separator. *)
Lemma split_join c xs :
  xs <> [] -> forallb (lacks c) xs = true ->
  Js.split c (Js.join (String c EmptyString) xs) = xs.
Proof.
  induction xs as [|x xs IH]; [congruence|]. intros _ H.
  cbn [forallb] in H. apply andb_true_iff in H as [Hx Hxs].
  destruct xs as [|y ys].
  - cbn. now apply split_lacks.
  - change (Js.join (String c "") (x :: y :: ys))
      with (x ++ String c (Js.join (String c "") (y :: ys))).
    rewrite split_app_sep by exact Hx. rewrite IH; [reflexivity|discriminate|exact Hxs].
Qed.

Lemma countChar_app c a b : countChar c (a ++ b) = (countChar c a + countChar c b)%nat.
Proof. induction a as [|x a IH]; [reflexivity|]. simpl. rewrite IH. lia. Qed.

Lemma lacks_join c sep xs :
  lacks c sep = true -> forallb (lacks c) xs = true -> lacks c (Js.join sep xs) = true.
Proof.
  unfold lacks. intros Hsep. induction xs as [|x xs IH]; [reflexivity|].
  cbn [forallb]. intros H. apply andb_true_iff in H as [Hx Hxs].
  destruct xs as [|y ys]; [exact Hx|].
  change (Js.join sep (x :: y :: ys)) with (x ++ sep ++ Js.join sep (y :: ys)).
  rewrite !countChar_app.
  apply Nat.eqb_eq in Hx, Hsep. specialize (IH Hxs). apply Nat.eqb_eq in IH.
  apply Nat.eqb_eq. lia.
Qed.

(** X1.  Reading back a CSV text.  For a header line and rows whose cells hold
    no comma and no line feed (no row being empty), [parseRows] of the text
    that lists them gives one object per row, in order, built from the
    headers and the cells of that row. *)
Theorem parseRows_renderCsv headers rows :
  headers <> [] ->
  Forall (fun row => row <> []) rows ->
  cleanCells headers = true ->
  Forall (fun row => cleanCells row = true) rows ->
  Wizard.parseRows (renderCsv headers rows)
    = map (fun row => Wizard.rowObject headers row ∅) rows.
Proof.
  intros Hh Hne Hch Hcr. unfold Wizard.parseRows, renderCsv.
  assert (L : forall cells, cleanCells cells = true ->
            lacks "010"%char (Js.join "," cells) = true
            /\ forallb (lacks ","%char) cells = true).
  { intros cells H. unfold cleanCells in H. split.
    - apply lacks_join; [reflexivity|].
      rewrite forallb_forall in *. intros x Hx. apply H in Hx.
      now apply andb_true_iff in Hx as [_ ?].
    - rewrite forallb_forall in *. intros x Hx. apply H in Hx.
      now apply andb_true_iff in Hx as [? _]. }
  change App.newline with (String "010"%char EmptyString).
  rewrite split_join.
  - cbn [map]. rewrite split_join; [|exact Hh|exact (proj2 (L _ Hch))].
    f_equal. clear Hh Hch.
    induction rows as [|r rows IH]; [reflexivity|].
    inversion Hne; inversion Hcr; subst. cbn [map].
    rewrite split_join; [|assumption|now apply L]. f_equal. now apply IH.
  - discriminate.
  - cbn [map forallb]. apply andb_true_iff. split; [exact (proj1 (L _ Hch))|].
    rewrite forallb_forall. intros x Hx. apply in_map_iff in Hx as (r & <- & Hr).
    rewrite List.Forall_forall in Hcr. exact (proj1 (L _ (Hcr _ Hr))).
Qed.

(** X2.  [parseRows] makes one row per line feed of the text, whatever the
    lines hold: none for a text of one line (the headers alone, or the empty
    text), and one more, with undefined or empty cells, for a line feed at
    the end. *)
Theorem parseRows_length content :
  length (Wizard.parseRows content) = countChar "010"%char content.
Proof.
  unfold Wizard.parseRows.
  pose proof (split_length "010"%char content) as L.
  destruct (Js.split "010"%char content) as [|l ls]; cbn in *; [discriminate|].
  rewrite !length_map. lia.
Qed.

Lemma set_prop_lookup_same {V} (k : string) (v : V) (m : gmap string V) :
  k <> "__proto__" -> Data.set_prop k v m !! k = Some v.
Proof.
  intros Hk. unfold Data.set_prop.
  destruct (String.eqb_spec k "__proto__"); [contradiction|]. apply lookup_insert_eq.
Qed.

Lemma set_prop_lookup_other {V} (k k' : string) (v : V) (m : gmap string V) :
  k' <> k -> Data.set_prop k' v m !! k = m !! k.
Proof.
  intros Hk. unfold Data.set_prop.
  destruct (String.eqb k' "__proto__"); [reflexivity|]. now apply lookup_insert_ne.
Qed.

Lemma rowObject_other hs : forall cells obj k,
  ~ In k (map Js.trim hs) -> Wizard.rowObject hs cells obj !! k = obj !! k.
Proof.
  induction hs as [|h hs IH]; intros cells obj k Hk; [reflexivity|].
  cbn [map In] in Hk. cbn [Wizard.rowObject].
  destruct cells as [|x xs]; rewrite IH by tauto; apply set_prop_lookup_other; tauto.
Qed.

(** X3.  The object of a row.  When the trimmed headers are distinct, the row
    object holds, under the trimmed i-th header, the i-th cell of the row as
    a string, and [undefined] when the row is shorter; a header [__proto__]
    is left out of the statement as the assignment creates no property. *)
Theorem rowObject_lookup hs : forall cells obj i h,
  List.NoDup (map Js.trim hs) ->
  nth_error hs i = Some h ->
  Js.trim h <> "__proto__" ->
  Wizard.rowObject hs cells obj !! Js.trim h = Some (cellAt cells i).
Proof.
  induction hs as [|h0 hs IH]; intros cells obj i h Hnd Hi Hk; [destruct i; discriminate|].
  cbn [map] in Hnd. apply List.NoDup_cons_iff in Hnd as [Hnot Hnd].
  destruct i as [|i]; cbn [nth_error] in Hi.
  - injection Hi as ->. cbn [Wizard.rowObject].
    destruct cells as [|x xs]; rewrite rowObject_other by exact Hnot;
      now apply set_prop_lookup_same.
  - cbn [Wizard.rowObject]. destruct cells as [|x xs].
    + rewrite (IH [] _ i h Hnd Hi Hk). unfold cellAt. now destruct i.
    + now rewrite (IH xs _ i h Hnd Hi Hk).
Qed.

End CsvTexts.

Lemma parseRows_renderCsv_witness :
  Wizard.parseRows (renderCsv ["sku"; "price"] [["A1"; "9.99"]; ["B2"; "12"]])
    = map (fun row => Wizard.rowObject ["sku"; "price"] row ∅) [["A1"; "9.99"]; ["B2"; "12"]].
Proof.
  apply parseRows_renderCsv.
  - discriminate.
  - repeat constructor; discriminate.
  - reflexivity.
  - repeat constructor.
Defined.

Lemma rowObject_lookup_witness :
  Wizard.rowObject [" sku "; "price"] ["A1"] ∅ !! "sku" = Some (Data.CString "A1")
  /\ Wizard.rowObject [" sku "; "price"] ["A1"] ∅ !! "price" = Some Data.CUndefined.
Proof.
  assert (D : List.NoDup (map Js.trim [" sku "; "price"])).
  { repeat constructor; simpl; intuition discriminate. }
  split.
  - apply (rowObject_lookup [" sku "; "price"] ["A1"] ∅ 0 " sku " D); [reflexivity|discriminate].
  - apply (rowObject_lookup [" sku "; "price"] ["A1"] ∅ 1 "price" D); [reflexivity|discriminate].
Defined.

(** ** The performance signals of an upload *)

Section PerformanceKey.
Import Data Net Wizard.

(** X4.  In upload mode the performance_signals handle of the brief carries
    the rows of the last file whose name, without the first ".csv", is
    "performance", and is the default path when there is no such file: the
    key read is "performance", not "performance_signals". *)
Theorem performance_rows_keyed_by_performance (cfg : Config.t) (fd : FormData.t) :
  FormData.dataMode fd = "upload" ->
  handle_of Performance (dataSourcesOf cfg fd)
    = match lastWith (fun f => String.eqb (fileKey f) "performance") (FormData.files fd) with
      | Some f => Inline (parseRows (text f))
      | None => Path (Config.performance_signals (Config.DEFAULT_SOURCES cfg))
      end.
Proof.
  intros Hmode. unfold dataSourcesOf. rewrite Hmode. cbn [String.eqb Ascii.eqb Bool.eqb andb].
  destruct (FormData.files fd) as [|f fs] eqn:E; [reflexivity|].
  cbn [length Nat.ltb Nat.leb handle_of performance_signals]. unfold pick.
  rewrite readFiles_lookup by discriminate.
  destruct (lastWith _ (f :: fs)); reflexivity.
Qed.

End PerformanceKey.

Lemma performance_rows_keyed_by_performance_witness :
  Data.handle_of Data.Performance
    (Wizard.dataSourcesOf Config.CONFIG (uploadForm [csv "performance.csv" skuCsv]))
    = Data.Inline oneRow
  /\ Data.handle_of Data.Performance
       (Wizard.dataSourcesOf Config.CONFIG (uploadForm [csv "performance_signals.csv" skuCsv]))
     = Data.Path "performance_signals.json".
Proof.
  split.
  - exact (performance_rows_keyed_by_performance Config.CONFIG
             (uploadForm [csv "performance.csv" skuCsv]) eq_refl).
  - exact (performance_rows_keyed_by_performance Config.CONFIG
             (uploadForm [csv "performance_signals.csv" skuCsv]) eq_refl).
Defined.

(** ** Sections of a report *)

Section ReportSections.
Import Regex.

(** One step of a lazy star over a character class. *)
Lemma m_lazy_cons p a s c k :
  m (Star false (Chr p)) (a :: s) c k
    = orelse (k (a :: s) c) (if p a then m (Star false (Chr p)) s c k else None).
Proof.
  cbn [m length]. destruct (p a); [|reflexivity].
  assert (E : (length s <? S (length s))%nat = true) by (apply Nat.ltb_lt; lia).
  rewrite E. reflexivity.
Qed.

Lemma m_star_nil g r c k : m (Star g r) [] c k = k [] c.
Proof. reflexivity. Qed.

Lemma m_section_end s c :
  m (Alt (Seq (chr_i nl) (lit_i "##")) EndIn) s c (fun _ c' => Some c')
    = if endsHere s then Some c else None.
Proof.
  rewrite m_alt, m_seq. destruct s as [|a s]; [reflexivity|].
  rewrite m_chr_i. unfold endsHere.
  change (ci_prefix (String nl "##") (a :: s))
    with (Ascii.eqb (Js.upper_char a) (Js.upper_char nl) && ci_prefix "##" s).
  destruct (Ascii.eqb (Js.upper_char a) (Js.upper_char nl)); cbn [andb].
  - rewrite m_lit_i. destruct (ci_prefix "##" s); reflexivity.
  - reflexivity.
Qed.

Lemma m_lazy_group i : forall body pre rest c k x,
  (forall s c', endsHere s = false -> k s c' = None) ->
  openUntil body rest = true ->
  k rest (<[i := (pre ++ body)%list]> c) = Some x ->
  m (Star false any) (body ++ rest)%list c
    (fun s' c' => k s' (<[i := firstn (length (pre ++ body ++ rest) - length s') (pre ++ body ++ rest)%list]> c'))
  = Some x.
Proof.
  induction body as [|a body IH]; intros pre rest c k x Hk Hopen Hrest.
  - cbn [app] in *. 
    assert (E : firstn (length (pre ++ rest) - length rest) (pre ++ rest)%list = (pre ++ [])%list).
    { rewrite firstn_consumed. now rewrite app_nil_r. }
    destruct rest as [|r rest].
    + rewrite (m_star_nil false any). rewrite E. exact Hrest.
    + unfold any. rewrite m_lazy_cons. rewrite E, Hrest. reflexivity.
  - cbn [openUntil] in Hopen. apply andb_true_iff in Hopen as [H1 H2].
    apply negb_true_iff in H1.
    cbn [app]. unfold any. rewrite m_lazy_cons. rewrite Hk by exact H1. cbn [orelse].
    fold any.
    specialize (IH (pre ++ [a])%list rest c k x Hk H2).
    rewrite <- !app_assoc in IH. cbn [app] in IH. apply IH. exact Hrest.
Qed.

Lemma section_here title body rest :
  openUntil body rest = true -> endsHere rest = true ->
  match_here (Ui.section_re title)
    (list_ascii_of_string title ++ nl :: body ++ rest)%list
  = Some {[ 1%nat := body ]}.
Proof.
  intros Hopen Hend. unfold match_here, Ui.section_re. cbn [seq].
  rewrite m_seq, m_lit_here, m_seq, m_chr_here, m_seq, m_group.
  apply (m_lazy_group 1 body [] rest ∅
           (fun s c' => m (Alt (Seq (chr_i nl) (lit_i "##")) EndIn) s c'
                          (fun _ c'' => Some c''))).
  - intros s c' H. now rewrite m_section_end, H.
  - exact Hopen.
  - rewrite m_section_end, Hend. reflexivity.
Qed.

Lemma section_absent title s :
  absentBefore title s [] = true -> search (Ui.section_re title) s = None.
Proof.
  intros H. unfold Ui.section_re. cbn [seq].
  rewrite <- (app_nil_r s). rewrite search_absent by exact H.
  cbn [search]. unfold match_here. rewrite m_seq, m_lit_i.
  destruct (ci_prefix title []); [|reflexivity].
  destruct (String.length title); reflexivity.
Qed.

(** The items of a section are the cleaned lines of its body: the text
    between the line feed after the first occurrence of the title and the
    next "##" heading or the end of the text. *)
Lemma extractSection_body (pre title body rest : string) :
  firstOccurrence title pre (title ++ String nl (body ++ rest)) = true ->
  openUntil (list_ascii_of_string body) (list_ascii_of_string rest) = true ->
  endsHere (list_ascii_of_string rest) = true ->
  Ui.extractSection (pre ++ title ++ String nl (body ++ rest)) title = cleanLines body.
Proof.
  intros Hfirst Hopen Hend. unfold Ui.extractSection, match_.
  rewrite list_ascii_app. unfold Ui.section_re at 1. cbn [seq].
  unfold firstOccurrence in Hfirst.
  rewrite search_absent by exact Hfirst.
  rewrite list_ascii_app. cbn [list_ascii_of_string]. rewrite list_ascii_app.
  erewrite search_here; [|exact (section_here title _ _ Hopen Hend)].
  rewrite lookup_singleton_eq, string_of_list_ascii_of_string. reflexivity.
Qed.

Lemma trimStart_length s : (String.length (Js.trimStart s) <= String.length s)%nat.
Proof.
  induction s as [|c s IH]; [reflexivity|]. cbn [Js.trimStart].
  destruct (Js.is_space c); cbn [String.length]; lia.
Qed.

Lemma trimEnd_length s : (String.length (Js.trimEnd s) <= String.length s)%nat.
Proof.
  induction s as [|c s IH]; [reflexivity|]. cbn [Js.trimEnd].
  destruct (Js.trimEnd s) as [|d t]; [destruct (Js.is_space c)|];
    cbn [String.length] in *; lia.
Qed.

Lemma trim_fixed_head c s : Js.trim (String c s) = String c s -> Js.is_space c = false.
Proof.
  intros H. destruct (Js.is_space c) eqn:E; [|reflexivity]. exfalso.
  unfold Js.trim in H. cbn [Js.trimStart] in H. rewrite E in H.
  pose proof (trimEnd_length (Js.trimStart s)) as L1.
  pose proof (trimStart_length s) as L2.
  rewrite H in L1. cbn [String.length] in L1. lia.
Qed.

Lemma m_chr p a s c k : m (Chr p) (a :: s) c k = if p a then k s c else None.
Proof. reflexivity. Qed.

Lemma m_plus_run p d ds rest c k x :
  p d = true -> forallb p ds = true -> stops p rest -> k rest c = Some x ->
  m (Plus (Chr p)) (d :: ds ++ rest)%list c k = Some x.
Proof.
  intros Hd Hds Hstop Hk. unfold Plus. rewrite m_seq, m_chr, Hd.
  now apply m_star_run.
Qed.

Lemma stripBullet_bullet c item :
  Js.is_space c = false -> Ui.stripBullet ("- " ++ String c item) = String c item.
Proof.
  intros Hc. unfold Ui.stripBullet, Ui.bullet_re, match_here.
  change (list_ascii_of_string ("- " ++ String c item))
    with ("-"%char :: " "%char :: ([] ++ c :: list_ascii_of_string item))%list.
  rewrite m_group, m_seq, m_chr.
  change (Ascii.eqb "-" "-" || Ascii.eqb "-" "*") with true. cbv iota.
  unfold Regex.space.
  erewrite m_plus_run; [| reflexivity | reflexivity | exact Hc | reflexivity].
  rewrite lookup_insert_eq.
  change ("-"%char :: " "%char :: [] ++ c :: list_ascii_of_string item)%list
    with (["-"%char; " "%char] ++ c :: list_ascii_of_string item)%list.
  rewrite firstn_consumed. reflexivity.
Qed.

Lemma upper_is_nl a : Ascii.eqb (Js.upper_char a) (Js.upper_char nl) = Ascii.eqb a nl.
Proof. destruct a as [[] [] [] [] [] [] [] []]; reflexivity. Qed.

Lemma openUntil_app a : forall b rest,
  openUntil (a ++ b) rest = openUntil a (b ++ rest) && openUntil b rest.
Proof.
  induction a as [|x a IH]; intros b rest; [reflexivity|].
  cbn [app openUntil]. rewrite IH, <- app_assoc, andb_assoc. reflexivity.
Qed.

Lemma openUntil_line line tail :
  forallb (fun a => negb (Ascii.eqb a nl)) line = true -> openUntil line tail = true.
Proof.
  induction line as [|a line IH]; intros H; [reflexivity|].
  cbn [forallb] in H. apply andb_true_iff in H as [Ha Hl].
  cbn [openUntil app endsHere]. rewrite (IH Hl), andb_true_r.
  change (ci_prefix (String nl "##") (a :: line ++ tail))
    with (Ascii.eqb (Js.upper_char a) (Js.upper_char nl) && ci_prefix "##" (line ++ tail)).
  rewrite upper_is_nl. apply negb_true_iff in Ha. now rewrite Ha.
Qed.

Lemma lacks_forallb c s :
  lacks c s = true -> forallb (fun a => negb (Ascii.eqb a c)) (list_ascii_of_string s) = true.
Proof.
  unfold lacks. induction s as [|a s IH]; [reflexivity|].
  cbn [countChar list_ascii_of_string forallb].
  destruct (Ascii.eqb a c); [discriminate|]. exact IH.
Qed.

Lemma cleanItem_spec item :
  cleanItem item = true ->
  Js.trim item = item /\ lacks nl item = true /\ String.prefix "#" item = false
  /\ exists c s, item = String c s /\ Js.is_space c = false.
Proof.
  unfold cleanItem. intros H.
  apply andb_true_iff in H as [H Hp]. apply andb_true_iff in H as [H Hnl].
  apply andb_true_iff in H as [Ht Hne].
  apply String.eqb_eq in Ht. apply negb_true_iff in Hp.
  repeat split; try assumption.
  destruct item as [|c s]; [discriminate|]. exists c, s. split; [reflexivity|].
  exact (trim_fixed_head c s Ht).
Qed.

Lemma openUntil_bullets items : forall rest,
  forallb cleanItem items = true ->
  openUntil (list_ascii_of_string (bullets items)) rest = true.
Proof.
  induction items as [|i items IH]; intros rest H; [reflexivity|].
  cbn [forallb] in H. apply andb_true_iff in H as [Hi Hitems].
  destruct (cleanItem_spec i Hi) as (_ & Hnl & _ & _).
  assert (Hline : forallb (fun a => negb (Ascii.eqb a nl)) (list_ascii_of_string ("- " ++ i)) = true).
  { cbn. now apply lacks_forallb. }
  destruct items as [|j js].
  - unfold bullets. cbn [map Js.join]. now apply openUntil_line.
  - change (bullets (i :: j :: js)) with (("- " ++ i) ++ String nl (bullets (j :: js))).
    rewrite list_ascii_app. cbn [list_ascii_of_string].
    rewrite openUntil_app, (openUntil_line _ _ Hline). cbn [andb openUntil].
    rewrite (IH rest Hitems), andb_true_r.
    destruct js; reflexivity.
Qed.

Lemma cleanLines_bullets items :
  forallb cleanItem items = true -> cleanLines (bullets items) = items.
Proof.
  intros H. unfold cleanLines, bullets.
  destruct items as [|i0 items0] eqn:E; [reflexivity|]. rewrite <- E in *.
  rewrite split_join.
  - clear E. induction items as [|i items IH]; [reflexivity|].
    cbn [forallb] in H. apply andb_true_iff in H as [Hi Hitems].
    destruct (cleanItem_spec i Hi) as (Ht & _ & Hp & c & s & -> & Hc).
    cbn [map]. rewrite stripBullet_bullet by exact Hc. rewrite Ht.
    cbn [List.filter]. rewrite Hp. cbn [Js.truthy_str andb negb].
    f_equal. now apply IH.
  - rewrite E. discriminate.
  - clear E. rewrite forallb_forall. intros x Hx.
    apply in_map_iff in Hx as (i & <- & Hi).
    rewrite forallb_forall in H. destruct (cleanItem_spec i (H i Hi)) as (_ & Hnl & _).
    unfold lacks in *. rewrite countChar_app. exact Hnl.
Qed.

(** X5.  Reading back a bullet list.  When the first occurrence of the title
    is followed by a line feed, the lines "- item" of a list of clean items,
    and then the end of the text or a "##" heading on a new line,
    [extractSection] returns exactly the items, in order. *)
Theorem extractSection_bullets (pre title rest : string) (items : list string) :
  firstOccurrence title pre (title ++ String nl (bullets items ++ rest)) = true ->
  endsHere (list_ascii_of_string rest) = true ->
  forallb cleanItem items = true ->
  Ui.extractSection (pre ++ title ++ String nl (bullets items ++ rest)) title = items.
Proof.
  intros Hfirst Hend Hitems.
  rewrite extractSection_body; [now apply cleanLines_bullets | exact Hfirst | | exact Hend].
  now apply openUntil_bullets.
Qed.

Lemma trimEnd_idem s : Js.trimEnd (Js.trimEnd s) = Js.trimEnd s.
Proof.
  induction s as [|c s IH]; [reflexivity|].
  cbn [Js.trimEnd]. destruct (Js.trimEnd s) as [|d t] eqn:E.
  - destruct (Js.is_space c) eqn:Hc; [reflexivity|]. cbn. now rewrite Hc.
  - change (Js.trimEnd (String c (String d t)))
      with (match Js.trimEnd (String d t) with
            | EmptyString => if Js.is_space c then EmptyString else String c EmptyString
            | String a t0 => String c (String a t0)
            end).
    rewrite IH. reflexivity.
Qed.

Lemma trimStart_head s :
  Js.trimStart s = EmptyString
  \/ exists c t, Js.trimStart s = String c t /\ Js.is_space c = false.
Proof.
  induction s as [|c s IH]; [now left|].
  cbn. destruct (Js.is_space c) eqn:Hc; [exact IH|]. right. eauto.
Qed.

Lemma trimEnd_head c t :
  Js.is_space c = false -> exists t', Js.trimEnd (String c t) = String c t'.
Proof.
  intros Hc. cbn. destruct (Js.trimEnd t); [rewrite Hc|]; eauto.
Qed.

(** Trimming twice is trimming once. *)
Lemma trim_idem s : Js.trim (Js.trim s) = Js.trim s.
Proof.
  unfold Js.trim. destruct (trimStart_head s) as [E | (c & t & E & Hc)]; rewrite E.
  - reflexivity.
  - destruct (trimEnd_head c t Hc) as [t' E']. rewrite E'.
    cbn [Js.trimStart]. rewrite Hc, <- E'. apply trimEnd_idem.
Qed.

Lemma extractSection_items report title :
  List.Forall shownItem (Ui.extractSection report title).
Proof.
  unfold Ui.extractSection.
  destruct (match_ report (Ui.section_re title)) as [c|]; [|constructor].
  destruct (c !! 1%nat) as [body|]; [|constructor].
  apply List.Forall_forall. intros item Hin.
  apply filter_In in Hin as [Hin Hp].
  apply andb_true_iff in Hp as [Ht Hh]. apply negb_true_iff in Hh.
  apply in_map_iff in Hin as (line & <- & _).
  split; [apply trim_idem|]. split; [|exact Hh].
  now apply truthy_str_neq.
Qed.

Lemma extractSection_absent report title :
  firstOccurrence title report "" = true -> Ui.extractSection report title = [].
Proof.
  intros H. unfold Ui.extractSection, match_. now rewrite section_absent.
Qed.

(** X6.  A report in which "Risk Flags" does not occur gives the risk list
    the single entry "No explicit risk flags found."; one in which "Strategic
    Recommendations" does not occur gives the recommendations the single
    entry "No recommendations extracted.". *)
Theorem lists_fall_back_without_section report :
  (firstOccurrence "Risk Flags" report "" = true ->
     Ui.updateRiskList report = ["No explicit risk flags found."])
  /\ (firstOccurrence "Strategic Recommendations" report "" = true ->
     Ui.updateRecommendations report = ["No recommendations extracted."]).
Proof.
  split; intros H; unfold Ui.updateRiskList, Ui.updateRecommendations;
    now rewrite extractSection_absent.
Qed.

(** X7.  Whatever the report, the two lists are never empty, and every entry
    shown is trimmed, not empty and does not start with "#". *)
Theorem lists_show_items report :
  (Ui.updateRiskList report <> [] /\ List.Forall shownItem (Ui.updateRiskList report))
  /\ (Ui.updateRecommendations report <> []
      /\ List.Forall shownItem (Ui.updateRecommendations report)).
Proof.
  unfold Ui.updateRiskList, Ui.updateRecommendations, Ui.renderList.
  split.
  - pose proof (extractSection_items report "Risk Flags") as H.
    destruct (Ui.extractSection report "Risk Flags"); split; try discriminate; [|exact H].
    repeat constructor; discriminate.
  - pose proof (extractSection_items report "Strategic Recommendations") as H.
    destruct (Ui.extractSection report "Strategic Recommendations");
      split; try discriminate; [|exact H].
    repeat constructor; discriminate.
Qed.

End ReportSections.

Lemma extractSection_bullets_witness :
  Ui.extractSection riskReport "Risk Flags"
    = ["Thin review base"; "Price gap to the category"].
Proof.
  exact (extractSection_bullets "## " "Risk Flags"
           (App.newline ++ "## Strategic Recommendations" ++ App.newline)
           ["Thin review base"; "Price gap to the category"] eq_refl eq_refl eq_refl).
Defined.

Lemma lists_fall_back_without_section_witness :
  Ui.updateRiskList "Nothing to report." = ["No explicit risk flags found."]
  /\ Ui.updateRecommendations "Nothing to report." = ["No recommendations extracted."].
Proof.
  destruct (lists_fall_back_without_section "Nothing to report.") as [A B].
  split; [exact (A eq_refl)|exact (B eq_refl)].
Defined.

(** ** Scores in a report *)

Section MetaVariants.
Import Regex.

Lemma ci_prefix_ciEqual L : forall K rest,
  ciEqual K L = true -> ci_prefix L (list_ascii_of_string K ++ rest)%list = true.
Proof.
  induction L as [|c L IH]; intros K rest H; [reflexivity|].
  destruct K as [|x K]; [discriminate|]. cbn in H |- *.
  apply andb_true_iff in H as [H1 H2]. now rewrite H1, IH.
Qed.

Lemma skipn_ciEqual L : forall K (rest : list ascii),
  ciEqual K L = true -> skipn (String.length L) (list_ascii_of_string K ++ rest)%list = rest.
Proof.
  induction L as [|c L IH]; intros K rest H; destruct K as [|x K]; try discriminate;
    [reflexivity|].
  cbn in H. apply andb_true_iff in H as [_ H2]. cbn. now apply IH.
Qed.

Lemma m_lit_ciEqual L K rest c k :
  ciEqual K L = true -> m (lit_i L) (list_ascii_of_string K ++ rest)%list c k = k rest c.
Proof. intros H. now rewrite m_lit_i, ci_prefix_ciEqual, skipn_ciEqual. Qed.







Lemma completeness_re_unfold :
  Ui.completeness_re
  = Seq (lit_i "Data Completeness") (Seq (Opt (lit_i " Assessment")) completeness_tail).
Proof. reflexivity. Qed.


Lemma m_opt_assessment a rest c k x :
  a = EmptyString \/ ciEqual a " Assessment" = true ->
  k (":"%char :: rest) c = Some x ->
  m (Opt (lit_i " Assessment")) (list_ascii_of_string a ++ ":"%char :: rest)%list c k = Some x.
Proof.
  intros [-> | Ha] Hk.
  - cbn [list_ascii_of_string app]. now rewrite m_opt_lit_miss.
  - unfold Opt. rewrite m_alt, m_lit_ciEqual by exact Ha. now rewrite Hk.
Qed.



Lemma paren_upper a :
  Ascii.eqb (Js.upper_char a) (Js.upper_char "("%char) = Ascii.eqb a "("%char.
Proof. destruct a as [[] [] [] [] [] [] [] []]; reflexivity. Qed.

Lemma space_not_paren a : Js.is_space a = true -> Ascii.eqb a "("%char = false.
Proof. destruct a as [[] [] [] [] [] [] [] []]; vm_compute; congruence. Qed.

Lemma m_star_space_paren_none r : forall s c k,
  noParenthesis s = true ->
  m (Star true space) s c (fun s' c' => m (Seq (chr_i "("%char) r) s' c' k) = None.
Proof.
  induction s as [|a s IH]; intros c k H; [reflexivity|].
  unfold space. rewrite m_star_cons. fold space.
  rewrite m_seq, m_chr_i, paren_upper. cbn [noParenthesis] in H.
  destruct (Js.is_space a) eqn:Ha.
  - rewrite (IH c k H), (space_not_paren a Ha). reflexivity.
  - destruct (Ascii.eqb a "("%char); [discriminate|reflexivity].
Qed.

Lemma completeness_tail_label_only ws l ls rest :
  forallb Js.is_space ws = true ->
  Js.is_alpha l = true -> forallb Js.is_alpha ls = true ->
  stops Js.is_alpha rest -> noParenthesis rest = true ->
  m completeness_tail (":"%char :: ws ++ (l :: ls) ++ rest)%list ∅ (fun _ c => Some c)
  = Some {[ 1%nat := l :: ls ]}.
Proof.
  intros Hws Hl Hls Hstop Hno. unfold completeness_tail. cbn [seq].
  rewrite m_seq. cbn [lit_i]. rewrite m_chr_here, m_seq.
  apply m_star_run; [exact Hws | cbn; now apply alpha_not_space |].
  rewrite m_seq. cbn [app].
  apply m_group_plus_run; [exact Hl | exact Hls | exact Hstop |].
  unfold Opt. rewrite m_alt, m_seq.
  rewrite m_star_space_paren_none by exact Hno. reflexivity.
Qed.

(** X9.  A completeness line without a score.  When the first occurrence of
    "Data Completeness", in any letter case and with or without
    " Assessment", is followed by a colon, white space and a label of
    letters, and what follows the label does not open a parenthesis after its
    white space, [extractMeta] returns the label and no completeness score. *)
Theorem extractMeta_label_without_score (pre key a ws label rest : string) :
  let line := key ++ a ++ ":" ++ ws ++ label ++ rest in
  firstOccurrence "Data Completeness" pre line = true ->
  ciEqual key "Data Completeness" = true ->
  a = EmptyString \/ ciEqual a " Assessment" = true ->
  all Js.is_space ws = true ->
  label <> EmptyString ->
  all Js.is_alpha label = true ->
  stops Js.is_alpha (list_ascii_of_string rest) ->
  noParenthesis (list_ascii_of_string rest) = true ->
  Ui.completenessLabel (Ui.extractMeta (pre ++ line)) = Some label
  /\ Ui.completenessScore (Ui.extractMeta (pre ++ line)) = None.
Proof.
  intros line Hfirst Hkey Ha Hws Hlne Hl Hstop Hno.
  assert (M : Regex.match_ (pre ++ line) Ui.completeness_re
              = Some {[ 1%nat := list_ascii_of_string label ]}).
  { subst line. unfold Regex.match_. rewrite list_ascii_app.
    rewrite completeness_re_unfold.
    rewrite search_absent by exact Hfirst.
    repeat rewrite list_ascii_app.
    destruct (nonempty_cons label Hlne) as (l & ls & El). unfold all in Hl. rewrite El in *.
    cbn [forallb] in Hl. apply andb_true_iff in Hl as [Hl Hls].
    apply search_here. unfold match_here.
    rewrite m_seq, m_lit_ciEqual by exact Hkey.
    rewrite m_seq. apply m_opt_assessment; [exact Ha|].
    now apply completeness_tail_label_only. }
  unfold Ui.extractMeta, Ui.completenessLabel, Ui.completenessScore. rewrite M.
  rewrite lookup_singleton_eq, lookup_singleton_ne by discriminate. cbn.
  rewrite string_of_list_ascii_of_string. split; reflexivity.
Qed.






End MetaVariants.


Lemma extractMeta_label_without_score_witness :
  Ui.completenessLabel (Ui.extractMeta "Data Completeness Assessment: High") = Some "High"
  /\ Ui.completenessScore (Ui.extractMeta "Data Completeness Assessment: High") = None.
Proof.
  apply (extractMeta_label_without_score "" "Data Completeness" " Assessment" " " "High" "").
  - reflexivity.
  - reflexivity.
  - right. reflexivity.
  - reflexivity.
  - discriminate.
  - reflexivity.
  - exact I.
  - reflexivity.
Defined.



(** ** Bands of a score *)

Section Bands.
Open Scope Q_scope.

Lemma scoreToBadge_bands (s : Q) :
  (Ui.label (Ui.scoreToBadge s) = "High" <-> 75 <= s)
  /\ (Ui.label (Ui.scoreToBadge s) = "Low" <-> s < 50).
Proof.
  unfold Ui.scoreToBadge.
  destruct (Qle_bool 75 s) eqn:E75; [|destruct (Qle_bool 50 s) eqn:E50]; cbn [Ui.label].
  - apply Qle_bool_iff in E75. repeat split; intros; try discriminate; try assumption; try lra.
  - apply Qle_bool_false in E75. apply Qle_bool_iff in E50.
    repeat split; intros; try discriminate; try lra.
  - apply Qle_bool_false in E75. apply Qle_bool_false in E50.
    repeat split; intros; try discriminate; try assumption; try lra.
Qed.

(** X12.  The badge of a score, the colour of the completeness meter and
    its gradient use the same bands: the gradient and the colour are the
    green ones exactly when the badge is "High", and the red ones exactly
    when it is "Low". *)
Theorem score_bands_agree (s : Q) :
  (Ui.getLinearGradient s = greenGradient <-> Ui.label (Ui.scoreToBadge s) = "High")
  /\ (Ui.getLinearGradient s = redGradient <-> Ui.label (Ui.scoreToBadge s) = "Low")
  /\ (Ui.getCompletenessColor s = "rgba(78, 209, 139, 0.5)"
        <-> Ui.label (Ui.scoreToBadge s) = "High")
  /\ (Ui.getCompletenessColor s = "rgba(255, 107, 107, 0.5)"
        <-> Ui.label (Ui.scoreToBadge s) = "Low").
Proof.
  unfold Ui.scoreToBadge, Ui.getLinearGradient, Ui.getCompletenessColor, greenGradient, redGradient.
  destruct (Qle_bool 75 s) eqn:E75; [|destruct (Qle_bool 50 s) eqn:E50]; cbn [Ui.label].
  - apply Qle_bool_iff in E75. repeat split; intros; try discriminate; try assumption; try lra.
  - apply Qle_bool_false in E75. apply Qle_bool_iff in E50.
    repeat split; intros; try discriminate; try lra.
  - apply Qle_bool_false in E75. apply Qle_bool_false in E50.
    repeat split; intros; try discriminate; try assumption; try lra.
Qed.

(** X13.  The badge never falls when the score rises: a score above one with
    the badge "High" has the badge "High", a score below one with the badge
    "Low" has the badge "Low", and a score above one with the badge "Medium"
    does not have the badge "Low". *)
Theorem score_bands_monotone (s1 s2 : Q) :
  s1 <= s2 ->
  (Ui.label (Ui.scoreToBadge s1) = "High" -> Ui.label (Ui.scoreToBadge s2) = "High")
  /\ (Ui.label (Ui.scoreToBadge s2) = "Low" -> Ui.label (Ui.scoreToBadge s1) = "Low")
  /\ (Ui.label (Ui.scoreToBadge s1) = "Medium" -> Ui.label (Ui.scoreToBadge s2) <> "Low").
Proof.
  intros H.
  destruct (scoreToBadge_bands s1) as (H1 & L1).
  destruct (scoreToBadge_bands s2) as (H2 & L2).
  split; [|split].
  - intros E. apply H2. apply H1 in E. lra.
  - intros E. apply L1. apply L2 in E. lra.
  - intros E E2. apply L2 in E2. assert (s1 < 50) as X by lra. apply L1 in X. congruence.
Qed.

End Bands.

Lemma score_bands_monotone_witness :
  Ui.label (Ui.scoreToBadge 60) = "Medium" /\ Ui.label (Ui.scoreToBadge 80) <> "Low".
Proof.
  split; [reflexivity|].
  assert (H : (60 <= 80)%Q) by (vm_compute; discriminate).
  exact (proj2 (proj2 (score_bands_monotone 60 80 H)) eq_refl).
Defined.

(** ** The step-by-step dashboard: running an analysis *)

Section WizardRuns.
Import Data Net Wizard.

(** X14.  The guards of [handleStep4Run].  While the API is not ready, or in
    upload mode without a file, the handler shows its alert, posts nothing
    and leaves the state as it is; otherwise it posts exactly one brief, the
    one built from the form data. *)
Theorem handleStep4Run_guards (cfg : Config.t) (marked : string -> string + Exn)
    (net : Brief.t -> FetchOutcome) (w : World) :
  let w' := handleStep4Run cfg marked net w in
  let fd := formData (state w) in
  (apiReady (state w) = false ->
     sent w' = sent w /\ state w' = state w
     /\ stepAlertOf w' = Some "❌ API is not available. Please try again.")
  /\ (apiReady (state w) = true -> FormData.dataMode fd = "upload" -> FormData.files fd = [] ->
     sent w' = sent w /\ state w' = state w
     /\ stepAlertOf w' = Some "Please upload at least one CSV file")
  /\ (apiReady (state w) = true ->
      FormData.dataMode fd <> "upload" \/ FormData.files fd <> [] ->
      sent w' = briefOf cfg fd :: sent w).
Proof.
  intros w' fd. subst w'. unfold handleStep4Run. fold fd. split; [|split].
  - intros ->. repeat split.
  - intros -> -> ->. repeat split.
  - intros -> H.
    assert (E : String.eqb (FormData.dataMode fd) "upload"
                && (length (FormData.files fd) =? 0)%nat = false).
    { destruct H as [H|H].
      - apply String.eqb_neq in H. now rewrite H.
      - destruct (FormData.files fd); [congruence|]. apply andb_false_r. }
    cbn [negb]. rewrite E. apply runAnalysis_posts.
Qed.

Lemma onDataModeChange_upload (w : World) (ch : Chrome.t) :
  onDataModeChange "upload" (w, ch)
    = (withFormData (withDataMode "upload" (formData (state w))) w,
       {| Chrome.healthBadge := Chrome.healthBadge ch;
          Chrome.authBadge := Chrome.authBadge ch;
          Chrome.uploadSectionHidden := false;
          Chrome.fileList := Chrome.fileList ch |}).
Proof. reflexivity. Qed.

Lemma onDataModeChange_other (other : string) (w : World) (ch : Chrome.t) :
  other <> "upload" ->
  onDataModeChange other (w, ch)
    = (withFormData (withFiles [] (withDataMode other (formData (state w)))) w,
       {| Chrome.healthBadge := Chrome.healthBadge ch;
          Chrome.authBadge := Chrome.authBadge ch;
          Chrome.uploadSectionHidden := true;
          Chrome.fileList := [] |}).
Proof.
  intros H. apply String.eqb_neq in H.
  unfold onDataModeChange, toggleUploadSection.
  cbn [withFormData withDataMode state formData FormData.dataMode].
  rewrite H. reflexivity.
Qed.

(** X15.  Leaving upload mode drops the selected files.  After files were
    selected in upload mode, switching to another data mode and back to
    upload leaves no file and an empty file list, so that the run is refused
    with "Please upload at least one CSV file". *)
Theorem leaving_upload_mode_drops_files (cfg : Config.t) (marked : string -> string + Exn)
    (net : Brief.t -> FetchOutcome) (files : list File) (other : string)
    (w : World) (ch : Chrome.t) :
  other <> "upload" ->
  let selected := handleFileSelect files (onDataModeChange "upload" (w, ch)) in
  let back := onDataModeChange "upload" (onDataModeChange other selected) in
  FormData.files (formData (state (fst selected))) = files
  /\ Chrome.fileList (snd selected) = map Data.name files
  /\ FormData.files (formData (state (fst back))) = []
  /\ Chrome.fileList (snd back) = []
  /\ Chrome.uploadSectionHidden (snd back) = false
  /\ (apiReady (state w) = true ->
      sent (handleStep4Run cfg marked net (fst back)) = sent w
      /\ stepAlertOf (handleStep4Run cfg marked net (fst back))
         = Some "Please upload at least one CSV file").
Proof.
  intros Hother selected back. subst selected back.
  rewrite onDataModeChange_upload. cbn [handleFileSelect].
  rewrite (onDataModeChange_other other) by exact Hother.
  rewrite onDataModeChange_upload.
  repeat split.
  - unfold handleStep4Run. cbn. rewrite H. reflexivity.
  - unfold handleStep4Run. cbn. rewrite H. reflexivity.
Qed.

(** X16.  The [finally] of [runAnalysis].  Once the request has settled, with a
    result or an error, the run button is enabled again and the status line
    is empty.  While it has not, the button stays disabled under the status
    "Running analysis..."; no timer ends the wait, so a request that is never
    answered leaves the dashboard there. *)
Theorem runAnalysis_releases_the_button (cfg : Config.t) (marked : string -> string + Exn)
    (net : Brief.t -> FetchOutcome) (w : World) :
  let w' := runAnalysis cfg marked net w in
  let request := runAnalysis_api net (briefOf cfg (formData (state w))) None in
  (settled request = true ->
     Dom.step4BtnDisabled (dom w') = false /\ Dom.stepStatus (dom w') = "")
  /\ (settled request = false ->
     Dom.step4BtnDisabled (dom w') = true
     /\ Dom.stepStatus (dom w') = "🔄 Running analysis..."
     /\ stepAlertOf w' = stepAlertOf w
     /\ currentStep (state w') = currentStep (state w))
  /\ (net (briefOf cfg (formData (state w))) = Hangs -> settled request = false).
Proof.
  intros w' request. subst w' request. unfold runAnalysis.
  destruct (runAnalysis_api net (briefOf cfg (formData (state w))) None) as [result|err|] eqn:E.
  - split; [|split]; try discriminate.
    + intros _. destruct (showResults marked result _ _ _) as [w3 [err|]]; split; reflexivity.
    + intros Hn. unfold runAnalysis_api in E. rewrite Hn in E. discriminate.
  - split; [|split]; try discriminate.
    + intros _. split; reflexivity.
    + intros Hn. unfold runAnalysis_api in E. rewrite Hn in E. discriminate.
  - split; [|split]; try discriminate.
    + intros _. repeat split.
    + reflexivity.
Qed.

(** X17.  A failed request.  When [fetch] rejects, when the body is not JSON,
    or when the response is not ok, the alert shows the error message (the
    [detail] of the body when it is not empty, else "Analysis failed", for a
    response that is not ok); the step, the form data, the results panel and
    the toasts stay as they were. *)
Theorem failed_request_shows_alert (cfg : Config.t) (marked : string -> string + Exn)
    (net : Brief.t -> FetchOutcome) (w : World) :
  let w' := runAnalysis cfg marked net w in
  let brief := briefOf cfg (formData (state w)) in
  let shows msg :=
    stepAlertOf w' = Some ("❌ " ++ msg)
    /\ state w' = state w
    /\ Dom.results (dom w') = Dom.results (dom w)
    /\ Dom.activeStep (dom w') = Dom.activeStep (dom w)
    /\ Dom.toasts (dom w') = Dom.toasts (dom w) in
  (forall t e, net brief = Fails t e -> shows (message e))
  /\ (forall t r msg, net brief = Responds t r -> body r = NotJson msg -> shows msg)
  /\ (forall t r detail result, net brief = Responds t r -> ok r = false ->
        body r = Json detail result -> shows (Js.or_str detail "Analysis failed")).
Proof.
  intros w' brief shows. subst w' brief shows. unfold runAnalysis, runAnalysis_api.
  split; [|split].
  - intros t e ->. repeat split.
  - intros t r msg -> ->. repeat split.
  - intros t r detail result -> Hok ->. rewrite Hok. repeat split.
Qed.

(** X18.  A successful run.  When the response is ok, its report is a text and
    the renderer accepts it, the dashboard moves to step 5 with the alert
    cleared, shows the rendered report under the title "Analysis Complete",
    adds the toast, enables the button and keeps the form data. *)
Theorem runAnalysis_shows_results (cfg : Config.t) (marked : string -> string + Exn)
    (net : Brief.t -> FetchOutcome) (w : World) t r detail result report html :
  net (briefOf cfg (formData (state w))) = Responds t r ->
  ok r = true ->
  body r = Json detail result ->
  Result.report result = Some (ReportText report) ->
  marked report = inl html ->
  let w' := runAnalysis cfg marked net w in
  currentStep (state w') = 5%nat
  /\ Dom.activeStep (dom w') = Some 4%nat
  /\ stepAlertOf w' = None
  /\ Results.report (Dom.results (dom w')) = html
  /\ Results.resultsTitle (Dom.results (dom w')) = "✨ Analysis Complete"
  /\ Dom.toasts (dom w') = "✅ Analysis complete!" :: Dom.toasts (dom w)
  /\ Dom.step4BtnDisabled (dom w') = false
  /\ formData (state w') = formData (state w).
Proof.
  intros Hnet Hok Hbody Hrep Hmd w'. subst w'.
  unfold runAnalysis, runAnalysis_api. rewrite Hnet, Hbody, Hok. cbn [negb].
  unfold showResults. rewrite Hrep, Hmd. repeat split.
Qed.

(** X19.  A report that is not a text.  When the response is ok and the report
    of the result is missing or is a list of lines, the run ends with an error
    alert and stays on its step without a toast; the title of the results
    panel has been replaced by then, the scores and the report have not. *)
Theorem report_that_is_not_text_fails (cfg : Config.t) (marked : string -> string + Exn)
    (net : Brief.t -> FetchOutcome) (w : World) t r detail result :
  net (briefOf cfg (formData (state w))) = Responds t r ->
  ok r = true ->
  body r = Json detail result ->
  reportNotText result ->
  let w' := runAnalysis cfg marked net w in
  (exists msg, stepAlertOf w' = Some ("❌ " ++ msg))
  /\ currentStep (state w') = currentStep (state w)
  /\ Dom.activeStep (dom w') = Dom.activeStep (dom w)
  /\ Dom.toasts (dom w') = Dom.toasts (dom w)
  /\ Results.resultsTitle (Dom.results (dom w')) = "✨ Analysis Complete"
  /\ Results.report (Dom.results (dom w')) = Results.report (Dom.results (dom w))
  /\ Results.confidenceScore (Dom.results (dom w'))
     = Results.confidenceScore (Dom.results (dom w)).
Proof.
  intros Hnet Hok Hbody Hrep w'. subst w'.
  unfold runAnalysis, runAnalysis_api. rewrite Hnet, Hbody, Hok. cbn [negb].
  unfold showResults, reportNotText in *.
  destruct (Result.report result) as [[txt|ls]|]; [contradiction| |];
    (split; [eexists; reflexivity|repeat split]).
Qed.


Lemma member_null k v : Api.member k v = Api.OfNull <-> v = Api.JNull.
Proof. destruct v; cbn; try (split; discriminate); [tauto|]. destruct (Api.field k fields); split; discriminate. Qed.

(** X21.  [checkApiHealth].  The API is ready afterwards exactly when
    /health answered ok with a JSON body whose [status] is the string "ok" and
    /auth-status answered ok with a JSON body other than [null].  The health
    badge always shows the readiness that was stored; the form data, the step
    and the briefs sent are not touched. *)
Theorem checkApiHealth_ready (cfg : Config.t) (fetch : string -> Api.FetchOutcome)
    (w : World) (ch : Chrome.t) :
  let w' := fst (checkApiHealth cfg fetch (w, ch)) in
  let ch' := snd (checkApiHealth cfg fetch (w, ch)) in
  (apiReady (state w') = true <->
     exists health auth,
       Api.fetchHealth fetch (Config.API_BASE_URL cfg) = inl health
       /\ Api.member "status" health = Api.Value (Api.JStr "ok")
       /\ Api.fetchAuthStatus fetch (Config.API_BASE_URL cfg) = inl auth
       /\ auth <> Api.JNull)
  /\ Chrome.healthBadge ch' = (if apiReady (state w') then onlineBadge else offlineBadge)
  /\ formData (state w') = formData (state w)
  /\ currentStep (state w') = currentStep (state w)
  /\ sent w' = sent w
  /\ (apiReady (state w') = false ->
      Dom.toasts (dom w') = "⚠️ API connection failed. Try refreshing." :: Dom.toasts (dom w)
      \/ Dom.toasts (dom w') = Dom.toasts (dom w)).
Proof.
  intros w' ch'. subst w' ch'. unfold checkApiHealth.
  destruct (Api.fetchHealth fetch (Config.API_BASE_URL cfg)) as [health|f] eqn:EH.
  2:{ cbn. split; [|repeat split; try (now left)].
      split; [discriminate|]. intros (h & a & E & _). discriminate. }
  destruct (Api.member "status" health) as [| |sv] eqn:ES.
  { cbn. split; [|repeat split; try (now left)].
    split; [discriminate|]. intros (h & a & E & S & _).
    injection E as <-. rewrite ES in S. discriminate. }
  { destruct (Api.fetchAuthStatus fetch (Config.API_BASE_URL cfg)) as [auth|f] eqn:EA;
      [destruct (Api.member "api_key_required" auth) eqn:EM|];
      cbn; (split; [|repeat split; try (now left); try (now right)]);
      (split; [discriminate|]); intros (h & a & E & S & _);
      injection E as <-; rewrite ES in S; discriminate. }
  assert (R : (match sv with Api.JStr v => String.eqb v "ok" | _ => false end) = true
              <-> sv = Api.JStr "ok").
  { destruct sv; try (split; discriminate).
    split; [intros H; apply String.eqb_eq in H; now subst|].
    intros H. injection H as ->. reflexivity. }
  destruct (Api.fetchAuthStatus fetch (Config.API_BASE_URL cfg)) as [auth|f] eqn:EA.
  2:{ cbn. split; [|repeat split; try (now left)].
      split; [discriminate|]. intros (h & a & _ & _ & E & _). discriminate. }
  destruct (Api.member "api_key_required" auth) as [| |av] eqn:EM.
  { cbn. split; [|repeat split; try (now left)].
    split; [discriminate|]. intros (h & a & _ & _ & E & N).
    injection E as <-. apply member_null in EM. contradiction. }
  - cbn. split; [|repeat split; try (now right)].
    rewrite R. split.
    + intros ->. exists health, auth. repeat split; try assumption.
      intros ->. discriminate.
    + intros (h & a & E & S & _). injection E as <-. rewrite ES in S. now injection S.
  - cbn. split; [|repeat split; try (now right)].
    rewrite R. split.
    + intros ->. exists health, auth. repeat split; try assumption.
      intros ->. discriminate.
    + intros (h & a & E & S & _). injection E as <-. rewrite ES in S. now injection S.
Qed.

End WizardRuns.

Lemma handleStep4Run_guards_witness :
  Wizard.sent (Wizard.handleStep4Run Config.CONFIG plainMarked (replying degradedReport)
                 (wizardAt1 "SKU-472" "quick" "upload" [])) = []
  /\ stepAlertOf (Wizard.handleStep4Run Config.CONFIG plainMarked (replying degradedReport)
                    (wizardAt1 "SKU-472" "quick" "upload" []))
     = Some "Please upload at least one CSV file".
Proof.
  destruct (handleStep4Run_guards Config.CONFIG plainMarked (replying degradedReport)
              (wizardAt1 "SKU-472" "quick" "upload" [])) as (_ & B & _).
  destruct (B eq_refl eq_refl eq_refl) as (B1 & _ & B3).
  split; [exact B1|exact B3].
Defined.

Lemma leaving_upload_mode_drops_files_witness :
  let w := wizardAt1 "SKU-472" "quick" "sample" [] in
  let selected :=
    Wizard.handleFileSelect [csv "catalog.csv" skuCsv]
      (Wizard.onDataModeChange "upload" (w, freshChrome)) in
  let back := Wizard.onDataModeChange "upload" (Wizard.onDataModeChange "sample" selected) in
  Wizard.FormData.files (Wizard.formData (Wizard.state (fst selected)))
    = [csv "catalog.csv" skuCsv]
  /\ Wizard.FormData.files (Wizard.formData (Wizard.state (fst back))) = []
  /\ Wizard.sent (Wizard.handleStep4Run Config.CONFIG plainMarked (replying degradedReport)
                    (fst back)) = [].
Proof.
  assert (H : "sample" <> "upload") by discriminate.
  destruct (leaving_upload_mode_drops_files Config.CONFIG plainMarked (replying degradedReport)
              [csv "catalog.csv" skuCsv] "sample"
              (wizardAt1 "SKU-472" "quick" "sample" []) freshChrome H)
    as (A & _ & C & _ & _ & F).
  split; [exact A|]. split; [exact C|]. exact (proj1 (F eq_refl)).
Defined.

Lemma runAnalysis_releases_the_button_witness :
  Wizard.Dom.step4BtnDisabled
    (Wizard.dom (Wizard.runAnalysis Config.CONFIG plainMarked (fun _ => Net.Hangs)
                   (wizardAt1 "SKU-472" "quick" "sample" []))) = true
  /\ Wizard.Dom.step4BtnDisabled
       (Wizard.dom (Wizard.runAnalysis Config.CONFIG plainMarked (refusing 50 "Failed to fetch")
                      (wizardAt1 "SKU-472" "quick" "sample" []))) = false.
Proof.
  split.
  - destruct (runAnalysis_releases_the_button Config.CONFIG plainMarked (fun _ => Net.Hangs)
                (wizardAt1 "SKU-472" "quick" "sample" [])) as (_ & B & C).
    exact (proj1 (B (C eq_refl))).
  - destruct (runAnalysis_releases_the_button Config.CONFIG plainMarked
                (refusing 50 "Failed to fetch")
                (wizardAt1 "SKU-472" "quick" "sample" [])) as (A & _).
    exact (proj1 (A eq_refl)).
Defined.

Lemma failed_request_shows_alert_witness :
  stepAlertOf (Wizard.runAnalysis Config.CONFIG plainMarked (refusing 50 "Failed to fetch")
                 (wizardAt1 "SKU-472" "quick" "sample" []))
    = Some "❌ Failed to fetch".
Proof.
  destruct (failed_request_shows_alert Config.CONFIG plainMarked (refusing 50 "Failed to fetch")
              (wizardAt1 "SKU-472" "quick" "sample" [])) as (A & _).
  exact (proj1 (A 50%N (Net.TypeError "Failed to fetch") eq_refl)).
Defined.

Lemma runAnalysis_shows_results_witness :
  Wizard.currentStep
    (Wizard.state (Wizard.runAnalysis Config.CONFIG plainMarked (replying (textReport "# Report"))
                     (wizardAt1 "SKU-472" "quick" "sample" []))) = 5%nat.
Proof.
  exact (proj1 (runAnalysis_shows_results Config.CONFIG plainMarked
                  (replying (textReport "# Report"))
                  (wizardAt1 "SKU-472" "quick" "sample" [])
                  120%N _ None (textReport "# Report") "# Report" "# Report"
                  eq_refl eq_refl eq_refl eq_refl eq_refl)).
Defined.

Lemma report_that_is_not_text_fails_witness :
  Wizard.currentStep
    (Wizard.state (Wizard.runAnalysis Config.CONFIG plainMarked
                     (replying (linesReport ["# Report"]))
                     (wizardAt1 "SKU-472" "quick" "sample" []))) = 1%nat
  /\ stepAlertOf (Wizard.runAnalysis Config.CONFIG plainMarked
                    (replying (linesReport ["# Report"]))
                    (wizardAt1 "SKU-472" "quick" "sample" []))
     = Some "❌ result.report.match is not a function".
Proof.
  destruct (report_that_is_not_text_fails Config.CONFIG plainMarked
              (replying (linesReport ["# Report"]))
              (wizardAt1 "SKU-472" "quick" "sample" [])
              120%N _ None (linesReport ["# Report"]) eq_refl eq_refl eq_refl I)
    as (_ & B & _).
  split; [exact B|reflexivity].
Defined.


Lemma checkApiHealth_ready_witness :
  Wizard.apiReady
    (Wizard.state (fst (Wizard.checkApiHealth Config.CONFIG healthyApi
                          (wizardAt1 "" "quick" "sample" [], freshChrome)))) = true
  /\ Wizard.Chrome.healthBadge
       (snd (Wizard.checkApiHealth Config.CONFIG brokenApi
               (wizardAt1 "" "quick" "sample" [], freshChrome))) = offlineBadge.
Proof.
  split.
  - destruct (checkApiHealth_ready Config.CONFIG healthyApi
                (wizardAt1 "" "quick" "sample" []) freshChrome) as (A & _).
    apply A. eexists. eexists.
    split; [reflexivity|]. split; [reflexivity|]. split; [reflexivity|discriminate].
  - destruct (checkApiHealth_ready Config.CONFIG brokenApi
                (wizardAt1 "" "quick" "sample" []) freshChrome) as (_ & B & _).
    exact B.
Defined.

(** ** app.js: health check, runs and reset *)

Section AppRuns.
Import Net Data App.

Variable cfg : Config.t.
Variable marked : string -> string + Exn.

(** X22.  The health badge of app.js shows "API Online" exactly when /health
    answers with a body that is JSON, whatever the status of the response,
    and "API Offline" otherwise; a missing badge stays missing.  On an error
    response with a JSON body it shows "API Online" where [fetchHealth] of
    the API client fails with "Health check failed". *)
Theorem checkAPIHealth_online_for_any_json (fetch : string -> Api.FetchOutcome)
    (badge : string * string) :
  (checkAPIHealth cfg fetch (Some badge) = Some ("🟢 API Online", "badge active")
     <-> exists r v, fetch (Config.API_BASE_URL cfg ++ "/health") = Api.Resolves r
                     /\ Api.body r = Some v)
  /\ (checkAPIHealth cfg fetch (Some badge) = Some ("🟢 API Online", "badge active")
      \/ checkAPIHealth cfg fetch (Some badge) = Some ("🟡 API Offline", "badge warning"))
  /\ checkAPIHealth cfg fetch None = None
  /\ (forall r v,
        fetch (Config.API_BASE_URL cfg ++ "/health") = Api.Resolves r ->
        Api.ok r = false -> Api.body r = Some v ->
        checkAPIHealth cfg fetch (Some badge) = Some ("🟢 API Online", "badge active")
        /\ Api.fetchHealth fetch (Config.API_BASE_URL cfg)
           = inr (Api.Failed "Health check failed")).
Proof.
  unfold checkAPIHealth, Api.fetchHealth.
  destruct (fetch (Config.API_BASE_URL cfg ++ "/health")) as [r|e] eqn:E.
  - destruct (Api.body r) as [v|] eqn:B; cbn.
    + split; [split; [eauto|reflexivity]|]. split; [now left|]. split; [reflexivity|].
      intros r' v' Er Hok _. injection Er as <-. rewrite Hok. split; reflexivity.
    + split; [split; [discriminate|]|].
      { intros (r' & v' & Er & Br). injection Er as <-. congruence. }
      split; [now right|]. split; [reflexivity|].
      intros r' v' Er _ Br. injection Er as <-. congruence.
  - cbn. split; [split; [discriminate|]|].
    { intros (r' & v' & Er & _). discriminate. }
    split; [now right|]. split; [reflexivity|]. intros r' v' Er. discriminate.
Qed.

(** X23.  The [finally] of [handleRunAnalysis].  Once the call has settled the
    run is no longer marked as running and the run button is enabled.  The
    call stays pending only when the response arrived before the timeout and
    its body never completes; the button then stays disabled, no toast is
    shown, and the Enter key in the product field starts no second run.
    Uploaded files and parsed rows are kept in every case. *)
Theorem run_button_released (net : Payload.t -> FetchOutcome) (form : Form.t) (w : World) :
  Js.truthy_str (productOf form) = true ->
  let w' := handleRunAnalysis cfg marked net form w in
  let call := snd (callAPI cfg net (apiPayloadOf form (state w))) in
  (settled call = true ->
     analysisRunning (state w') = false
     /\ View.runBtnDisabled (view w') = (fun _ => false) <$> View.runBtnDisabled (view w))
  /\ (settled call = false ->
     analysisRunning (state w') = true
     /\ View.runBtnDisabled (view w') = (fun _ => true) <$> View.runBtnDisabled (view w)
     /\ View.toasts (view w') = View.toasts (view w)
     /\ forall net' form', onProductKeydown cfg marked net' "Enter" form' w' = w')
  /\ (settled call = false <->
      exists t r, net (apiPayloadOf form (state w)) = Responds t r
                  /\ (t < timeoutOf cfg)%N /\ body r = Stalls)
  /\ parsedData (state w') = parsedData (state w)
  /\ uploadedFiles (state w') = uploadedFiles (state w).
Proof.
  intros Hp w' call. subst w' call. unfold handleRunAnalysis. rewrite Hp. cbn [negb].
  assert (P : settled (snd (callAPI cfg net (apiPayloadOf form (state w)))) = false <->
              exists t r, net (apiPayloadOf form (state w)) = Responds t r
                          /\ (t < timeoutOf cfg)%N /\ body r = Stalls).
  { unfold callAPI. destruct (net (apiPayloadOf form (state w))) as [t r|t e|].
    - destruct (t <? timeoutOf cfg)%N eqn:Et.
      + apply N.ltb_lt in Et. unfold received. cbn [snd].
        destruct (ok r), (body r) as [msg|d res|] eqn:B; cbn; split; try discriminate;
          try (intros (t' & r' & Er & _ & Br); injection Er as <- <-; congruence);
          intros _; exists t, r; repeat split; assumption.
      + apply N.ltb_ge in Et. cbn. split; [discriminate|].
        intros (t' & r' & Er & Hlt & _). injection Er as <- <-. lia.
    - split.
      + destruct (t <? timeoutOf cfg)%N; discriminate.
      + intros (t' & r' & Er & _). discriminate.
    - cbn. split; [discriminate|]. intros (t' & r' & Er & _). discriminate. }
  destruct (snd (callAPI cfg net (apiPayloadOf form (state w)))) as [result|err|] eqn:E;
    cbn [settled] in *.
  - split; [|split; [discriminate|split; [exact P|split; reflexivity]]].
    intros _. split; [reflexivity|]. cbn. now destruct (View.runBtnDisabled (view w)).
  - split; [|split; [discriminate|split; [exact P|split; reflexivity]]].
    intros _. split; [reflexivity|]. cbn. now destruct (View.runBtnDisabled (view w)).
  - split; [discriminate|]. split; [|split; [exact P|split; reflexivity]].
    intros _. split; [reflexivity|]. split; [reflexivity|]. split; [reflexivity|].
    intros net' form'. reflexivity.
Qed.




(** X26.  The message of a failed call.  For a response that arrived before
    the timeout: when it is not ok, the error shown in the toast and the
    status line is the [detail] of its JSON body when that is not empty, and
    "API Error: " followed by the status otherwise, also when the body is not
    JSON; when it is ok and the body is not JSON, it is the message of the
    parser.  The report and the scores stay as they were. *)
Theorem error_response_message (net : Payload.t -> FetchOutcome) (form : Form.t) (w : World)
    (t : N) (r : Response) :
  Js.truthy_str (productOf form) = true ->
  net (apiPayloadOf form (state w)) = Responds t r ->
  (t < timeoutOf cfg)%N ->
  let w' := handleRunAnalysis cfg marked net form w in
  let apiError := "API Error: " ++ Js.show_Z (Z.of_N (status r)) in
  let shows msg :=
    View.toasts (view w') = (msg, "error") :: View.toasts (view w)
    /\ View.configStatus (view w') = (fun _ => "❌ " ++ msg) <$> View.configStatus (view w)
    /\ View.report (view w') = View.report (view w)
    /\ View.confidenceScore (view w') = View.confidenceScore (view w) in
  (forall detail result, ok r = false -> body r = Json (Some detail) result ->
     detail <> EmptyString -> shows detail)
  /\ (forall result, ok r = false ->
        body r = Json None result \/ body r = Json (Some EmptyString) result ->
        shows apiError)
  /\ (forall msg, ok r = false -> body r = NotJson msg -> shows apiError)
  /\ (forall msg, ok r = true -> body r = NotJson msg -> shows msg).
Proof.
  intros Hp Hnet Hlt w' apiError shows.
  assert (T : forall err : Exn,
             Net.name err <> "AbortError" ->
             received r = Throw err -> shows (message err)).
  { intros err Hname Hrec. subst shows w'. cbn beta.
    rewrite (handleRunAnalysis_throw cfg marked net form w err Hp).
    - cbn. destruct (View.configStatus (view w)); repeat split.
    - unfold callAPI. rewrite Hnet. apply N.ltb_lt in Hlt. rewrite Hlt. cbn [snd].
      rewrite Hrec. unfold rethrow. apply String.eqb_neq in Hname. now rewrite Hname. }
  split; [|split; [|split]].
  - intros detail result Hok Hb Hd.
    apply (T (Error detail)); [discriminate|].
    unfold received. rewrite Hok, Hb. cbn. destruct detail; [congruence|reflexivity].
  - intros result Hok Hb.
    apply (T (Error apiError)); [discriminate|].
    unfold received. rewrite Hok. destruct Hb as [-> | ->]; reflexivity.
  - intros msg Hok Hb.
    apply (T (Error apiError)); [discriminate|].
    unfold received. rewrite Hok, Hb. reflexivity.
  - intros msg Hok Hb.
    apply (T (SyntaxError msg)); [discriminate|].
    unfold received. rewrite Hok, Hb. reflexivity.
Qed.

(** X27.  A rejection of [fetch] named "AbortError" is reported as the timeout
    of the request, also when it came before the timer; any other rejection
    that came before the timer is thrown as it is. *)
Theorem abort_error_reads_as_timeout (net : Payload.t -> FetchOutcome) (payload : Payload.t)
    (t : N) (e : Exn) :
  net payload = Fails t e ->
  (Net.name e = "AbortError" -> snd (callAPI cfg net payload) = Throw timedOut)
  /\ (Net.name e <> "AbortError" -> (t < timeoutOf cfg)%N ->
      callAPI cfg net payload = (t, Throw e)).
Proof.
  intros Hnet. unfold callAPI. rewrite Hnet. split.
  - intros Hn. unfold rethrow. rewrite Hn. destruct (t <? timeoutOf cfg)%N; reflexivity.
  - intros Hn Hlt. apply N.ltb_lt in Hlt. rewrite Hlt. unfold rethrow.
    apply String.eqb_neq in Hn. now rewrite Hn.
Qed.

Lemma listItems_five (shown more : list string) :
  length shown = 5%nat -> listItems (shown ++ more) = listItems shown.
Proof.
  intros H. unfold listItems, Js.slice0. rewrite <- H.
  rewrite firstn_app, Nat.sub_diag, firstn_all. cbn [firstn]. now rewrite app_nil_r.
Qed.

(** X28.  After a successful run: a result without risks (the field missing
    or empty) leaves the risk list as it was, and likewise for the
    recommendations; of more than five risks the first five are shown; a
    result without a report leaves the report panel and the download button
    as they were; the success toast is shown. *)
Theorem lists_stay_without_entries (net : Payload.t -> FetchOutcome) (form : Form.t)
    (w : World) (result : Result.t) :
  Js.truthy_str (productOf form) = true ->
  snd (callAPI cfg net (apiPayloadOf form (state w))) = Return result ->
  let w' := handleRunAnalysis cfg marked net form w in
  (noEntries (Result.risks result) -> View.riskList (view w') = View.riskList (view w))
  /\ (noEntries (Result.recommendations result) ->
      View.recommendations (view w') = View.recommendations (view w))
  /\ (forall shown more : list string, Result.risks result = Some (shown ++ more)%list ->
        length shown = 5%nat ->
        View.riskList (view w') = (fun _ => listItems shown) <$> View.riskList (view w))
  /\ (reportContent result = None ->
      View.report (view w') = View.report (view w)
      /\ View.downloadPdfBtn (view w') = View.downloadPdfBtn (view w))
  /\ View.toasts (view w') = ("✅ Analysis complete!", "success") :: View.toasts (view w).
Proof.
  intros Hp Hcall w'. subst w'. unfold handleRunAnalysis. rewrite Hp, Hcall. cbn [negb].
  cbn -[listItems]. split; [|split; [|split; [|split]]].
  - intros [-> | ->]; reflexivity.
  - intros [-> | ->]; reflexivity.
  - intros shown more -> Hlen.
    destruct shown as [|a shown]; [discriminate|]. cbn [app].
    change (a :: shown ++ more)%list with ((a :: shown) ++ more)%list.
    now rewrite listItems_five.
  - intros ->. destruct (View.report (view w)); split; reflexivity.
  - reflexivity.
Qed.

End AppRuns.

Lemma checkAPIHealth_online_for_any_json_witness :
  App.checkAPIHealth Config.CONFIG brokenApi (Some ("Checking API...", "badge"))
    = Some ("🟢 API Online", "badge active")
  /\ Api.fetchHealth brokenApi (Config.API_BASE_URL Config.CONFIG)
     = inr (Api.Failed "Health check failed").
Proof.
  destruct (checkAPIHealth_online_for_any_json Config.CONFIG brokenApi
              ("Checking API...", "badge")) as (_ & _ & _ & D).
  exact (D _ _ eq_refl eq_refl eq_refl).
Defined.

Lemma run_button_released_witness :
  let w' := App.handleRunAnalysis Config.CONFIG plainMarked stalling
              (formWith "SKU-472" None) freshWorld in
  App.analysisRunning (App.state w') = true
  /\ App.onProductKeydown Config.CONFIG plainMarked stalling "Enter"
       (formWith "SKU-472" None) w' = w'.
Proof.
  destruct (run_button_released Config.CONFIG plainMarked stalling
              (formWith "SKU-472" None) freshWorld eq_refl) as (_ & B & _).
  destruct (B eq_refl) as (B1 & _ & _ & B4).
  split; [exact B1|apply B4].
Defined.


Lemma error_response_message_witness :
  App.View.toasts
    (App.view (App.handleRunAnalysis Config.CONFIG plainMarked (rejecting 503 None)
                 (formWith "SKU-472" None) freshWorld))
    = [("API Error: 503", "error")].
Proof.
  assert (T : (120 < App.timeoutOf Config.CONFIG)%N) by reflexivity.
  destruct (error_response_message Config.CONFIG plainMarked (rejecting 503 None)
              (formWith "SKU-472" None) freshWorld 120%N _ eq_refl eq_refl T)
    as (_ & B & _).
  exact (proj1 (B (scoresOnly None None) eq_refl (or_introl eq_refl))).
Defined.

Lemma abort_error_reads_as_timeout_witness :
  snd (App.callAPI Config.CONFIG
         (fun _ => Net.Fails 10 {| Net.name := "AbortError"; Net.message := "aborted" |})
         (App.apiPayloadOf (formWith "SKU-472" None) freshState))
    = Net.Throw App.timedOut.
Proof.
  exact (proj1 (abort_error_reads_as_timeout Config.CONFIG
                  (fun _ => Net.Fails 10 {| Net.name := "AbortError"; Net.message := "aborted" |})
                  (App.apiPayloadOf (formWith "SKU-472" None) freshState)
                  10%N _ eq_refl) eq_refl).
Defined.

Lemma lists_stay_without_entries_witness :
  App.View.riskList
    (App.view (App.handleRunAnalysis Config.CONFIG plainMarked
                 (answering (scoresOnly (Some 0.9%Q) None))
                 (formWith "SKU-472" None) freshWorld))
    = App.View.riskList freshView.
Proof.
  destruct (lists_stay_without_entries Config.CONFIG plainMarked
              (answering (scoresOnly (Some 0.9%Q) None))
              (formWith "SKU-472" None) freshWorld (scoresOnly (Some 0.9%Q) None)
              eq_refl eq_refl) as (A & _).
  exact (A (or_introl eq_refl)).
Defined.
